(** * litstudy.plot: aggregation and rendering contract

    A shallow embedding of [src/litstudy/plot.py].  Python values that the
    module only reads are Rocq values; the mutable containers the module
    shares between functions (the count tables) and the objects it receives
    from its callers live in an explicit store, and every plotting function is
    a computation in a small state-and-exception monad that threads the store,
    the pyplot current axes and the log of calls made on canvases and on
    external collaborators. *)

From Stdlib Require Import ZArith QArith Qabs Lqa Floats Uint63 Lia.
From stdpp Require Import base decidable option list sorting gmap strings pretty.

Local Open Scope string_scope.
Local Open Scope list_scope.
Local Open Scope Z_scope.

(** ** Python scalars used as keys *)

(** The hashable values the selectors of this module yield: [None], a [str]
    or an [int]. *)
Inductive value :=
| VNone
| VStr (s : string)
| VInt (z : Z).

Global Instance value_eq_dec : EqDecision value.
Proof. solve_decision. Defined.

Global Instance VStr_inj : Inj (=) (=) VStr.
Proof. by intros s1 s2 [= ->]. Qed.

Global Instance VInt_inj : Inj (=) (=) VInt.
Proof. by intros z1 z2 [= ->]. Qed.

(** [if key:] -- Python truthiness. *)
Definition truthy (v : value) : bool :=
  match v with
  | VNone => false
  | VStr s => negb (String.eqb s "")
  | VInt z => negb (z =? 0)
  end.

(** [str(key)]. *)
Definition str (v : value) : string :=
  match v with
  | VNone => "None"
  | VStr s => s
  | VInt z => pretty z
  end.

(** A Python [str] is a sequence of characters; a [string] here holds its
    UTF-8 bytes.  A byte [10xxxxxx] continues the character before it. *)
Definition continuation (c : Ascii.ascii) : bool :=
  match c with
  | Ascii.Ascii _ _ _ _ _ _ b6 b7 => b7 && negb b6
  end.

(** [s[:n]] on a string, for [n >= 0]: the first [n] characters, each with
    all of its bytes. *)
Fixpoint str_prefix (n : nat) (s : string) : string :=
  match s with
  | EmptyString => EmptyString
  | String c s' =>
      if continuation c then String c (str_prefix n s')
      else match n with
           | O => EmptyString
           | S n' => String c (str_prefix n' s')
           end
  end.

(** [l[:k]] for an integer [k] of either sign. *)
Definition slice_to {A} (l : list A) (k : Z) : list A :=
  if 0 <=? k then take (Z.to_nat k) l
  else take (length l - Z.to_nat (- k))%nat l.

(** [l[-n:]] for [n > 0]. *)
Definition slice_last {A} (n : nat) (l : list A) : list A :=
  drop (length l - n)%nat l.

(** [sorted(l, key=key)]: Python's sort is stable and ascending. *)
Fixpoint insert_sorted {A} (key : A -> Z) (x : A) (l : list A) : list A :=
  match l with
  | [] => [x]
  | y :: l' => if key x <=? key y then x :: y :: l' else y :: insert_sorted key x l'
  end.

Definition sorted {A} (key : A -> Z) (l : list A) : list A :=
  foldr (insert_sorted key) [] l.

(** [list(range(lo, hi))]. *)
Definition range (lo hi : Z) : list Z :=
  map (fun i => lo + Z.of_nat i) (seq 0 (Z.to_nat (hi - lo))).

(** ** The data model: read-only records *)

Module Affiliation.
Record t := mk {
  name : string;
  country : option string;
  affiliation_type : option string
}.
End Affiliation.

Module Author.
Record t := mk {
  name : string;
  affiliations : option (list Affiliation.t)
}.
End Author.

(** A document: [year] is an [int] or [None], [authors] a list or [None],
    the other attributes a [str] or [None]. *)
Record Document := {
  year : option Z;
  authors : option (list Author.t);
  source : option string;
  source_type : option string;
  language : option string
}.

Record DocumentSet := { docs : list Document }.

(** An attribute that is [None] or a string, as a key. *)
Definition attr (o : option string) : value :=
  match o with None => VNone | Some s => VStr s end.

(** ** Count tables *)

(** A [dict] keeps its keys in insertion order, and [top_k] sorts them
    stably, so the order is part of the table. *)
Module Dict.

Definition t := list (value * Z).

Definition keys (d : t) : list value := map fst d.

Fixpoint get (d : t) (k : value) : option Z :=
  match d with
  | [] => None
  | (k', v) :: d' => if decide (k' = k) then Some v else get d' k
  end.

(** [d[k] += n] on a [defaultdict(int)]. *)
Fixpoint iadd (d : t) (k : value) (n : Z) : t :=
  match d with
  | [] => [(k, 0 + n)]
  | (k', v) :: d' =>
      if decide (k' = k) then (k', v + n) :: d' else (k', v) :: iadd d' k n
  end.

(** What a lookup of a missing key leaves in a [defaultdict(int)]. *)
Definition touch (d : t) (k : value) : t :=
  match get d k with
  | Some _ => d
  | None => d ++ [(k, 0)]
  end.

End Dict.

(** ** Array arithmetic *)

(** The element type of the numpy arrays is left open: the module does
    arithmetic on whatever dtype its collaborators return, and the same type
    stands for the Python floats it mixes with them.  [ltb] is [<], [to_int]
    is [int(x)]. *)
Class Scalar (R : Type) := {
  of_Z : Z -> R;
  add : R -> R -> R;
  sub : R -> R -> R;
  mul : R -> R -> R;
  div : R -> R -> R;
  absR : R -> R;
  ltb : R -> R -> bool;
  to_int : R -> Z
}.

(** A decimal literal such as [0.05], written [lit 5 100]. *)
Definition lit `{Scalar R} (n d : Z) : R := div (of_Z n) (of_Z d).

Definition maxR `{Scalar R} (x y : R) : R := if ltb x y then y else x.
Definition minR `{Scalar R} (x y : R) : R := if ltb y x then y else x.

(** [np.amax] and [np.amin] of a flat array; [None] stands for the
    [ValueError] numpy raises on an empty one. *)
Definition amax `{Scalar R} (l : list R) : option R :=
  match l with
  | [] => None
  | x :: l' => Some (foldl maxR x l')
  end.

Definition amin `{Scalar R} (l : list R) : option R :=
  match l with
  | [] => None
  | x :: l' => Some (foldl minR x l')
  end.

(** [np.argmax]: the index of the first maximal entry. *)
Fixpoint argmax_from `{Scalar R} (best : R) (ibest i : nat) (l : list R) : nat :=
  match l with
  | [] => ibest
  | x :: l' =>
      if ltb best x then argmax_from x i (S i) l' else argmax_from best ibest (S i) l'
  end.

Definition argmax `{Scalar R} (l : list R) : option nat :=
  match l with
  | [] => None
  | x :: l' => Some (argmax_from x 0%nat 1%nat l')
  end.

(** Exact rational arithmetic. *)
Global Instance Q_scalar : Scalar Q := {|
  of_Z := inject_Z;
  add := Qplus;
  sub := Qminus;
  mul := Qmult;
  div := Qdiv;
  absR := Qabs;
  ltb := fun x y => negb (Qle_bool y x);
  to_int := fun q => Z.quot (Qnum q) (Zpos (Qden q))
|}.

(** [float(z)] for an integer below [2^63] in size, as the literals here are. *)
Definition float_of_Z (z : Z) : float :=
  if z <? 0 then PrimFloat.opp (PrimFloat.of_uint63 (Uint63.of_Z (- z)))
  else PrimFloat.of_uint63 (Uint63.of_Z z).

(** [int(x)]: truncation towards zero. *)
Definition float_to_int (x : float) : Z :=
  match Prim2SF x with
  | S754_finite s m e =>
      let a := if 0 <=? e then Zpos m * 2 ^ e else Zpos m / 2 ^ (- e) in
      if s then - a else a
  | _ => 0
  end.

(** IEEE 754 binary64 arithmetic, numpy's [float64]. *)
Global Instance float_scalar : Scalar float := {|
  of_Z := float_of_Z;
  add := PrimFloat.add;
  sub := PrimFloat.sub;
  mul := PrimFloat.mul;
  div := PrimFloat.div;
  absR := PrimFloat.abs;
  ltb := PrimFloat.ltb;
  to_int := float_to_int
|}.

(** IEEE 754 binary32 arithmetic, numpy's [float32]: the dtype of the
    embedding that recent versions of scikit-learn's TSNE return.  A Python
    float that meets such an array is rounded to binary32 as well. *)
Definition binary32 : Type := spec_float.

Definition binary32_to_int (x : binary32) : Z :=
  match x with
  | S754_finite s m e =>
      let a := if 0 <=? e then Zpos m * 2 ^ e else Zpos m / 2 ^ (- e) in
      if s then - a else a
  | _ => 0
  end.

Global Instance binary32_scalar : Scalar binary32 := {|
  of_Z := fun z => binary_normalize 24 128 z 0 false;
  add := SFadd 24 128;
  sub := SFsub 24 128;
  mul := SFmul 24 128;
  div := SFdiv 24 128;
  absR := SFabs;
  ltb := SFltb;
  to_int := binary32_to_int
|}.

(** ** Topic models and word clouds *)

Record TopicModel (R : Type) := {
  topic2token : list (list R);
  doc2topic : list (list R);
  dictionary : gmap nat string;
  num_topics : nat
}.
Arguments topic2token {R} _.
Arguments doc2topic {R} _.
Arguments dictionary {R} _.
Arguments num_topics {R} _.

(** A [wordcloud.WordCloud] as [generate_topic_cloud] configures it, together
    with the frequencies handed to [fit_words]. *)
Record WordCloud (R : Type) := {
  prefer_horizontal : bool;
  max_font_size : Z;
  background_color : string;
  color_func : R -> string;
  scale : Z;
  relative_scaling : R;
  fit_words : list (string * R)
}.
Arguments prefer_horizontal {R} _.
Arguments max_font_size {R} _.
Arguments background_color {R} _.
Arguments color_func {R} _.
Arguments scale {R} _.
Arguments relative_scaling {R} _.
Arguments fit_words {R} _.

(** The word frequencies of a corpus: per document, (token id, count). *)
Definition Freqs := list (list (nat * Z)).

(** The collaborators the module calls: the cleaning module, matplotlib's
    colour maps, numpy's [argsort] (whose order among ties is unspecified) and
    global random generator, and the three scikit-learn transformations.
    Their results are not computed here. *)
Class Libraries (R : Type) := {
  get_affiliations_doc : Document -> option string -> list value;
  get_cmap : string -> R -> R * R * R * R;
  argsort : list R -> list nat;
  random_permutation : nat -> nat -> list nat;
  create_tfidf : Freqs -> gmap nat string -> list (list R);
  svd_fit_transform : Z -> list (list R) -> list (list R);
  tsne_fit_transform : Z -> list (list R) -> list (R * R)
}.

(** ** The store, the canvases and the monad *)

Definition loc := nat.
Definition axes := nat.
Definition figure := nat.

(** The objects callers pass by reference, and the count tables.  [ODict]
    records whether the table is a [defaultdict(int)] or a plain [dict]. *)
Inductive obj (R : Type) :=
| ODocSet (ds : DocumentSet)
| ODict (is_default : bool) (entries : Dict.t)
| OModel (m : TopicModel R)
| OFreqs (f : Freqs)
| ODictionary (d : gmap nat string).
Arguments ODocSet {R} _.
Arguments ODict {R} _ _.
Arguments OModel {R} _.
Arguments OFreqs {R} _.
Arguments ODictionary {R} _.

(** The [x] argument of [plot_statistic]: a list, an [int], or anything else
    ([None] by default). *)
Inductive xarg :=
| XOther
| XInt (k : Z)
| XList (l : list value).

(** The two functions that hand themselves to the cleaning routine. *)
Inductive plotter := PlotSourceHistogram | PlotAffiliationHistogram.

(** Method calls on an axes object. *)
Inductive command (R : Type) :=
| set_title (label : string)
| set_xlabel (label : string)
| set_ylabel (label : string)
| barh (y : list value) (width : list Z) (tick_label : list string)
| bar (x : list value) (height : list Z) (tick_label : list string)
| set_xticks (ticks : list R)
| set_yticks (ticks : list R)
| set_xlim (lo hi : Z)
| set_ylim (lo hi : Z)
| imshow (wc : WordCloud R) (interpolation : string)
| scatter (x y : R) (s : Z) (c : R * R * R) (marker : string)
    (linewidth : R) (zorder : Z)
| text (x y : R) (s : string) (fontsize : Z) (color : option string)
    (va ha : string) (fontweight : option string) (zorder : Z).
Arguments set_title {R} _.
Arguments set_xlabel {R} _.
Arguments set_ylabel {R} _.
Arguments barh {R} _ _ _.
Arguments bar {R} _ _ _.
Arguments set_xticks {R} _.
Arguments set_yticks {R} _.
Arguments set_xlim {R} _ _.
Arguments set_ylim {R} _ _.
Arguments imshow {R} _ _.
Arguments scatter {R} _ _ _ _ _ _ _.
Arguments text {R} _ _ _ _ _ _ _ _ _.

(** Everything a plotting function does to the world outside the store:
    calls on a canvas, on pyplot's global state, on the cleaning routine, on
    the console and on numpy's global random generator.  A [Draw] records
    the call with the arguments the module hands over.  What the canvas
    makes of them is matplotlib's business and is not decided here: it
    does not, for one, take a list that mixes strings with numbers as the
    positions of bars. *)
Inductive event (R : Type) :=
| Draw (ax : axes) (c : command R)
| Clf (fig : figure)
| AddSubplot (fig : figure) (rows : Z) (cols : Z) (index : Z) (ax : axes)
| CleanAttributes (plot : plotter) (docset : loc) (top_k : xarg)
    (ax : option axes) (filename : string) (cleaning_type : string)
| Verbose (source : string)
| GlobalRandom (n : nat).
Arguments Draw {R} _ _.
Arguments Clf {R} _.
Arguments AddSubplot {R} _ _ _ _ _.
Arguments CleanAttributes {R} _ _ _ _ _ _.
Arguments Verbose {R} _.
Arguments GlobalRandom {R} _.

Record world (R : Type) := World {
  heap : list (obj R);
  current_figure : figure;
  current_axes : axes;
  next_axes : axes;
  rng : nat;
  log : list (event R)
}.
Arguments World {R} _ _ _ _ _ _.
Arguments heap {R} _.
Arguments current_figure {R} _.
Arguments current_axes {R} _.
Arguments next_axes {R} _.
Arguments rng {R} _.
Arguments log {R} _.

Inductive exn :=
| ValueError (msg : string)
| KeyError (msg : string)
| AttributeError (msg : string)
| TypeError (msg : string)
| IndexError (msg : string)
| ZeroDivisionError (msg : string).

Inductive outcome (A : Type) :=
| Return (a : A)
| Raise (e : exn).
Arguments Return {A} _.
Arguments Raise {A} _.

Definition Py (R A : Type) := world R -> outcome A * world R.

Definition ret {R A} (a : A) : Py R A := fun w => (Return a, w).

Definition raise {R A} (e : exn) : Py R A := fun w => (Raise e, w).

Definition bind {R A B} (m : Py R A) (k : A -> Py R B) : Py R B :=
  fun w =>
    match m w with
    | (Return a, w') => k a w'
    | (Raise e, w') => (Raise e, w')
    end.

Notation "x <- m ;; k" := (bind m (fun x => k))
  (at level 100, m at next level, right associativity).
Notation "m ;; k" := (bind m (fun _ => k))
  (at level 100, right associativity).

(** [for a in l: body(a)]. *)
Fixpoint for_ {R A} (l : list A) (body : A -> Py R unit) : Py R unit :=
  match l with
  | [] => ret tt
  | a :: l' => body a ;; for_ l' body
  end.

(** A list comprehension whose element expression has effects. *)
Fixpoint comprehension {R A B} (l : list A) (f : A -> Py R B) : Py R (list B) :=
  match l with
  | [] => ret []
  | a :: l' => b <- f a ;; bs <- comprehension l' f ;; ret (b :: bs)
  end.

Definition of_option {R A} (e : exn) (o : option A) : Py R A :=
  match o with
  | Some a => ret a
  | None => raise e
  end.

Definition get_heap {R} : Py R (list (obj R)) := fun w => (Return (heap w), w).

Definition with_heap {R} (h : list (obj R)) (w : world R) : world R :=
  World h (current_figure w) (current_axes w) (next_axes w) (rng w) (log w).

Definition with_log {R} (evs : list (event R)) (w : world R) : world R :=
  World (heap w) (current_figure w) (current_axes w) (next_axes w) (rng w) evs.

Definition set_heap {R} (h : list (obj R)) : Py R unit :=
  fun w => (Return tt, with_heap h w).

(** A new object: its reference is the next free one. *)
Definition alloc {R} (o : obj R) : Py R loc :=
  h <- get_heap ;; set_heap (h ++ [o]) ;; ret (length h).

Definition load {R} (l : loc) : Py R (obj R) :=
  h <- get_heap ;; of_option (AttributeError "no such object") (h !! l).

Definition store {R} (l : loc) (o : obj R) : Py R unit :=
  h <- get_heap ;; set_heap (<[l := o]> h).

Definition emit {R} (e : event R) : Py R unit :=
  fun w => (Return tt, with_log (log w ++ [e]) w).

(** [plt.gca()] and [plt.gcf()]. *)
Definition gca {R} : Py R axes := fun w => (Return (current_axes w), w).
Definition gcf {R} : Py R figure := fun w => (Return (current_figure w), w).

(** [docset.docs]. *)
Definition get_docs {R} (docset : option loc) : Py R (list Document) :=
  match docset with
  | None => raise (AttributeError "'NoneType' object has no attribute 'docs'")
  | Some l =>
      o <- load l ;;
      match o with
      | ODocSet ds => ret (docs ds)
      | _ => raise (AttributeError "object has no attribute 'docs'")
      end
  end.

Definition load_dict {R} (l : loc) : Py R (bool * Dict.t) :=
  o <- load l ;;
  match o with
  | ODict b d => ret (b, d)
  | _ => raise (TypeError "object is not subscriptable")
  end.

(** [count[k] += n]; on a plain [dict] a missing key is a [KeyError]. *)
Definition dict_iadd {R} (c : loc) (k : value) (n : Z) : Py R unit :=
  bd <- load_dict c ;;
  match Dict.get bd.2 k, bd.1 with
  | None, false => raise (KeyError (str k))
  | _, _ => store c (ODict bd.1 (Dict.iadd bd.2 k n))
  end.

(** [count[k]]: a [defaultdict] stores the default under a missing key. *)
Definition dict_getitem {R} (c : loc) (k : value) : Py R Z :=
  bd <- load_dict c ;;
  match Dict.get bd.2 k, bd.1 with
  | Some v, _ => ret v
  | None, true => store c (ODict true (Dict.touch bd.2 k)) ;; ret 0
  | None, false => raise (KeyError (str k))
  end.

(** ** Statistics plotting functions *)

(** [top_k(mapping, k)]: the keys sorted by ascending count, reversed, cut. *)
Definition top_k (mapping : Dict.t) (k : Z) : list value :=
  slice_to (reverse (sorted (fun x => default 0 (Dict.get mapping x)) (Dict.keys mapping))) k.

(** What iterating over the result of a key selector yields. *)
Definition selector := Document -> list value.

(** [plt.title(title)]: pyplot sets the title of its current axes. *)
Definition plt_title {R} (title : string) : Py R unit :=
  a <- gca ;; emit (Draw a (set_title title)).

(** Lines 43-47 of [plot_statistic]: a new [defaultdict(int)] and the
    aggregation loop over [docset.docs]. *)
Definition aggregate {R} (fun_ : option selector) (docset : option loc) : Py R loc :=
  count <- alloc (ODict true []) ;;
  ds <- get_docs docset ;;
  for_ ds (fun d =>
    match fun_ with
    | None => raise (TypeError "'NoneType' object is not callable")
    | Some f =>
        for_ (f d) (fun key =>
          if truthy key then dict_iadd count (VStr (str key)) 1 else ret tt)
    end) ;;
  ret count.

Definition tick_labels (keys : list value) : list string :=
  map (fun key => str_prefix 50 (str key)) keys.

Definition plot_statistic {R} (fun_ : option selector) (docset : option loc)
    (x : xarg) (ax : option axes) (x_label : string) (count : option loc)
    (vertical : bool) (title : option string) : Py R unit :=
  ax <- match ax with None => gca | Some a => ret a end ;;
  count <- match count with None => aggregate fun_ docset | Some c => ret c end ;;
  match title with Some t => plt_title t | None => ret tt end ;;
  keys <- match x with
          | XList l => ret l
          | XInt k => bd <- load_dict count ;; ret (top_k bd.2 k)
          | XOther => bd <- load_dict count ;; ret (Dict.keys bd.2)
          end ;;
  if negb vertical then
    let keys := reverse keys in
    emit (Draw ax (set_xlabel x_label)) ;;
    widths <- comprehension keys (fun a => dict_getitem count (VStr (str a))) ;;
    emit (Draw ax (barh keys widths (tick_labels keys)))
  else
    emit (Draw ax (set_ylabel x_label)) ;;
    heights <- comprehension keys (fun a => dict_getitem count (VStr (str a))) ;;
    emit (Draw ax (bar keys heights (tick_labels keys))).

(** What a function of this module returns when it returns either a list or
    a set, and the sequence a [for] loop gets from it.  Python does not say
    in which order a set is iterated; [elements] fixes one. *)
Inductive iterable :=
| IList (l : list value)
| ISet (s : gset string).

Definition iter (i : iterable) : list value :=
  match i with
  | IList l => l
  | ISet s => VStr <$> elements s
  end.

Definition merge_author_affiliation (doc : Document) : iterable :=
  match authors doc with
  | None => IList []
  | Some doc_authors =>
      let authors_plus_aff :=
        foldl (fun acc author =>
                 match Author.affiliations author with
                 | None => acc ++ [Author.name author +:+ ", Unknown"]
                 | Some affs =>
                     acc ++ map (fun affiliation =>
                                   Author.name author +:+ ", " +:+ Affiliation.name affiliation)
                                affs
                 end)
              [] doc_authors in
      ISet (list_to_set authors_plus_aff)
  end.

(** [set(a.name for a in p.authors or [])]. *)
Definition author_names (p : Document) : gset string :=
  list_to_set (Author.name <$> default [] (authors p)).

Definition int_of (v : value) : option Z :=
  match v with VInt z => Some z | _ => None end.

(** [min] and [max] of a sequence of integers; [None] is the [ValueError] on
    an empty one. *)
Definition py_min (l : list Z) : option Z :=
  match l with [] => None | y :: l' => Some (foldl Z.min y l') end.

Definition py_max (l : list Z) : option Z :=
  match l with [] => None | y :: l' => Some (foldl Z.max y l') end.

(** The [year_count] table of [plot_year_histogram] (lines 94-98). *)
Definition year_count (ds : list Document) : Dict.t :=
  foldl (fun yc d =>
           match year d with
           | Some y => Dict.iadd yc (VInt y) 1
           | None => yc
           end) [] ds.

Definition year_key (p : Document) : value :=
  match year p with None => VNone | Some y => VInt y end.

Definition plot_year_histogram {R} (docset : loc) (ax : option axes) : Py R unit :=
  ds <- get_docs (Some docset) ;;
  let years_seen := omap int_of (Dict.keys (year_count ds)) in
  min_year <- of_option (ValueError "min() arg is an empty sequence") (py_min years_seen) ;;
  max_year <- of_option (ValueError "max() arg is an empty sequence") (py_max years_seen) ;;
  let years := range min_year (max_year + 1) in
  plot_statistic (Some (fun p => [year_key p])) (Some docset) (XList (VInt <$> years)) ax
    "No. publications" None true (Some "Publications per year").

Definition plot_author_histogram {R} (docset : loc) (top_k : xarg) (ax : option axes)
    : Py R unit :=
  plot_statistic (Some (fun p => VStr <$> elements (author_names p))) (Some docset) top_k ax
    "No. publications" None false (Some "Publications per author").

Definition plot_author_affiliation_histogram {R} (docset : loc) (top_k : xarg)
    (ax : option axes) : Py R unit :=
  plot_statistic (Some (fun p => iter (merge_author_affiliation p))) (Some docset) top_k ax
    "No. publications" None false (Some "Publications per author+affiliation").

Definition plot_number_authors_histogram {R} (docset : loc) (ax : option axes)
    : Py R unit :=
  plot_statistic (Some (fun p => [VInt (Z.of_nat (size (author_names p)))])) (Some docset)
    (XList (VInt <$> range 1 26)) ax
    "No. publications" None true (Some "Histogram for number of authors").

Definition plot_source_type_histogram {R} (docset : loc) (ax : option axes) : Py R unit :=
  plot_statistic (Some (fun p => [attr (source_type p)])) (Some docset) XOther ax
    "No. publications" None false (Some "Publication per source type").

Definition plot_source_histogram {R} (docset : loc) (top_k : xarg) (ax : option axes)
    (filename : string) (clean : bool) : Py R unit :=
  if negb clean then
    plot_statistic (Some (fun p => [attr (source p)])) (Some docset) top_k ax
      "No. publications" None false (Some "Publications per source")
  else
    emit (CleanAttributes PlotSourceHistogram docset top_k ax filename "sources").

Definition plot_affiliation_histogram {R} `{Libraries R} (docset : loc) (top_k : xarg)
    (ax : option axes) (filename : string) (clean : bool) : Py R unit :=
  if negb clean then
    plot_statistic (Some (fun p => get_affiliations_doc p None)) (Some docset) top_k ax
      "No. publications" None false (Some "Publications per affiliation")
  else
    emit (CleanAttributes PlotAffiliationHistogram docset top_k ax filename "affiliations").

Definition plot_country_histogram {R} `{Libraries R} (docset : loc) (top_k : xarg)
    (ax : option axes) : Py R unit :=
  plot_statistic (Some (fun p => get_affiliations_doc p (Some "country"))) (Some docset)
    top_k ax
    "No. publications" None false (Some "Publications per country of affiliations").

Definition plot_affiliation_type_histogram {R} `{Libraries R} (docset : loc) (x : xarg)
    (ax : option axes) : Py R unit :=
  plot_statistic (Some (fun p => get_affiliations_doc p (Some "affiliation_type")))
    (Some docset) x ax
    "No. publications" None false (Some "Publications per type of affiliation").

Definition plot_language_histogram {R} (docset : loc) (ax : option axes) : Py R unit :=
  plot_statistic (Some (fun p => [attr (language p)])) (Some docset) XOther ax
    "No. publications" None false (Some "Publications per source language").

Definition load_freqs {R} (l : loc) : Py R Freqs :=
  o <- load l ;;
  match o with
  | OFreqs f => ret f
  | _ => raise (TypeError "object is not iterable")
  end.

Definition load_dictionary {R} (l : loc) : Py R (gmap nat string) :=
  o <- load l ;;
  match o with
  | ODictionary d => ret d
  | _ => raise (TypeError "object is not subscriptable")
  end.

(** The body shared, word for word, by [plot_words_histogram] and
    [plot_bigram_histogram]; they differ in the axis label only. *)
Definition plot_frequency_histogram {R} (x_label : string) (freqs dic : loc)
    (top_k : xarg) (ax : option axes) : Py R unit :=
  f <- load_freqs freqs ;;
  let all_freqs := concat f in
  count <- alloc (ODict true []) ;;
  for_ all_freqs (fun wf =>
    d <- load_dictionary dic ;;
    token <- of_option (KeyError (pretty wf.1)) (d !! wf.1) ;;
    dict_iadd count (VStr (str (VStr token))) wf.2) ;;
  plot_statistic None None top_k ax x_label (Some count) false None.

Definition plot_words_histogram {R} (freqs dic : loc) (top_k : xarg) (ax : option axes)
    : Py R unit :=
  plot_frequency_histogram "No. occurences" freqs dic top_k ax.

Definition plot_bigram_histogram {R} (freqs dic : loc) (top_k : xarg) (ax : option axes)
    : Py R unit :=
  plot_frequency_histogram "No. publications" freqs dic top_k ax.

(** ** Wordcloud plotting functions *)

(** The keyword arguments of [generate_topic_cloud] with their defaults
    ([cmap=None], [max_font_size=75], [background_color='white']). *)
Record cloud_kwargs (R : Type) := {
  kw_cmap : option (R -> R * R * R * R);
  kw_max_font_size : Z;
  kw_background_color : string
}.
Arguments kw_cmap {R} _.
Arguments kw_max_font_size {R} _.
Arguments kw_background_color {R} _.

(** [mapping[k] = v] on a [dict] of token weights. *)
Fixpoint mapping_set {R} (m : list (string * R)) (k : string) (v : R) : list (string * R) :=
  match m with
  | [] => [(k, v)]
  | (k', v') :: m' =>
      if decide (k' = k) then (k', v) :: m' else (k', v') :: mapping_set m' k v
  end.

(** The closure [get_color] that [generate_topic_cloud] passes as
    [color_func]; the library calls it with the font size of a word. *)
Definition get_color `{Scalar R} (cmap : R -> R * R * R * R) (font_size : R) : string :=
  let weight := add (mul (div font_size (of_Z 75)) (lit 7 10)) (lit 3 10) in
  let '(r, g, b, _) := cmap weight in
  "rgb(" +:+ pretty (to_int (mul r (of_Z 255))) +:+ ", "
         +:+ pretty (to_int (mul g (of_Z 255))) +:+ ", "
         +:+ pretty (to_int (mul b (of_Z 255))) +:+ ")".

Definition load_model {R} (l : loc) : Py R (TopicModel R) :=
  o <- load l ;;
  match o with
  | OModel m => ret m
  | _ => raise (AttributeError "object is not a topic model")
  end.

(** One pass of the loop of lines 295-297 of [generate_topic_cloud]. *)
Definition cloud_step `{Scalar R} (dictionary : gmap nat string) (row : list R)
    (maximum : R) (mapping : list (string * R)) (i : nat)
    : Py R (list (string * R)) :=
  w <- of_option (IndexError "index out of bounds") (row !! i) ;;
  if ltb (of_Z 0) w then
    token <- of_option (KeyError (pretty i)) (dictionary !! i) ;;
    ret (mapping_set mapping token (div w maximum))
  else ret mapping.

Fixpoint cloud_loop `{Scalar R} (dictionary : gmap nat string) (row : list R)
    (maximum : R) (mapping : list (string * R)) (idx : list nat)
    : Py R (list (string * R)) :=
  match idx with
  | [] => ret mapping
  | i :: idx' =>
      mapping' <- cloud_step dictionary row maximum mapping i ;;
      cloud_loop dictionary row maximum mapping' idx'
  end.

(** [wc.fit_words(mapping)] (line 311) raises [ValueError] when the mapping
    is empty: the library needs at least one word. *)
Definition generate_topic_cloud `{Scalar R} `{Libraries R} (model : loc) (topicid : nat)
    (kwargs : cloud_kwargs R) : Py R (WordCloud R) :=
  let cmap := default (get_cmap "Blues") (kw_cmap kwargs) in
  m <- load_model model ;;
  row <- of_option (IndexError "index out of bounds") (topic2token m !! topicid) ;;
  maximum <- of_option (ValueError "zero-size array to reduction operation maximum")
               (amax row) ;;
  mapping <- cloud_loop (dictionary m) row maximum [] (slice_last 100 (argsort row)) ;;
  match mapping with
  | [] => raise (ValueError "We need at least 1 word to plot a word cloud, got 0.")
  | _ :: _ =>
      ret {| prefer_horizontal := true;
             max_font_size := kw_max_font_size kwargs;
             background_color := kw_background_color kwargs;
             color_func := get_color cmap;
             scale := 2;
             relative_scaling := lit 1 2;
             fit_words := mapping |}
  end.

Definition plot_topic_cloud `{Scalar R} `{Libraries R} (model : loc) (topicid : nat)
    (ax : option axes) (kwargs : cloud_kwargs R) : Py R unit :=
  ax <- match ax with None => gca | Some a => ret a end ;;
  emit (Draw ax (set_xticks [])) ;;
  emit (Draw ax (set_yticks [])) ;;
  wc <- generate_topic_cloud model topicid kwargs ;;
  emit (Draw ax (imshow wc "bilinear")).

(** [fig.add_subplot(rows, cols, index)]: matplotlib raises [ValueError]
    unless [rows] and [cols] are positive and [index] is a cell of the grid;
    otherwise there is a new axes, which becomes pyplot's current axes when
    [fig] is pyplot's current figure. *)
Definition add_subplot {R} (fig : figure) (rows cols index : Z) : Py R axes :=
  fun w =>
    if decide (rows <= 0) then
      (Raise (ValueError ("Number of rows must be a positive integer, not " +:+ pretty rows)),
       w)
    else if decide (cols <= 0) then
      (Raise (ValueError ("Number of columns must be a positive integer, not "
                          +:+ pretty cols)),
       w)
    else if decide (1 <= index <= rows * cols) then
      let a := next_axes w in
      (Return a,
       World (heap w) (current_figure w)
             (if decide (fig = current_figure w) then a else current_axes w)
             (S a) (rng w) (log w ++ [AddSubplot fig rows cols index a]))
    else
      (Raise (ValueError ("num must be an integer with 1 <= num <= "
                          +:+ pretty (rows * cols) +:+ ", not " +:+ pretty index)),
       w).

(** [math.ceil(n / float(cols))]. *)
Definition ceil_div (n cols : Z) : Z := - ((- n) `div` cols).

Definition plot_topic_clouds `{Scalar R} `{Libraries R} (model : loc) (cols : Z)
    (fig : option figure) (kwargs : cloud_kwargs R) : Py R unit :=
  fig <- match fig with
         | None => f <- gcf ;; emit (Clf f) ;; gcf
         | Some f => ret f
         end ;;
  m <- load_model model ;;
  (if decide (cols = 0) then raise (ZeroDivisionError "float division by zero")
   else ret tt) ;;
  let rows := ceil_div (Z.of_nat (num_topics m)) cols in
  for_ (seq 0 (num_topics m)) (fun i =>
    ax <- add_subplot fig rows cols (Z.of_nat i + 1) ;;
    plot_topic_cloud model i (Some ax) kwargs).

(** ** Topic map plotting functions *)

Definition labels : string := "ABCDEFGHIJKLMNOPQRSTUVWXYZ".

Definition draw_dot `{Scalar R} `{Libraries R} (ax : axes) (model : loc) (p : R * R)
    (t : nat) (zorder : Z) : Py R unit :=
  m <- load_model model ;;
  (if decide (num_topics m = 0%nat) then raise (ZeroDivisionError "float division by zero")
   else ret tt) ;;
  let '(r, g, b, _) := get_cmap "jet" (div (of_Z (Z.of_nat t)) (of_Z (Z.of_nat (num_topics m)))) in
  let color := (mul (lit 8 10) r, mul (lit 8 10) g, mul (lit 8 10) b) in
  emit (Draw ax (scatter p.1 p.2 150 color "o" (lit 1 2) zorder)) ;;
  label <- of_option (IndexError "string index out of range") (String.get t labels) ;;
  emit (Draw ax (text p.1 p.2 (String label EmptyString) 6 (Some "1") "center" "center"
                      (Some "bold") (zorder + 1))).

(** Lines 366-369 of [plot_topic_map]; [None] is the [ValueError] of a
    reduction over an empty array. *)
Definition normalize `{Scalar R} (pos : list (R * R)) : option (list (R * R)) :=
  lo_x ← amin pos.*1; hi_x ← amax pos.*1;
  lo_y ← amin pos.*2; hi_y ← amax pos.*2;
  let c_x := div (add lo_x hi_x) (of_Z 2) in
  let c_y := div (add lo_y hi_y) (of_Z 2) in
  let pos1 := map (fun p => (sub p.1 c_x, sub p.2 c_y)) pos in
  m ← amax (flat_map (fun p => [absR p.1; absR p.2]) pos1);
  let pos2 := map (fun p => (div p.1 m, div p.2 m)) pos1 in
  let pos3 := map (fun p => (add (mul p.1 (lit 1 2)) (lit 1 2),
                             add (mul p.2 (lit 1 2)) (lit 1 2))) pos2 in
  Some (map (fun p => (add (mul p.1 (lit 9 10)) (lit 5 100),
                       add (mul p.2 (lit 9 10)) (lit 5 100))) pos3).

(** [np.average(a, axis=0)] of a rectangular two-dimensional array. *)
Definition column_average `{Scalar R} (a : list (list R)) : list R :=
  map (fun j =>
         div (foldl add (of_Z 0) (map (fun row => default (of_Z 0) (row !! j)) a))
             (of_Z (Z.of_nat (length a))))
      (seq 0 (length (default [] (head a)))).

(** [np.random.permutation(n)]: drawn from numpy's global generator. *)
Definition np_random_permutation `{Libraries R} (n : nat) : Py R (list nat) :=
  fun w =>
    (Return (random_permutation (rng w) n),
     World (heap w) (current_figure w) (current_axes w) (next_axes w) (S (rng w))
           (log w ++ [GlobalRandom n])).

(** [', '.join(l)]. *)
Fixpoint join (l : list string) : string :=
  match l with
  | [] => ""
  | [s] => s
  | s :: l' => s +:+ ", " +:+ join l'
  end.

(** The loops of [plot_topic_map] carry [zorder] from one pass to the next. *)
Fixpoint for_zorder {R A} (l : list A) (zorder : Z) (body : A -> Z -> Py R Z) : Py R Z :=
  match l with
  | [] => ret zorder
  | a :: l' => z <- body a zorder ;; for_zorder l' z body
  end.

Definition plot_topic_map `{Scalar R} `{Libraries R} (model dic freqs : loc)
    (ax : option axes) (seed : Z) : Py R unit :=
  ax <- match ax with None => gca | Some a => ret a end ;;
  f <- load_freqs freqs ;;
  d <- load_dictionary dic ;;
  let tfidf_matrix := create_tfidf f d in
  let reduced_matrix := svd_fit_transform seed tfidf_matrix in
  emit (Verbose "TSNE") ;;
  let pos := tsne_fit_transform seed reduced_matrix in
  pos <- of_option (ValueError "zero-size array to reduction operation minimum")
           (normalize pos) ;;
  emit (Draw ax (set_xticks [])) ;;
  emit (Draw ax (set_yticks [])) ;;
  emit (Draw ax (set_xlim 0 1)) ;;
  emit (Draw ax (set_ylim 0 1)) ;;
  m <- load_model model ;;
  let avg := column_average (doc2topic m) in
  perm <- np_random_permutation (length (doc2topic m)) ;;
  zorder <- for_zorder perm 0 (fun i zorder =>
    m <- load_model model ;;
    row <- of_option (IndexError "index out of bounds") (doc2topic m !! i) ;;
    topic_id <- of_option (ValueError "attempt to get argmax of an empty sequence")
                  (argmax (zip_with sub row avg)) ;;
    p <- of_option (IndexError "index out of bounds") (pos !! i) ;;
    draw_dot ax model p topic_id zorder ;;
    ret (zorder + 2)) ;;
  m <- load_model model ;;
  for_zorder (seq 0 (num_topics m)) zorder (fun i zorder =>
    let y := sub (lit 95 100) (mul (of_Z (Z.of_nat i)) (lit 5 100)) in
    m <- load_model model ;;
    row <- of_option (IndexError "index out of bounds") (topic2token m !! i) ;;
    d <- load_dictionary dic ;;
    tokens <- comprehension (take 3 (reverse (argsort row)))
                (fun w => of_option (KeyError (pretty w)) (d !! w)) ;;
    draw_dot ax model (lit 15 1000, y) i 0 ;;
    emit (Draw ax (text (lit 3 100) y (join tokens) 8 None "center" "left" None zorder)) ;;
    ret (zorder + 1)) ;;
  ret tt.

(** ** The plotting functions of the module, as calls *)

Inductive call (R : Type) :=
| plot_statistic_ (fun_ : option selector) (docset : option loc) (x : xarg)
    (ax : option axes) (x_label : string) (count : option loc) (vertical : bool)
    (title : option string)
| plot_year_histogram_ (docset : loc) (ax : option axes)
| plot_author_histogram_ (docset : loc) (top_k : xarg) (ax : option axes)
| plot_author_affiliation_histogram_ (docset : loc) (top_k : xarg) (ax : option axes)
| plot_number_authors_histogram_ (docset : loc) (ax : option axes)
| plot_source_type_histogram_ (docset : loc) (ax : option axes)
| plot_source_histogram_ (docset : loc) (top_k : xarg) (ax : option axes)
    (filename : string) (clean : bool)
| plot_affiliation_histogram_ (docset : loc) (top_k : xarg) (ax : option axes)
    (filename : string) (clean : bool)
| plot_country_histogram_ (docset : loc) (top_k : xarg) (ax : option axes)
| plot_affiliation_type_histogram_ (docset : loc) (x : xarg) (ax : option axes)
| plot_language_histogram_ (docset : loc) (ax : option axes)
| plot_words_histogram_ (freqs dic : loc) (top_k : xarg) (ax : option axes)
| plot_bigram_histogram_ (freqs dic : loc) (top_k : xarg) (ax : option axes)
| plot_topic_clouds_ (model : loc) (cols : Z) (fig : option figure)
    (kwargs : cloud_kwargs R)
| plot_topic_cloud_ (model : loc) (topicid : nat) (ax : option axes)
    (kwargs : cloud_kwargs R)
| plot_topic_map_ (model dic freqs : loc) (ax : option axes) (seed : Z).
Arguments plot_statistic_ {R} _ _ _ _ _ _ _ _.
Arguments plot_year_histogram_ {R} _ _.
Arguments plot_author_histogram_ {R} _ _ _.
Arguments plot_author_affiliation_histogram_ {R} _ _ _.
Arguments plot_number_authors_histogram_ {R} _ _.
Arguments plot_source_type_histogram_ {R} _ _.
Arguments plot_source_histogram_ {R} _ _ _ _ _.
Arguments plot_affiliation_histogram_ {R} _ _ _ _ _.
Arguments plot_country_histogram_ {R} _ _ _.
Arguments plot_affiliation_type_histogram_ {R} _ _ _.
Arguments plot_language_histogram_ {R} _ _.
Arguments plot_words_histogram_ {R} _ _ _ _.
Arguments plot_bigram_histogram_ {R} _ _ _ _.
Arguments plot_topic_clouds_ {R} _ _ _ _.
Arguments plot_topic_cloud_ {R} _ _ _ _.
Arguments plot_topic_map_ {R} _ _ _ _ _.

Definition run `{Scalar R} `{Libraries R} (c : call R) : Py R unit :=
  match c with
  | plot_statistic_ fun_ docset x ax x_label count vertical title =>
      plot_statistic fun_ docset x ax x_label count vertical title
  | plot_year_histogram_ docset ax => plot_year_histogram docset ax
  | plot_author_histogram_ docset top_k ax => plot_author_histogram docset top_k ax
  | plot_author_affiliation_histogram_ docset top_k ax =>
      plot_author_affiliation_histogram docset top_k ax
  | plot_number_authors_histogram_ docset ax => plot_number_authors_histogram docset ax
  | plot_source_type_histogram_ docset ax => plot_source_type_histogram docset ax
  | plot_source_histogram_ docset top_k ax filename clean =>
      plot_source_histogram docset top_k ax filename clean
  | plot_affiliation_histogram_ docset top_k ax filename clean =>
      plot_affiliation_histogram docset top_k ax filename clean
  | plot_country_histogram_ docset top_k ax => plot_country_histogram docset top_k ax
  | plot_affiliation_type_histogram_ docset x ax =>
      plot_affiliation_type_histogram docset x ax
  | plot_language_histogram_ docset ax => plot_language_histogram docset ax
  | plot_words_histogram_ freqs dic top_k ax => plot_words_histogram freqs dic top_k ax
  | plot_bigram_histogram_ freqs dic top_k ax => plot_bigram_histogram freqs dic top_k ax
  | plot_topic_clouds_ model cols fig kwargs => plot_topic_clouds model cols fig kwargs
  | plot_topic_cloud_ model topicid ax kwargs => plot_topic_cloud model topicid ax kwargs
  | plot_topic_map_ model dic freqs ax seed => plot_topic_map model dic freqs ax seed
  end.

(** The count table a caller hands to [plot_statistic] itself. *)
Definition count_argument {R} (c : call R) : option loc :=
  match c with
  | plot_statistic_ _ _ _ _ _ count _ _ => count
  | _ => None
  end.

(** The canvas a call is given: the axes (or, for [plot_topic_clouds], the
    figure) argument. *)
Definition axes_argument {R} (c : call R) : option axes :=
  match c with
  | plot_statistic_ _ _ _ ax _ _ _ _ => ax
  | plot_year_histogram_ _ ax => ax
  | plot_author_histogram_ _ _ ax => ax
  | plot_author_affiliation_histogram_ _ _ ax => ax
  | plot_number_authors_histogram_ _ ax => ax
  | plot_source_type_histogram_ _ ax => ax
  | plot_source_histogram_ _ _ ax _ _ => ax
  | plot_affiliation_histogram_ _ _ ax _ _ => ax
  | plot_country_histogram_ _ _ ax => ax
  | plot_affiliation_type_histogram_ _ _ ax => ax
  | plot_language_histogram_ _ ax => ax
  | plot_words_histogram_ _ _ _ ax => ax
  | plot_bigram_histogram_ _ _ _ ax => ax
  | plot_topic_clouds_ _ _ _ _ => None
  | plot_topic_cloud_ _ _ ax _ => ax
  | plot_topic_map_ _ _ _ ax _ => ax
  end.

(** The call to the cleaning routine a function delegates to, if any. *)
Definition cleaning {R} (c : call R) : option (event R) :=
  match c with
  | plot_source_histogram_ docset top_k ax filename true =>
      Some (CleanAttributes PlotSourceHistogram docset top_k ax filename "sources")
  | plot_affiliation_histogram_ docset top_k ax filename true =>
      Some (CleanAttributes PlotAffiliationHistogram docset top_k ax filename "affiliations")
  | _ => None
  end.

(** The axes a call made in the world [w] may draw on: the axes it is given,
    pyplot's current axes when it is given none, and, for
    [plot_topic_clouds], the subplots it adds. *)
Definition own_axes {R} (c : call R) (w : world R) (a : axes) : Prop :=
  a = default (current_axes w) (axes_argument c) \/
  ((next_axes w <= a)%nat /\
   exists model cols fig kwargs, c = plot_topic_clouds_ model cols fig kwargs).

(** What a call made in the world [w] may log.  The title is set through
    pyplot and is not constrained here. *)
Definition allowed {R} (c : call R) (w : world R) (e : event R) : Prop :=
  match e with
  | Draw a (set_title _) => True
  | Draw a _ => own_axes c w a
  | CleanAttributes _ _ _ _ _ _ => cleaning c = Some e
  | Clf f =>
      f = current_figure w /\ exists model cols kwargs, c = plot_topic_clouds_ model cols None kwargs
  | AddSubplot f _ _ _ a =>
      (next_axes w <= a)%nat /\
      exists model cols fig kwargs,
        c = plot_topic_clouds_ model cols fig kwargs /\ f = default (current_figure w) fig
  | Verbose _ | GlobalRandom _ =>
      exists model dic freqs ax seed, c = plot_topic_map_ model dic freqs ax seed
  end.

(** What the loop of lines 295-297 of [generate_topic_cloud] stores for a
    token: the weight of one of the indices [idx], which is positive, over
    the maximum. *)
Definition weighed `{Scalar R} (dictionary : gmap nat string) (row : list R) (maximum : R)
    (idx : list nat) (token : string) (v : R) : Prop :=
  exists i weight,
    i ∈ idx /\ row !! i = Some weight /\ ltb (of_Z 0) weight = true /\
    dictionary !! i = Some token /\ v = div weight maximum.

(** ** What a call may touch *)

(** The invariant every plotting function keeps from the world [w0] it was
    called in: objects that were in the store stay as they were, apart from
    the count table [cnt] the caller handed over; pyplot's current figure
    stays; axes are only added; and every logged call satisfies [ok].
    [supplied] is the axes argument and [own] tells the axes the call may
    draw on. *)
Section invariants.
Context {R : Type}.
Context (w0 : world R) (cnt : option loc) (supplied : option axes).
Context (own : axes -> Prop) (ok : event R -> Prop).

Record inv (w : world R) : Prop := {
  inv_alloc : (length (heap w0) <= length (heap w))%nat;
  inv_frame : forall l, (l < length (heap w0))%nat -> cnt <> Some l ->
                        heap w !! l = heap w0 !! l;
  inv_figure : current_figure w = current_figure w0;
  inv_next : (next_axes w0 <= next_axes w)%nat;
  inv_current : supplied = None -> own (current_axes w);
  inv_log : exists evs, log w = log w0 ++ evs /\ Forall ok evs
}.

(** The cells a call may write: those it allocated and the caller's table. *)
Definition writable (l : loc) : Prop :=
  (length (heap w0) <= l)%nat \/ cnt = Some l.

(** A computation keeps the invariant, and what it returns satisfies [Q]. *)
Definition stable {A} (m : Py R A) (Q : A -> Prop) : Prop :=
  forall w, inv w -> inv (m w).2 /\ forall a, (m w).1 = Return a -> Q a.
End invariants.

Definition any {A} : A -> Prop := fun _ => True.

(** ** The loops as folds *)

(** One pass of the inner loop of lines 45-47, on the table itself. *)
Definition count_key (count : Dict.t) (key : value) : Dict.t :=
  if truthy key then Dict.iadd count (VStr (str key)) 1 else count.

(** The table the aggregation loop of [plot_statistic] builds. *)
Definition count_docs (f : selector) (ds : list Document) : Dict.t :=
  foldl (fun count d => foldl count_key count (f d)) [] ds.

(** How often a document yields a truthy key whose string form is [s]. *)
Definition occurrences (f : selector) (s : string) (d : Document) : nat :=
  length (filter (fun key => truthy key = true /\ str key = s) (f d)).

(** The tally a table holds for [s]; a key it lacks has none. *)
Definition tally (count : Dict.t) (s : string) : Z :=
  default 0 (Dict.get count (VStr s)).

(** The table after the lookups [count[str(a)] for a in keys]. *)
Definition touch_all (count : Dict.t) (keys : list value) : Dict.t :=
  foldl (fun c a => Dict.touch c (VStr (str a))) count keys.

(** What every entry of a table built by the loop satisfies: a positive
    tally under a key that some pass of the loop counted. *)
Definition counted (S : value -> Prop) (count : Dict.t) : Prop :=
  forall k v, (k, v) ∈ count -> 0 < v /\ S k.

(** The strings [merge_author_affiliation] collects for one author. *)
Definition merged_for (author : Author.t) (x : string) : Prop :=
  (Author.affiliations author = None /\ x = Author.name author +:+ ", Unknown") \/
  (exists affs affiliation,
      Author.affiliations author = Some affs /\ affiliation ∈ affs /\
      x = Author.name author +:+ ", " +:+ Affiliation.name affiliation).

(** The keys [plot_statistic] selects (lines 53-58) from a table. *)
Definition selected_keys (x : xarg) (count : Dict.t) : list value :=
  match x with
  | XList l => l
  | XInt k => top_k count k
  | XOther => Dict.keys count
  end.

(** The keys in the order they are handed to [barh] or [bar] (line 61). *)
Definition plotted_keys (x : xarg) (vertical : bool) (count : Dict.t) : list value :=
  if vertical then selected_keys x count else reverse (selected_keys x count).

(** The calls [plot_statistic] logs once its table is [count]. *)
Definition statistic_events {R} (current ax : axes) (x : xarg) (x_label : string)
    (vertical : bool) (title : option string) (count : Dict.t) : list (event R) :=
  let keys := plotted_keys x vertical count in
  let sizes := map (fun a => tally count (str a)) keys in
  match title with Some t => [Draw current (set_title t)] | None => [] end ++
  (if vertical then
     [Draw ax (set_ylabel x_label); Draw ax (bar keys sizes (tick_labels keys))]
   else
     [Draw ax (set_xlabel x_label); Draw ax (barh keys sizes (tick_labels keys))]).

(** The number of documents published in year [y], as the year histogram
    shows it: the year 0 is falsy, so it is never tallied. *)
Definition publications (ds : list Document) (y : Z) : Z :=
  if decide (y = 0) then 0
  else Z.of_nat (length (filter (fun d => year d = Some y) ds)).

(** ** What the bars stand for *)

(** The number of documents of [ds] that satisfy [P]. *)
Definition documents_with (P : Document -> Prop) `{forall d, Decision (P d)}
    (ds : list Document) : Z :=
  Z.of_nat (length (filter P ds)).

(** The number of documents whose attribute [g] is the string [s]; the empty
    string is falsy and is never tallied. *)
Definition documents_where (g : Document -> option string) (s : string)
    (ds : list Document) : Z :=
  if decide (s = "") then 0 else documents_with (fun d => g d = Some s) ds.



(** The loop of lines 217-219 on the table itself, over the pairs whose
    token id the dictionary knows. *)
Definition count_words (dic : gmap nat string) (count : Dict.t)
    (all_freqs : list (nat * Z)) : Dict.t :=
  foldl (fun count wf =>
           match dic !! wf.1 with
           | Some token => Dict.iadd count (VStr token) wf.2
           | None => count
           end) count all_freqs.


(** One pass of the loop of lines 218-219 (and 235-236). *)
Definition count_word {R} (c dic : loc) (wf : nat * Z) : Py R unit :=
  d <- load_dictionary dic ;;
  token <- of_option (KeyError (pretty wf.1)) (d !! wf.1) ;;
  dict_iadd c (VStr (str (VStr token))) wf.2.

(** What [plot_topic_clouds] logs for the topic [index], shown on the new
    axes [ax] as the word cloud [wc]. *)
Definition cloud_events {R} (fig : figure) (rows cols : Z) (index : nat) (ax : axes)
    (wc : WordCloud R) : list (event R) :=
  [AddSubplot fig rows cols (Z.of_nat index + 1) ax;
   Draw ax (set_xticks []);
   Draw ax (set_yticks []);
   Draw ax (imshow wc "bilinear")].

(** The colour [draw_dot] gives the topic [t] of [n] topics. *)
Definition dot_color `{Scalar R} `{Libraries R} (t n : nat) : R * R * R :=
  let '(r, g, b, _) :=
    get_cmap "jet" (div (of_Z (Z.of_nat t)) (of_Z (Z.of_nat n))) in
  (mul (lit 8 10) r, mul (lit 8 10) g, mul (lit 8 10) b).

(** What [draw_dot] logs for a topic that has a letter: the dot at [zorder]
    and the letter one layer above. *)
Definition dot_events `{Scalar R} `{Libraries R} (ax : axes) (n : nat) (p : R * R)
    (t : nat) (zorder : Z) : list (event R) :=
  [Draw ax (scatter p.1 p.2 150 (dot_color t n) "o" (lit 1 2) zorder);
   Draw ax (text p.1 p.2 (String (Ascii.ascii_of_nat (65 + t)) EmptyString) 6 (Some "1")
              "center" "center" (Some "bold") (zorder + 1))].

(** The topic [plot_topic_map] assigns to the document [i] (line 381). *)
Definition dominant `{Scalar R} (m : TopicModel R) (i : nat) : option nat :=
  match doc2topic m !! i with
  | Some row => argmax (zip_with sub row (column_average (doc2topic m)))
  | None => None
  end.

(** [[dic[w] for w in l]], when every [w] is in [dic]. *)
Fixpoint lookup_all (dic : gmap nat string) (l : list nat) : option (list string) :=
  match l with
  | [] => Some []
  | i :: l' =>
      match dic !! i, lookup_all dic l' with
      | Some token, Some tokens => Some (token :: tokens)
      | _, _ => None
      end
  end.

(** The legend of the topic [i] (line 388): its three heaviest tokens. *)
Definition legend_label `{Scalar R} `{Libraries R} (m : TopicModel R)
    (dic : gmap nat string) (i : nat) : option string :=
  match topic2token m !! i with
  | Some row =>
      match lookup_all dic (take 3 (reverse (argsort row))) with
      | Some tokens => Some (join tokens)
      | None => None
      end
  | None => None
  end.

(** What [plot_topic_map] logs for the legend of the topic [i]: a dot with
    its letter at the default [zorder], and the label at [zorder]. *)
Definition legend_events `{Scalar R} `{Libraries R} (ax : axes) (n : nat) (i : nat)
    (label : string) (zorder : Z) : list (event R) :=
  let y := sub (lit 95 100) (mul (of_Z (Z.of_nat i)) (lit 5 100)) in
  dot_events ax n (lit 15 1000, y) i 0 ++
  [Draw ax (text (lit 3 100) y label 8 None "center" "left" None zorder)].

(** ** Sample inputs *)

Definition ann : Author.t := Author.mk "Ann" None.

Definition bob : Author.t :=
  Author.mk "Bob" (Some [Affiliation.mk "UvA" (Some "NL") (Some "Academic");
                         Affiliation.mk "VU" (Some "NL") (Some "Academic")]).

Definition paper_2019 : Document :=
  {| year := Some 2019; authors := Some [ann; bob]; source := Some "Nature";
     source_type := Some "Journal"; language := Some "en" |}.

Definition paper_2021 : Document :=
  {| year := Some 2021; authors := None; source := None;
     source_type := None; language := None |}.

Definition undated : Document :=
  {| year := None; authors := Some [ann]; source := Some "arXiv";
     source_type := None; language := Some "en" |}.

Definition corpus : DocumentSet := {| docs := [paper_2019; paper_2021; paper_2019] |}.

(** A world whose store holds [h], with axes 0 current and nothing logged. *)
Definition start {R} (h : list (obj R)) : world R := World h 0%nat 0%nat 1%nat 0%nat [].

(** Stand-ins for the collaborators, for running the model on the samples:
    no affiliations, a grey colour map, an [argsort] for rows that are already
    ascending, the identity permutation, and a two-point embedding. *)
Definition sample_libraries (R : Type) `{Scalar R} : Libraries R := {|
  get_affiliations_doc := fun _ _ => [];
  get_cmap := fun _ x => (x, x, x, of_Z 1);
  argsort := fun l => seq 0 (length l);
  random_permutation := fun _ n => seq 0 n;
  create_tfidf := fun _ _ => [];
  svd_fit_transform := fun _ m => m;
  tsne_fit_transform := fun _ _ => [(of_Z 0, of_Z 0); (of_Z 1, of_Z 1)]
|}.





(** A model of two topics over the tokens "data" and "model". *)
Definition sample_model (R : Type) `{Scalar R} : TopicModel R := {|
  topic2token := [[of_Z 1; of_Z 2]; [of_Z 0; of_Z 4]];
  doc2topic := [[of_Z 1; of_Z 0]; [of_Z 0; of_Z 1]];
  dictionary := {[ 0%nat := "data"; 1%nat := "model" ]};
  num_topics := 2
|}.

(** The same model, but its second topic gives no token a positive weight. *)
Definition flat_model (R : Type) `{Scalar R} : TopicModel R := {|
  topic2token := [[of_Z 1; of_Z 2]; [of_Z 0; of_Z 0]];
  doc2topic := [[of_Z 1; of_Z 0]; [of_Z 0; of_Z 1]];
  dictionary := {[ 0%nat := "data"; 1%nat := "model" ]};
  num_topics := 2
|}.

Definition default_kwargs (R : Type) : cloud_kwargs R :=
  {| kw_cmap := None; kw_max_font_size := 75; kw_background_color := "white" |}.

(** The store of the topic-map sample: the model, its dictionary and the
    frequencies of an empty corpus. *)
Definition sample_store : list (obj float) :=
  [OModel (sample_model float);
   ODictionary {[ 0%nat := "data"; 1%nat := "model" ]};
   OFreqs []].

(** A count table of three words. *)
Definition sample_count : Dict.t := [(VStr "a", 1); (VStr "b", 5); (VStr "c", 3)].

(** A selector that yields the same key twice for every document. *)
Definition twice : selector := fun _ => [VStr "a"; VStr "a"].

(** * Properties *)

(** ** Sorting and slicing *)

(** The cut [str(key)[:50]] counts characters, not bytes: the second
    character of the first word below takes two bytes, and both stay with
    it. *)
Example str_prefix_characters :
  str_prefix 2 "née" = "né" /\
  String.length (str_prefix 2 "née") = 3%nat /\
  str_prefix 50 "Nature" = "Nature" /\
  str_prefix 0 "Nature" = "".
Proof. repeat split. Qed.

Section sorting.
Context {A : Type} (key : A -> Z).

Let asc : relation A := fun a b => key a <= key b.
Let desc : relation A := fun a b => key b <= key a.

Lemma insert_sorted_Permutation x l : insert_sorted key x l ≡ₚ x :: l.
Proof.
  induction l as [|y l IH]; simpl; [done|].
  destruct (key x <=? key y); [done|].
  rewrite IH. apply Permutation_swap.
Qed.

Lemma sorted_Permutation l : sorted key l ≡ₚ l.
Proof.
  induction l as [|x l IH]; simpl; [done|].
  unfold sorted in *. simpl. by rewrite insert_sorted_Permutation, IH.
Qed.

Lemma insert_sorted_StronglySorted x l :
  StronglySorted asc l -> StronglySorted asc (insert_sorted key x l).
Proof.
  induction l as [|y l IH]; simpl; intros Hl.
  - repeat constructor.
  - apply StronglySorted_cons in Hl as [Hy Hl].
    destruct (key x <=? key y) eqn:E.
    + apply Z.leb_le in E. constructor.
      * by constructor.
      * constructor; [done|].
        eapply Forall_impl; [exact Hy|]. unfold asc. intros; simpl in *; lia.
    + apply Z.leb_gt in E. constructor; [by apply IH|].
      rewrite insert_sorted_Permutation. constructor; [|done].
      unfold asc; lia.
Qed.

Lemma sorted_StronglySorted l : StronglySorted asc (sorted key l).
Proof.
  induction l as [|x l IH]; [constructor|].
  by apply insert_sorted_StronglySorted.
Qed.

Lemma StronglySorted_reverse (l : list A) :
  StronglySorted asc l -> StronglySorted desc (reverse l).
Proof.
  induction 1 as [|x l Hl IH Hx]; [constructor|].
  rewrite reverse_cons. apply StronglySorted_app_2.
  - intros x1 x2 Hx1 ->%list_elem_of_singleton.
    rewrite elem_of_reverse in Hx1. rewrite Forall_forall in Hx.
    unfold asc, desc in *. by apply Hx.
  - exact IH.
  - apply SSorted_cons; [apply SSorted_nil|apply Forall_nil_2].
Qed.

Lemma descending_sorted l : StronglySorted desc (reverse (sorted key l)).
Proof. apply StronglySorted_reverse, sorted_StronglySorted. Qed.

Lemma elem_of_descending x l : x ∈ reverse (sorted key l) <-> x ∈ l.
Proof. by rewrite elem_of_reverse, sorted_Permutation. Qed.
End sorting.

Lemma slice_to_nonneg {A} (l : list A) (k : Z) :
  0 <= k -> slice_to l k = take (Z.to_nat k) l.
Proof. intros Hk. unfold slice_to. by rewrite (proj2 (Z.leb_le 0 k) Hk). Qed.

Lemma slice_to_neg {A} (l : list A) (k : Z) :
  k < 0 -> slice_to l k = take (length l - Z.to_nat (- k)) l.
Proof. intros Hk. unfold slice_to. by rewrite (proj2 (Z.leb_gt 0 k) Hk). Qed.

(** ** Count tables *)


Lemma get_Some_elem_of (d : Dict.t) k v : Dict.get d k = Some v -> (k, v) ∈ d.
Proof.
  induction d as [|[k' v'] d IH]; simpl; [done|].
  destruct (decide (k' = k)) as [->|Hne].
  - intros [= ->]. apply list_elem_of_here.
  - intros H. apply list_elem_of_further. by apply IH.
Qed.

Lemma get_iadd_eq (d : Dict.t) k n :
  Dict.get (Dict.iadd d k n) k = Some (default 0 (Dict.get d k) + n).
Proof.
  induction d as [|[k' v] d IH]; simpl.
  - by rewrite decide_True.
  - destruct (decide (k' = k)) as [->|Hne]; simpl.
    + by rewrite decide_True.
    + by rewrite decide_False.
Qed.

Lemma get_iadd_ne (d : Dict.t) k k' n :
  k <> k' -> Dict.get (Dict.iadd d k n) k' = Dict.get d k'.
Proof.
  intros Hne. induction d as [|[k0 v] d IH]; simpl.
  - by case_decide.
  - destruct (decide (k0 = k)) as [->|Hne0]; simpl.
    + by repeat case_decide.
    + by rewrite IH.
Qed.

Lemma elem_of_iadd (d : Dict.t) k n k' v :
  (k', v) ∈ Dict.iadd d k n ->
  (k', v) ∈ d \/ (k' = k /\ v = default 0 (Dict.get d k) + n).
Proof.
  induction d as [|[k0 v0] d IH]; simpl.
  - intros [= -> ->]%list_elem_of_singleton. by right.
  - destruct (decide (k0 = k)) as [->|Hne].
    + intros [[= -> ->]|H]%elem_of_cons.
      * by right.
      * left. by apply list_elem_of_further.
    + intros [[= -> ->]|H]%elem_of_cons.
      * left. apply list_elem_of_here.
      * destruct (IH H) as [?|?]; [left; by apply list_elem_of_further|by right].
Qed.

Lemma keys_iadd (d : Dict.t) k n :
  Dict.keys (Dict.iadd d k n) =
  if decide (k ∈ Dict.keys d) then Dict.keys d else Dict.keys d ++ [k].
Proof.
  induction d as [|[k0 v0] d IH]; simpl; [done|].
  destruct (decide (k0 = k)) as [->|Hne]; simpl.
  - rewrite decide_True; [done|apply list_elem_of_here].
  - rewrite IH. destruct (decide (k ∈ Dict.keys d)) as [Hin|Hnin].
    + rewrite decide_True; [done|by apply list_elem_of_further].
    + rewrite decide_False; [done|]. rewrite not_elem_of_cons. split; [congruence|done].
Qed.

Lemma NoDup_keys_iadd (d : Dict.t) k n :
  NoDup (Dict.keys d) -> NoDup (Dict.keys (Dict.iadd d k n)).
Proof.
  intros Hd. rewrite keys_iadd. case_decide; [done|].
  apply NoDup_app. split_and!; [done| |apply NoDup_singleton].
  intros x Hx ->%list_elem_of_singleton. done.
Qed.

(** ** The aggregation loop on the table *)

Lemma tally_count_key count key s :
  tally (count_key count key) s =
  tally count s + (if decide (truthy key = true /\ str key = s) then 1 else 0).
Proof.
  unfold count_key, tally. destruct (truthy key) eqn:Ht.
  - destruct (decide (str key = s)) as [<-|Hne].
    + rewrite get_iadd_eq. rewrite decide_True by done. done.
    + rewrite get_iadd_ne by congruence. rewrite decide_False by tauto. lia.
  - rewrite decide_False by (intros [? _]; done). lia.
Qed.

Lemma tally_count_keys keys count s :
  tally (foldl count_key count keys) s =
  tally count s +
  Z.of_nat (length (filter (fun key => truthy key = true /\ str key = s) keys)).
Proof.
  revert count. induction keys as [|key keys IH]; intros count; simpl.
  - lia.
  - rewrite IH, tally_count_key. rewrite filter_cons.
    destruct (decide (truthy key = true /\ str key = s)); simpl; lia.
Qed.

Lemma tally_count_docs_from f ds count s :
  tally (foldl (fun count d => foldl count_key count (f d)) count ds) s =
  tally count s + Z.of_nat (sum_list_with (occurrences f s) ds).
Proof.
  revert count. induction ds as [|d ds IH]; intros count; simpl.
  - lia.
  - rewrite IH, tally_count_keys. unfold occurrences. lia.
Qed.

Lemma tally_count_docs f ds s :
  tally (count_docs f ds) s = Z.of_nat (sum_list_with (occurrences f s) ds).
Proof. unfold count_docs. by rewrite tally_count_docs_from. Qed.

Lemma counted_count_key S count key :
  counted S count ->
  (truthy key = true -> S (VStr (str key))) ->
  counted S (count_key count key).
Proof.
  intros Hc HS k v. unfold count_key. destruct (truthy key) eqn:Ht; [|apply Hc].
  intros [Hin|[-> ->]]%elem_of_iadd; [by apply Hc|].
  split; [|by apply HS].
  destruct (Dict.get count (VStr (str key))) as [v0|] eqn:Hg; simpl; [|lia].
  apply get_Some_elem_of, Hc in Hg. lia.
Qed.

Lemma counted_count_keys S (keys : list value) count :
  counted S count ->
  (forall key, key ∈ keys -> truthy key = true -> S (VStr (str key))) ->
  counted S (foldl count_key count keys).
Proof.
  revert count. induction keys as [|key keys IH]; intros count Hc HS; simpl; [done|].
  apply IH.
  - apply counted_count_key; [done|]. apply HS, list_elem_of_here.
  - intros key' Hin. apply HS. by apply list_elem_of_further.
Qed.

Lemma counted_count_docs_from S (f : selector) (ds : list Document) count :
  counted S count ->
  (forall d key, d ∈ ds -> key ∈ f d -> truthy key = true -> S (VStr (str key))) ->
  counted S (foldl (fun count d => foldl count_key count (f d)) count ds).
Proof.
  revert count. induction ds as [|d ds IH]; intros count Hc HS; simpl; [done|].
  apply IH.
  - apply counted_count_keys; [done|]. intros key. apply HS, list_elem_of_here.
  - intros d' key Hin. apply HS. by apply list_elem_of_further.
Qed.

Lemma counted_count_docs (f : selector) (ds : list Document) :
  counted (fun k => exists d key, d ∈ ds /\ key ∈ f d /\ truthy key = true /\
                                  k = VStr (str key))
          (count_docs f ds).
Proof.
  apply counted_count_docs_from; [intros k v []%elem_of_nil|].
  intros d key Hd Hkey Ht. by exists d, key.
Qed.

Lemma NoDup_keys_count_docs (f : selector) (ds : list Document) : NoDup (Dict.keys (count_docs f ds)).
Proof.
  unfold count_docs.
  assert (H : NoDup (Dict.keys [])) by constructor.
  revert H. generalize (@nil (value * Z)) as count.
  induction ds as [|d ds IH]; intros count Hc; simpl; [done|].
  apply IH. clear IH. revert count Hc.
  induction (f d) as [|key keys IH]; intros count Hc; simpl; [done|].
  apply IH. unfold count_key. destruct (truthy key); [|done].
  by apply NoDup_keys_iadd.
Qed.

(** ** Running the primitives *)

Section run.
Context {R : Type}.
Implicit Types (w : world R) (h : list (obj R)).

Lemma with_heap_id w : with_heap (heap w) w = w.
Proof. by destruct w. Qed.


Lemma bind_Return {A B} (m : Py R A) (k : A -> Py R B) w a w' :
  m w = (Return a, w') -> bind m k w = k a w'.
Proof. unfold bind. by intros ->. Qed.


Lemma load_run w l o : heap w !! l = Some o -> load l w = (Return o, w).
Proof. intros H. unfold load, bind, get_heap, of_option. by rewrite H. Qed.

Lemma load_dict_run w c b t :
  heap w !! c = Some (ODict b t) -> load_dict c w = (Return (b, t), w).
Proof. intros H. unfold load_dict. by rewrite (bind_Return _ _ _ _ _ (load_run _ _ _ H)). Qed.

Lemma get_docs_run w l ds :
  heap w !! l = Some (ODocSet ds) -> get_docs (Some l) w = (Return (docs ds), w).
Proof. intros H. unfold get_docs. by rewrite (bind_Return _ _ _ _ _ (load_run _ _ _ H)). Qed.


Lemma alloc_run w o :
  alloc o w = (Return (length (heap w)), with_heap (heap w ++ [o]) w).
Proof. done. Qed.

Lemma dict_iadd_run w c t k n :
  heap w !! c = Some (ODict true t) ->
  dict_iadd c k n w =
  (Return tt, with_heap (<[c := ODict true (Dict.iadd t k n)]> (heap w)) w).
Proof.
  intros H. unfold dict_iadd.
  rewrite (bind_Return _ _ _ _ _ (load_dict_run _ _ _ _ H)). simpl.
  by destruct (Dict.get t k).
Qed.

Lemma dict_getitem_run w c t k :
  heap w !! c = Some (ODict true t) ->
  dict_getitem c k w =
  (Return (default 0 (Dict.get t k)),
   with_heap (<[c := ODict true (Dict.touch t k)]> (heap w)) w).
Proof.
  intros H. unfold dict_getitem.
  rewrite (bind_Return _ _ _ _ _ (load_dict_run _ _ _ _ H)). simpl.
  unfold Dict.touch. destruct (Dict.get t k) as [v|] eqn:Hg; simpl.
  - unfold ret. by rewrite list_insert_id, with_heap_id.
  - done.
Qed.

Lemma count_keys_run (keys : list value) w c t :
  heap w !! c = Some (ODict true t) ->
  for_ keys (fun key =>
    if truthy key then dict_iadd c (VStr (str key)) 1 else ret tt) w =
  (Return tt, with_heap (<[c := ODict true (foldl count_key t keys)]> (heap w)) w).
Proof.
  revert w t. induction keys as [|key keys IH]; intros w t H; simpl.
  - unfold ret. by rewrite list_insert_id, with_heap_id.
  - assert (Hc : (c < length (heap w))%nat) by (eapply lookup_lt_Some; eassumption).
    unfold count_key at 2. destruct (truthy key).
    + erewrite bind_Return; [|by apply dict_iadd_run].
      erewrite IH; [|simpl; by rewrite list_lookup_insert_eq].
      simpl. by rewrite list_insert_insert_eq.
    + erewrite bind_Return; [|done]. by apply IH.
Qed.

Lemma count_docs_run (f : selector) ds w c t :
  heap w !! c = Some (ODict true t) ->
  for_ ds (fun d =>
    for_ (f d) (fun key =>
      if truthy key then dict_iadd c (VStr (str key)) 1 else ret tt)) w =
  (Return tt,
   with_heap (<[c := ODict true (foldl (fun count d => foldl count_key count (f d)) t ds)]>
                (heap w)) w).
Proof.
  revert w t. induction ds as [|d ds IH]; intros w t H; simpl.
  - unfold ret. by rewrite list_insert_id, with_heap_id.
  - assert (Hc : (c < length (heap w))%nat) by (eapply lookup_lt_Some; eassumption).
    erewrite bind_Return; [|by apply count_keys_run].
    erewrite IH; [|simpl; by rewrite list_lookup_insert_eq].
    simpl. by rewrite list_insert_insert_eq.
Qed.

(** The aggregation of lines 43-47 returns, with the table in a new cell. *)
Lemma aggregate_run (f : selector) docset ds w :
  heap w !! docset = Some (ODocSet ds) ->
  aggregate (Some f) (Some docset) w =
  (Return (length (heap w)),
   with_heap (heap w ++ [ODict true (count_docs f (docs ds))]) w).
Proof.
  intros H. unfold aggregate.
  erewrite bind_Return; [|apply alloc_run].
  erewrite bind_Return; [|apply get_docs_run; simpl; by apply lookup_app_l_Some].
  erewrite bind_Return;
    [|apply count_docs_run with (t := []); simpl; by rewrite list_lookup_middle].
  unfold ret. simpl. f_equal. unfold with_heap. simpl. f_equal.
  rewrite insert_app_r_alt by done. by rewrite Nat.sub_diag.
Qed.

Lemma get_snoc (count : Dict.t) k v k' :
  Dict.get (count ++ [(k, v)]) k' =
  match Dict.get count k' with
  | Some v' => Some v'
  | None => if decide (k = k') then Some v else None
  end.
Proof.
  induction count as [|[k0 v0] count IH]; simpl; [done|].
  by destruct (decide (k0 = k')).
Qed.

Lemma tally_touch count k s : tally (Dict.touch count k) s = tally count s.
Proof.
  unfold tally, Dict.touch. destruct (Dict.get count k) eqn:Hk; [done|].
  rewrite get_snoc. destruct (Dict.get count (VStr s)) eqn:Hs; [done|].
  by case_decide.
Qed.

Lemma getitems_run (keys : list value) w c t :
  heap w !! c = Some (ODict true t) ->
  comprehension keys (fun a => dict_getitem c (VStr (str a))) w =
  (Return (map (fun a => tally t (str a)) keys),
   with_heap (<[c := ODict true (touch_all t keys)]> (heap w)) w).
Proof.
  revert w t. induction keys as [|a keys IH]; intros w t H; simpl.
  - unfold ret. by rewrite list_insert_id, with_heap_id.
  - assert (Hc : (c < length (heap w))%nat) by (eapply lookup_lt_Some; eassumption).
    erewrite bind_Return; [|by apply dict_getitem_run].
    erewrite bind_Return; [|apply IH; simpl; by rewrite list_lookup_insert_eq].
    unfold ret. simpl. rewrite list_insert_insert_eq. do 2 f_equal.
    f_equal. apply map_ext. intros a'. apply tally_touch.
Qed.

(** [plot_statistic] on a [defaultdict] table that is already in the store:
    it returns, having logged [statistic_events] and stored the default
    under every plotted key the table lacked. *)
Lemma plot_statistic_run fun_ docset x ax x_label c t vertical title w :
  heap w !! c = Some (ODict true t) ->
  plot_statistic fun_ docset x ax x_label (Some c) vertical title w =
  (Return tt,
   with_log (log w ++ statistic_events (current_axes w) (default (current_axes w) ax)
                        x x_label vertical title t)
     (with_heap (<[c := ODict true (touch_all t (plotted_keys x vertical t))]> (heap w))
        w)).
Proof.
  intros H. unfold plot_statistic, statistic_events, plotted_keys.
  set (a := default (current_axes w) ax).
  erewrite (bind_Return _ _ w a w); [|by destruct ax].
  erewrite bind_Return; [|done].
  set (w1 := with_log (log w ++ match title with
                                | Some t0 => [Draw (current_axes w) (set_title t0)]
                                | None => []
                                end) w).
  erewrite (bind_Return _ _ w tt w1).
  2:{ destruct title; [done|]. unfold w1, ret. rewrite app_nil_r. by destruct w. }
  assert (H1 : heap w1 !! c = Some (ODict true t)) by done.
  erewrite (bind_Return _ _ w1 (selected_keys x t) w1).
  2:{ destruct x; simpl; [|
      |done]; by erewrite bind_Return; [|by apply load_dict_run]. }
  destruct vertical; simpl.
  - erewrite bind_Return; [|done].
    erewrite bind_Return; [|by apply getitems_run].
    unfold emit, with_log, with_heap, w1. simpl. rewrite <- !app_assoc. done.
  - erewrite bind_Return; [|done].
    erewrite bind_Return; [|by apply getitems_run].
    unfold emit, with_log, with_heap, w1. simpl. rewrite <- !app_assoc. done.
Qed.
End run.

(** ** The aggregation loop of [plot_statistic] *)

Lemma filter_length_none {A} (P : A -> Prop) `{forall x, Decision (P x)} (l : list A) :
  (forall x, x ∈ l -> ~ P x) -> length (filter P l) = 0%nat.
Proof.
  induction l as [|x l IH]; intros Hl; [done|].
  rewrite filter_cons. case_decide as Hx.
  - exfalso. by apply (Hl x); [apply list_elem_of_here|].
  - apply IH. intros y Hy. apply Hl. by apply list_elem_of_further.
Qed.

Lemma occurrences_none (f : selector) s d :
  (forall key, key ∈ f d -> truthy key = true -> str key <> s) ->
  occurrences f s d = 0%nat.
Proof.
  intros H. apply filter_length_none. intros key Hin [Ht Hs]. by apply (H key).
Qed.

Lemma occurrences_once (f : selector) s d :
  NoDup (str <$> filter (fun key => truthy key = true) (f d)) ->
  (exists key, key ∈ f d /\ truthy key = true /\ str key = s) ->
  occurrences f s d = 1%nat.
Proof.
  unfold occurrences. induction (f d) as [|key keys IH]; intros Hnd (k & Hin & Ht & Hs).
  { by apply elem_of_nil in Hin. }
  rewrite filter_cons in Hnd. rewrite filter_cons.
  destruct (decide (truthy key = true /\ str key = s)) as [[Htk Hsk]|Hno].
  - rewrite decide_True in Hnd by done. rewrite fmap_cons in Hnd.
    apply NoDup_cons in Hnd as [Hfresh _]. simpl. f_equal.
    apply filter_length_none.
    intros key' Hin' [Ht' Hs']. apply Hfresh. rewrite Hsk, <- Hs'.
    apply list_elem_of_fmap_2. by apply list_elem_of_filter.
  - apply elem_of_cons in Hin as [->|Hin]; [by destruct Hno|].
    apply IH; [|by exists k].
    case_decide; [|done]. rewrite fmap_cons in Hnd. by apply NoDup_cons in Hnd as [_ ?].
Qed.

(** C1 (amended).  For every store, selector and document set, the
    aggregation loop of [plot_statistic] returns a new table whose tally for a
    string [s] is the number of truthy keys, over all documents, whose string
    form is [s]: a document contributes once per occurrence.  A document
    whose truthy keys have pairwise distinct string forms contributes exactly
    1 to the tally of each of them, and a document contributes nothing to [s]
    when it yields no truthy key of that form (so [None], the empty string
    and [0] are never counted). *)
Theorem aggregate_counts_occurrences {R} (w : world R) (f : selector) (docset : loc)
    (ds : DocumentSet) :
  heap w !! docset = Some (ODocSet ds) ->
  exists w' count,
    aggregate (Some f) (Some docset) w = (Return (length (heap w)), w') /\
    heap w' !! length (heap w) = Some (ODict true count) /\
    (forall s, tally count s = Z.of_nat (sum_list_with (occurrences f s) (docs ds))) /\
    (forall s d,
        NoDup (str <$> filter (fun key => truthy key = true) (f d)) ->
        (exists key, key ∈ f d /\ truthy key = true /\ str key = s) ->
        occurrences f s d = 1%nat) /\
    (forall s d,
        (forall key, key ∈ f d -> truthy key = true -> str key <> s) ->
        occurrences f s d = 0%nat).
Proof.
  intros H. eexists _, _. split; [by apply aggregate_run|]. simpl.
  split; [by rewrite list_lookup_middle|].
  split; [apply tally_count_docs|].
  split; [apply occurrences_once|apply occurrences_none].
Qed.

(** C1 (amended) at the sample corpus, counted by year. *)
Lemma aggregate_counts_occurrences_witness :
  exists w' count,
    aggregate (Some (fun p => [year_key p])) (Some 0%nat) (start (R := Z) [ODocSet corpus]) =
      (Return 1%nat, w') /\
    heap w' !! 1%nat = Some (ODict true count) /\
    (forall s, tally count s =
               Z.of_nat (sum_list_with (occurrences (fun p => [year_key p]) s) (docs corpus))) /\
    (forall s d,
        NoDup (str <$> filter (fun key => truthy key = true) [year_key d]) ->
        (exists key, key ∈ [year_key d] /\ truthy key = true /\ str key = s) ->
        occurrences (fun p => [year_key p]) s d = 1%nat) /\
    (forall s d,
        (forall key, key ∈ [year_key d] -> truthy key = true -> str key <> s) ->
        occurrences (fun p => [year_key p]) s d = 0%nat).
Proof.
  exact (aggregate_counts_occurrences (start [ODocSet corpus]) (fun p => [year_key p])
           0%nat corpus eq_refl).
Defined.

(** C1, as stated, fails: a selector that yields the key "a" twice for a
    document makes that one document contribute 2 to the tally of "a". *)
Lemma aggregate_counts_duplicates :
  aggregate (Some twice) (Some 0%nat) (start (R := Z) [ODocSet {| docs := [undated] |}]) =
  (Return 1%nat,
   start [ODocSet {| docs := [undated] |}; ODict true [(VStr "a", 2)]]).
Proof. reflexivity. Qed.


(** [plot_statistic] when it builds its own table: the table of the
    aggregation loop sits in a new cell, and the bars are drawn from it. *)
Lemma plot_statistic_build_run {R} (w : world R) (f : selector) docset ds x ax x_label
    vertical title :
  heap w !! docset = Some (ODocSet ds) ->
  plot_statistic (Some f) (Some docset) x ax x_label None vertical title w =
  (Return tt,
   with_log (log w ++ statistic_events (current_axes w) (default (current_axes w) ax)
                        x x_label vertical title (count_docs f (docs ds)))
     (with_heap (heap w ++ [ODict true (touch_all (count_docs f (docs ds))
                                          (plotted_keys x vertical (count_docs f (docs ds))))])
        w)).
Proof.
  intros H.
  set (w1 := with_heap (heap w ++ [ODict true (count_docs f (docs ds))]) w).
  transitivity (plot_statistic (Some f) (Some docset) x (Some (default (current_axes w) ax))
                  x_label (Some (length (heap w))) vertical title w1).
  - unfold plot_statistic at 1.
    erewrite (bind_Return _ _ w (default (current_axes w) ax) w); [|by destruct ax].
    erewrite bind_Return; [|by apply aggregate_run]. done.
  - rewrite (plot_statistic_run _ _ _ _ _ _ (count_docs f (docs ds)));
      [|simpl; by rewrite list_lookup_middle].
    unfold w1, with_log, with_heap. simpl. do 3 f_equal.
    rewrite insert_app_r_alt by done. by rewrite Nat.sub_diag.
Qed.

(** ** Selecting the top keys *)

Section top_k.
Context (mapping : Dict.t).

Let cnt : value -> Z := fun a => default 0 (Dict.get mapping a).
Let ranked : list value := reverse (sorted cnt (Dict.keys mapping)).

Lemma top_k_prefix k : exists n, top_k mapping k = take n ranked.
Proof. unfold top_k, slice_to. destruct (0 <=? k); by eexists. Qed.

Lemma length_ranked : length ranked = length mapping.
Proof.
  unfold ranked, Dict.keys.
  by rewrite length_reverse, sorted_Permutation, length_map.
Qed.

Lemma top_k_length k :
  0 <= k -> length (top_k mapping k) = (Z.to_nat k `min` length mapping)%nat.
Proof.
  intros Hk. unfold top_k. rewrite slice_to_nonneg by done.
  fold cnt. fold ranked. by rewrite length_take, length_ranked.
Qed.

Lemma top_k_elem_of k a : a ∈ top_k mapping k -> a ∈ Dict.keys mapping.
Proof.
  destruct (top_k_prefix k) as [n ->]. intros Ha.
  apply (elem_of_descending cnt). fold ranked.
  rewrite <- (take_drop n ranked). apply elem_of_app. by left.
Qed.

Lemma top_k_descending k :
  StronglySorted (fun a b => cnt b <= cnt a) (top_k mapping k).
Proof.
  destruct (top_k_prefix k) as [n ->].
  apply (StronglySorted_app_1_l _ _ (drop n ranked)).
  rewrite take_drop. apply descending_sorted.
Qed.

Lemma top_k_highest k a b :
  a ∈ top_k mapping k -> b ∈ Dict.keys mapping -> b ∉ top_k mapping k ->
  cnt b <= cnt a.
Proof.
  destruct (top_k_prefix k) as [n ->]. intros Ha Hb Hnb.
  apply (elem_of_descending cnt) in Hb. fold ranked in Hb.
  rewrite <- (take_drop n ranked) in Hb.
  apply elem_of_app in Hb as [Hb|Hb]; [done|].
  pose proof (descending_sorted cnt (Dict.keys mapping)) as Hs.
  fold ranked in Hs. rewrite <- (take_drop n ranked) in Hs.
  by apply (StronglySorted_app_1_elem_of _ _ _ _ _ Hs Ha Hb).
Qed.
End top_k.

Lemma last_app_cons {A} (l l' : list A) x : last (l ++ x :: l') = last (x :: l').
Proof.
  induction l as [|y l IH]; [done|].
  simpl. rewrite <- IH. by destruct l.
Qed.

Lemma last_two {A} (l : list A) x y : last (l ++ [x; y]) = Some y.
Proof. by rewrite last_app_cons. Qed.

(** A negative [k] keeps all keys but the [-k] of least count. *)
Lemma top_k_negative (mapping : Dict.t) (k : Z) :
  k < 0 -> length (top_k mapping k) = (length mapping - Z.to_nat (- k))%nat.
Proof.
  intros Hk. unfold top_k. rewrite slice_to_neg by done.
  rewrite length_take, length_ranked. lia.
Qed.

Lemma plotted_keys_Permutation x vertical count :
  plotted_keys x vertical count ≡ₚ selected_keys x count.
Proof. unfold plotted_keys. destruct vertical; [done|apply reverse_Permutation]. Qed.

(** C2 (amended).  For every count table and every integer [k >= 0], the keys
    [plot_statistic] plots for [x = k] are [top_k count k] (reversed for a
    horizontal plot): [min k (len count)] of them, hence at most [k]; all of
    them keys of the table; each with a count at least that of every key left
    out; and selected in decreasing order of count.  The call returns with
    these keys in its bar plot, both when the table is a [defaultdict] the
    caller hands over and when [plot_statistic] builds it from the documents. *)
Theorem plot_statistic_top_k {R} (count : Dict.t) (k : Z) (vertical : bool) :
  0 <= k ->
  plotted_keys (XInt k) vertical count ≡ₚ top_k count k /\
  (length (plotted_keys (XInt k) vertical count) <= Z.to_nat k)%nat /\
  length (plotted_keys (XInt k) vertical count) = (Z.to_nat k `min` length count)%nat /\
  (forall a, a ∈ plotted_keys (XInt k) vertical count -> a ∈ Dict.keys count) /\
  (forall a b,
      a ∈ plotted_keys (XInt k) vertical count -> b ∈ Dict.keys count ->
      b ∉ plotted_keys (XInt k) vertical count ->
      default 0 (Dict.get count b) <= default 0 (Dict.get count a)) /\
  StronglySorted (fun a b => default 0 (Dict.get count b) <= default 0 (Dict.get count a))
    (top_k count k) /\
  (forall (w : world R) c fun_ docset ax x_label title,
      heap w !! c = Some (ODict true count) ->
      exists w',
        plot_statistic fun_ docset (XInt k) ax x_label (Some c) vertical title w =
          (Return tt, w') /\
        last (log w') =
          Some (Draw (default (current_axes w) ax)
                  ((if vertical then bar else barh)
                     (plotted_keys (XInt k) vertical count)
                     (map (fun a => tally count (str a))
                          (plotted_keys (XInt k) vertical count))
                     (tick_labels (plotted_keys (XInt k) vertical count))))) /\
  (forall (w : world R) f docset ds ax x_label title,
      heap w !! docset = Some (ODocSet ds) ->
      count = count_docs f (docs ds) ->
      exists w',
        plot_statistic (Some f) (Some docset) (XInt k) ax x_label None vertical title w =
          (Return tt, w') /\
        last (log w') =
          Some (Draw (default (current_axes w) ax)
                  ((if vertical then bar else barh)
                     (plotted_keys (XInt k) vertical count)
                     (map (fun a => tally count (str a))
                          (plotted_keys (XInt k) vertical count))
                     (tick_labels (plotted_keys (XInt k) vertical count))))).
Proof.
  intros Hk.
  pose proof (plotted_keys_Permutation (XInt k) vertical count) as Hp. simpl in Hp.
  split; [done|].
  assert (Hlen : length (plotted_keys (XInt k) vertical count) =
                 (Z.to_nat k `min` length count)%nat)
    by (by rewrite Hp, top_k_length).
  split; [lia|]. split; [done|].
  split; [intros a; rewrite Hp; apply top_k_elem_of|].
  split; [intros a b; rewrite !Hp; apply top_k_highest|].
  split; [apply top_k_descending|].
  split.
  - intros w c fun_ docset ax x_label title H.
    eexists. split; [by apply plot_statistic_run|]. simpl.
    unfold statistic_events. destruct vertical; simpl; by rewrite app_assoc, last_two.
  - intros w f docset ds ax x_label title H ->.
    eexists. split; [by apply plot_statistic_build_run|]. simpl.
    unfold statistic_events. destruct vertical; simpl; by rewrite app_assoc, last_two.
Qed.

(** C2 at a table of three words and [k = 2]. *)
Lemma plot_statistic_top_k_witness :
  plotted_keys (XInt 2) false sample_count ≡ₚ top_k sample_count 2 /\
  (length (plotted_keys (XInt 2) false sample_count) <= Z.to_nat 2)%nat /\
  length (plotted_keys (XInt 2) false sample_count) =
    (Z.to_nat 2 `min` length sample_count)%nat /\
  (forall a, a ∈ plotted_keys (XInt 2) false sample_count -> a ∈ Dict.keys sample_count) /\
  (forall a b,
      a ∈ plotted_keys (XInt 2) false sample_count -> b ∈ Dict.keys sample_count ->
      b ∉ plotted_keys (XInt 2) false sample_count ->
      default 0 (Dict.get sample_count b) <= default 0 (Dict.get sample_count a)) /\
  StronglySorted
    (fun a b => default 0 (Dict.get sample_count b) <= default 0 (Dict.get sample_count a))
    (top_k sample_count 2) /\
  (forall (w : world Z) c fun_ docset ax x_label title,
      heap w !! c = Some (ODict true sample_count) ->
      exists w',
        plot_statistic fun_ docset (XInt 2) ax x_label (Some c) false title w =
          (Return tt, w') /\
        last (log w') =
          Some (Draw (default (current_axes w) ax)
                  (barh (plotted_keys (XInt 2) false sample_count)
                     (map (fun a => tally sample_count (str a))
                          (plotted_keys (XInt 2) false sample_count))
                     (tick_labels (plotted_keys (XInt 2) false sample_count))))) /\
  (forall (w : world Z) f docset ds ax x_label title,
      heap w !! docset = Some (ODocSet ds) ->
      sample_count = count_docs f (docs ds) ->
      exists w',
        plot_statistic (Some f) (Some docset) (XInt 2) ax x_label None false title w =
          (Return tt, w') /\
        last (log w') =
          Some (Draw (default (current_axes w) ax)
                  (barh (plotted_keys (XInt 2) false sample_count)
                     (map (fun a => tally sample_count (str a))
                          (plotted_keys (XInt 2) false sample_count))
                     (tick_labels (plotted_keys (XInt 2) false sample_count))))).
Proof.
  exact (plot_statistic_top_k (R := Z) sample_count 2 false (Zle_bool_imp_le 0 2 eq_refl)).
Defined.

(** The keys of the sample table that [x = 2] selects, as plotted. *)
Example plot_statistic_top_2 :
  (plot_statistic None None (XInt 2) (Some 3%nat) "No. occurences" (Some 0%nat) false None
     (start (R := Z) [ODict true sample_count])).2 =
  World [ODict true sample_count] 0%nat 0%nat 1%nat 0%nat
    [Draw 3%nat (set_xlabel "No. occurences");
     Draw 3%nat (barh [VStr "c"; VStr "b"] [3; 5] ["c"; "b"])].
Proof. reflexivity. Qed.

(** C2, as stated for every integer, fails for a negative one: [x = -1] on a
    table of two keys plots one key, which is more than [-1]. *)
Lemma plot_statistic_negative_k :
  plot_statistic None None (XInt (-1)) None "" (Some 0%nat) false None
    (start (R := Z) [ODict true [(VStr "a", 1); (VStr "b", 2)]]) =
  (Return tt,
   World [ODict true [(VStr "a", 1); (VStr "b", 2)]] 0%nat 0%nat 1%nat 0%nat
     [Draw 0%nat (set_xlabel ""); Draw 0%nat (barh [VStr "b"] [2] ["b"])]).
Proof. reflexivity. Qed.

(** ** The table a call builds *)

Lemma get_is_Some (count : Dict.t) k : k ∈ Dict.keys count -> is_Some (Dict.get count k).
Proof.
  induction count as [|[k' v] count IH]; simpl; [by intros ?%elem_of_nil|].
  intros [->|Hk]%elem_of_cons; [by rewrite decide_True|].
  case_decide; [done|by apply IH].
Qed.

Lemma touch_all_id (count : Dict.t) (keys : list value) :
  (forall a, a ∈ keys -> is_Some (Dict.get count (VStr (str a)))) ->
  touch_all count keys = count.
Proof.
  unfold touch_all. induction keys as [|a keys IH]; intros Hk; simpl; [done|].
  unfold Dict.touch at 2.
  destruct (Hk a (list_elem_of_here _ _)) as [v ->].
  apply IH. intros a' Ha'. by apply Hk, list_elem_of_further.
Qed.

(** Keys selected from a table the loop built are strings of the table, so
    looking them up stores nothing. *)
Lemma touch_all_count_docs (f : selector) (ds : list Document) x vertical :
  (forall l, x <> XList l) ->
  touch_all (count_docs f ds) (plotted_keys x vertical (count_docs f ds)) = count_docs f ds.
Proof.
  intros Hx. apply touch_all_id. intros a Ha.
  rewrite plotted_keys_Permutation in Ha.
  assert (Hin : a ∈ Dict.keys (count_docs f ds)).
  { destruct x as [|k|l]; simpl in Ha; [done|by eapply top_k_elem_of|by destruct (Hx l)]. }
  pose proof Hin as Hin'.
  apply list_elem_of_fmap in Hin' as ([k v] & -> & Hkv). simpl in *.
  destruct (counted_count_docs f ds k v Hkv) as (_ & d & key & _ & _ & _ & ->).
  simpl. by apply get_is_Some.
Qed.

Lemma get_touch (count : Dict.t) k k' :
  Dict.get (Dict.touch count k) k' =
  match Dict.get count k' with
  | Some v => Some v
  | None => if decide (k = k') then Some 0 else None
  end.
Proof.
  unfold Dict.touch. destruct (Dict.get count k) eqn:E; [|apply get_snoc].
  destruct (Dict.get count k') eqn:E'; [done|]. case_decide; congruence.
Qed.

Lemma get_touch_all (keys : list value) (count : Dict.t) k :
  Dict.get (touch_all count keys) k =
  match Dict.get count k with
  | Some v => Some v
  | None => if decide (k ∈ (fun a => VStr (str a)) <$> keys) then Some 0 else None
  end.
Proof.
  revert count. induction keys as [|a keys IH]; intros count.
  - simpl. by destruct (Dict.get count k).
  - change (touch_all count (a :: keys))
      with (touch_all (Dict.touch count (VStr (str a))) keys).
    rewrite IH, get_touch. destruct (Dict.get count k); [done|].
    rewrite fmap_cons.
    destruct (decide (VStr (str a) = k)) as [->|Hne].
    + rewrite decide_True; [done|]. apply list_elem_of_here.
    + destruct (decide (k ∈ (fun a0 => VStr (str a0)) <$> keys)) as [Hin|Hin].
      * rewrite decide_True; [done|]. by apply list_elem_of_further.
      * rewrite decide_False; [done|].
        intros [->|Hin']%elem_of_cons; [by apply Hne|by apply Hin].
Qed.

(** The lookups only append entries, and what they append is the default. *)
Lemma touch_all_extends (keys : list value) (count : Dict.t) :
  exists new, touch_all count keys = count ++ new /\ Forall (fun kv => kv.2 = 0) new.
Proof.
  revert count. induction keys as [|a keys IH]; intros count.
  - exists []. by rewrite app_nil_r.
  - change (touch_all count (a :: keys))
      with (touch_all (Dict.touch count (VStr (str a))) keys).
    destruct (IH (Dict.touch count (VStr (str a)))) as (new & -> & Hnew).
    unfold Dict.touch. destruct (Dict.get count (VStr (str a))).
    + by exists new.
    + exists ((VStr (str a), 0) :: new). rewrite <- app_assoc. split; [done|].
      by constructor.
Qed.

Lemma get_None_not_key (count : Dict.t) k : k ∉ Dict.keys count -> Dict.get count k = None.
Proof.
  intros Hk. destruct (Dict.get count k) as [v|] eqn:E; [|done].
  destruct Hk. apply get_Some_elem_of in E. apply list_elem_of_fmap. by exists (k, v).
Qed.

Lemma elem_of_keys_count_docs (f : selector) (ds : list Document) (k : value) :
  k ∈ Dict.keys (count_docs f ds) <->
  exists d key, d ∈ ds /\ key ∈ f d /\ truthy key = true /\ k = VStr (str key).
Proof.
  split.
  - intros ([k' v] & -> & Hkv)%list_elem_of_fmap.
    by destruct (counted_count_docs f ds _ _ Hkv) as [_ Hk].
  - intros (d & key & Hd & Hkey & Htrue & ->).
    assert (Hpos : 0 < tally (count_docs f ds) (str key)).
    { rewrite tally_count_docs.
      pose proof (sum_list_with_in d (occurrences f (str key)) ds Hd) as Hle.
      assert (Hocc : (0 < occurrences f (str key) d)%nat); [|lia].
      unfold occurrences.
      destruct (filter _ (f d)) as [|key' l] eqn:E; [|simpl; lia].
      assert (Hin : key ∈ filter (fun key0 => truthy key0 = true /\ str key0 = str key)
                                 (f d))
        by (by apply list_elem_of_filter).
      rewrite E in Hin. by apply elem_of_nil in Hin. }
    unfold tally in Hpos.
    destruct (Dict.get (count_docs f ds) (VStr (str key))) as [v|] eqn:E; [|simpl in Hpos; lia].
    apply get_Some_elem_of in E. apply list_elem_of_fmap. by exists (VStr (str key), v).
Qed.

Lemma NoDup_keys_touch_all (keys : list value) (count : Dict.t) :
  NoDup (Dict.keys count) -> NoDup (Dict.keys (touch_all count keys)).
Proof.
  revert count. induction keys as [|a keys IH]; intros count Hnd; [done|].
  change (touch_all count (a :: keys))
    with (touch_all (Dict.touch count (VStr (str a))) keys).
  apply IH. unfold Dict.touch.
  destruct (Dict.get count (VStr (str a))) as [v|] eqn:E; [done|].
  unfold Dict.keys. rewrite map_app. apply NoDup_app. split; [done|].
  split; [|apply NoDup_singleton].
  intros k Hk ->%list_elem_of_singleton.
  destruct (get_is_Some count (VStr (str a)) Hk) as [v Hv]. congruence.
Qed.

Lemma elem_of_get (count : Dict.t) k v :
  NoDup (Dict.keys count) -> (k, v) ∈ count -> Dict.get count k = Some v.
Proof.
  induction count as [|[k' v'] count IH]; simpl; [by intros _ ?%elem_of_nil|].
  intros [Hk' Hnd]%NoDup_cons [[= -> ->]|Hin]%elem_of_cons; [by rewrite decide_True|].
  rewrite decide_False; [by apply IH|].
  intros ->. apply Hk'. apply list_elem_of_fmap. by exists (k, v).
Qed.

(** C7 (amended).  A call of [plot_statistic] that builds its own table
    returns.  It allocates the table in a cell no earlier call could have
    reached and leaves the rest of the store as it was, and the finished
    table is a function of the selector, the documents and [x] alone.  Its
    keys are distinct.  Under the string form of every truthy key the
    selector yields, it holds the number of times keys of that string form
    are yielded over all documents, which is positive.  Every other entry
    is a 0 under the string form of a key listed in [x] that no document
    yields, and every such listed key has one.  When [x] is not a list, the
    finished table is the one the aggregation loop built, and every tally is
    positive. *)
Theorem plot_statistic_fresh_table {R} (w : world R) (f : selector) (docset : loc)
    (ds : DocumentSet) (x : xarg) (ax : option axes) (x_label : string) (vertical : bool)
    (title : option string) :
  heap w !! docset = Some (ODocSet ds) ->
  exists w0 w' table,
    aggregate (Some f) (Some docset) w = (Return (length (heap w)), w0) /\
    heap w0 = heap w ++ [ODict true (count_docs f (docs ds))] /\
    plot_statistic (Some f) (Some docset) x ax x_label None vertical title w =
      (Return tt, w') /\
    heap w !! length (heap w) = None /\
    heap w' = heap w ++ [ODict true table] /\
    table = touch_all (count_docs f (docs ds))
              (plotted_keys x vertical (count_docs f (docs ds))) /\
    NoDup (Dict.keys table) /\
    (forall d key, d ∈ docs ds -> key ∈ f d -> truthy key = true ->
       Dict.get table (VStr (str key)) =
         Some (Z.of_nat (sum_list_with (occurrences f (str key)) (docs ds))) /\
       0 < Z.of_nat (sum_list_with (occurrences f (str key)) (docs ds))) /\
    (forall k v, (k, v) ∈ table ->
       (0 < v /\
        exists d key, d ∈ docs ds /\ key ∈ f d /\ truthy key = true /\ k = VStr (str key) /\
                      v = Z.of_nat (sum_list_with (occurrences f (str key)) (docs ds))) \/
       (v = 0 /\
        exists l a, x = XList l /\ a ∈ l /\ k = VStr (str a) /\
                    forall d key, d ∈ docs ds -> key ∈ f d -> truthy key = true ->
                                  str key <> str a)) /\
    (forall l a, x = XList l -> a ∈ l ->
       (forall d key, d ∈ docs ds -> key ∈ f d -> truthy key = true -> str key <> str a) ->
       (VStr (str a), 0) ∈ table) /\
    ((forall l, x <> XList l) -> table = count_docs f (docs ds)).
Proof.
  intros Hw.
  set (built := count_docs f (docs ds)).
  set (keys := plotted_keys x vertical built).
  assert (Hnd : NoDup (Dict.keys (touch_all built keys)))
    by apply NoDup_keys_touch_all, NoDup_keys_count_docs.
  assert (Hbuilt : forall d key, d ∈ docs ds -> key ∈ f d -> truthy key = true ->
            Dict.get built (VStr (str key)) =
              Some (Z.of_nat (sum_list_with (occurrences f (str key)) (docs ds))) /\
            0 < Z.of_nat (sum_list_with (occurrences f (str key)) (docs ds))).
  { intros d key Hd Hkey Ht.
    assert (Hin : VStr (str key) ∈ Dict.keys built)
      by (apply elem_of_keys_count_docs; by exists d, key).
    destruct (get_is_Some _ _ Hin) as [v Hv].
    pose proof (tally_count_docs f (docs ds) (str key)) as Htally.
    unfold tally in Htally. fold built in Htally. rewrite Hv in Htally. simpl in Htally.
    destruct (counted_count_docs f (docs ds) _ _ (get_Some_elem_of _ _ _ Hv)) as [Hpos _].
    rewrite <- Htally. by rewrite Hv. }
  assert (Hmissing : forall a,
            (forall d key, d ∈ docs ds -> key ∈ f d -> truthy key = true ->
                           str key <> str a) ->
            Dict.get built (VStr (str a)) = None).
  { intros a Hnone. apply get_None_not_key.
    intros (d & key & Hd & Hkey & Ht & [= Heq])%elem_of_keys_count_docs.
    by apply (Hnone d key). }
  eexists _, _, (touch_all built keys).
  split; [by apply aggregate_run|]. split; [done|].
  split; [by apply plot_statistic_build_run|]. simpl.
  split; [by apply lookup_ge_None_2|]. split; [done|]. split; [done|]. split; [done|].
  split; [|split; [|split]].
  - intros d key Hd Hkey Ht.
    destruct (Hbuilt d key Hd Hkey Ht) as [Hget Hpos].
    split; [|done]. by rewrite get_touch_all, Hget.
  - intros k v Hkv. apply (elem_of_get _ _ _ Hnd) in Hkv.
    rewrite get_touch_all in Hkv.
    destruct (Dict.get built k) as [v'|] eqn:E.
    + injection Hkv as ->. left.
      destruct (counted_count_docs f (docs ds) _ _ (get_Some_elem_of _ _ _ E))
        as (Hpos & d & key & Hd & Hkey & Ht & ->).
      split; [done|]. exists d, key.
      destruct (Hbuilt d key Hd Hkey Ht) as [Hget _]. rewrite E in Hget.
      injection Hget as ->. done.
    + case_decide as Hin; [|done]. injection Hkv as <-. right. split; [done|].
      apply list_elem_of_fmap in Hin as (a & -> & Ha).
      assert (Hnone : forall d key, d ∈ docs ds -> key ∈ f d -> truthy key = true ->
                str key <> str a).
      { intros d key Hd Hkey Ht Heq.
        destruct (Hbuilt d key Hd Hkey Ht) as [Hget _]. rewrite Heq in Hget. congruence. }
      unfold keys in Ha. rewrite plotted_keys_Permutation in Ha.
      assert (Hkeys : a ∈ Dict.keys built -> False).
      { intros Hin. pose proof Hin as Hin'.
        apply elem_of_keys_count_docs in Hin' as (d & key & Hd & Hkey & Ht & ->).
        by apply (Hnone d key). }
      destruct x as [|n|l]; simpl in Ha.
      * by destruct Hkeys.
      * destruct Hkeys. by eapply top_k_elem_of.
      * by exists l, a.
  - intros l a -> Ha Hnone. apply get_Some_elem_of.
    rewrite get_touch_all, (Hmissing a Hnone).
    rewrite decide_True; [done|]. apply list_elem_of_fmap. exists a. split; [done|].
    unfold keys. rewrite plotted_keys_Permutation. done.
  - intros Hx. by apply touch_all_count_docs.
Qed.

(** C7 (amended) at the sample corpus, counted by year, with the years 2019
    to 2021 listed: two papers of 2019, one of 2021, and a 0 for 2020. *)
Lemma plot_statistic_fresh_table_witness :
  (exists w0 w' table,
     aggregate (Some (fun p => [year_key p])) (Some 0%nat) (start (R := Z) [ODocSet corpus]) =
       (Return 1%nat, w0) /\
     heap w0 = [ODocSet corpus; ODict true (count_docs (fun p => [year_key p]) (docs corpus))] /\
     plot_statistic (Some (fun p => [year_key p])) (Some 0%nat)
       (XList [VInt 2019; VInt 2020; VInt 2021]) None "" None true None
       (start (R := Z) [ODocSet corpus]) = (Return tt, w') /\
     heap (start (R := Z) [ODocSet corpus]) !! 1%nat = None /\
     heap w' = [ODocSet corpus; ODict true table] /\
     table = touch_all (count_docs (fun p => [year_key p]) (docs corpus))
               (plotted_keys (XList [VInt 2019; VInt 2020; VInt 2021]) true
                  (count_docs (fun p => [year_key p]) (docs corpus))) /\
     NoDup (Dict.keys table) /\
     (forall d key, d ∈ docs corpus -> key ∈ [year_key d] -> truthy key = true ->
        Dict.get table (VStr (str key)) =
          Some (Z.of_nat (sum_list_with (occurrences (fun p => [year_key p]) (str key))
                            (docs corpus))) /\
        0 < Z.of_nat (sum_list_with (occurrences (fun p => [year_key p]) (str key))
                        (docs corpus))) /\
     (forall k v, (k, v) ∈ table ->
        (0 < v /\
         exists d key, d ∈ docs corpus /\ key ∈ [year_key d] /\ truthy key = true /\
                       k = VStr (str key) /\
                       v = Z.of_nat (sum_list_with
                                       (occurrences (fun p => [year_key p]) (str key))
                                       (docs corpus))) \/
        (v = 0 /\
         exists l a, XList [VInt 2019; VInt 2020; VInt 2021] = XList l /\ a ∈ l /\
                     k = VStr (str a) /\
                     forall d key, d ∈ docs corpus -> key ∈ [year_key d] ->
                                   truthy key = true -> str key <> str a)) /\
     (forall l a, XList [VInt 2019; VInt 2020; VInt 2021] = XList l -> a ∈ l ->
        (forall d key, d ∈ docs corpus -> key ∈ [year_key d] -> truthy key = true ->
                       str key <> str a) ->
        (VStr (str a), 0) ∈ table) /\
     ((forall l, XList [VInt 2019; VInt 2020; VInt 2021] <> XList l) ->
      table = count_docs (fun p => [year_key p]) (docs corpus))) /\
  touch_all (count_docs (fun p => [year_key p]) (docs corpus))
    (plotted_keys (XList [VInt 2019; VInt 2020; VInt 2021]) true
       (count_docs (fun p => [year_key p]) (docs corpus))) =
  [(VStr "2019", 2); (VStr "2021", 1); (VStr "2020", 0)].
Proof.
  split; [|reflexivity].
  exact (plot_statistic_fresh_table (start [ODocSet corpus]) (fun p => [year_key p])
           0%nat corpus (XList [VInt 2019; VInt 2020; VInt 2021]) None "" true None eq_refl).
Defined.

(** C7, as stated, fails when [x] is a list: the year histogram of the
    sample corpus, whose papers are of 2019 and 2021, leaves a table with the
    entry 0 under "2020", a year no document has. *)
Lemma plot_year_histogram_zero_entry :
  plot_year_histogram 0%nat None (start (R := Z) [ODocSet corpus]) =
  (Return tt,
   World [ODocSet corpus;
          ODict true [(VStr "2019", 2); (VStr "2021", 1); (VStr "2020", 0)]]
     0%nat 0%nat 1%nat 0%nat
     [Draw 0%nat (set_title "Publications per year");
      Draw 0%nat (set_ylabel "No. publications");
      Draw 0%nat (bar [VInt 2019; VInt 2020; VInt 2021] [2; 0; 1]
                    ["2019"; "2020"; "2021"])]).
Proof. reflexivity. Qed.

(** ** The year histogram *)

Lemma foldl_min_spec (l : list Z) (y : Z) :
  (foldl Z.min y l = y \/ foldl Z.min y l ∈ l) /\
  foldl Z.min y l <= y /\ (forall x, x ∈ l -> foldl Z.min y l <= x).
Proof.
  revert y. induction l as [|z l IH]; intros y; simpl.
  - split; [by left|]. split; [lia|]. by intros x ?%elem_of_nil.
  - destruct (IH (Z.min y z)) as (Hin & Hle & Hall). split; [|split].
    + destruct Hin as [->|Hin].
      * destruct (Z.min_spec y z) as [[_ ->]|[_ ->]]; [by left|right; apply list_elem_of_here].
      * right. by apply list_elem_of_further.
    + lia.
    + intros x [->|Hx]%elem_of_cons; [lia|by apply Hall].
Qed.

Lemma foldl_max_spec (l : list Z) (y : Z) :
  (foldl Z.max y l = y \/ foldl Z.max y l ∈ l) /\
  y <= foldl Z.max y l /\ (forall x, x ∈ l -> x <= foldl Z.max y l).
Proof.
  revert y. induction l as [|z l IH]; intros y; simpl.
  - split; [by left|]. split; [lia|]. by intros x ?%elem_of_nil.
  - destruct (IH (Z.max y z)) as (Hin & Hle & Hall). split; [|split].
    + destruct Hin as [->|Hin].
      * destruct (Z.max_spec y z) as [[_ ->]|[_ ->]]; [right; apply list_elem_of_here|by left].
      * right. by apply list_elem_of_further.
    + lia.
    + intros x [->|Hx]%elem_of_cons; [lia|by apply Hall].
Qed.

Lemma py_min_spec (l : list Z) (y : Z) :
  y ∈ l -> exists m, py_min l = Some m /\ m ∈ l /\ forall x, x ∈ l -> m <= x.
Proof.
  destruct l as [|z l]; [by intros ?%elem_of_nil|]. intros _.
  destruct (foldl_min_spec l z) as (Hin & Hle & Hall).
  exists (foldl Z.min z l). split; [done|]. split.
  - destruct Hin as [->|Hin]; [apply list_elem_of_here|by apply list_elem_of_further].
  - intros x [->|Hx]%elem_of_cons; [done|by apply Hall].
Qed.

Lemma py_max_spec (l : list Z) (y : Z) :
  y ∈ l -> exists m, py_max l = Some m /\ m ∈ l /\ forall x, x ∈ l -> x <= m.
Proof.
  destruct l as [|z l]; [by intros ?%elem_of_nil|]. intros _.
  destruct (foldl_max_spec l z) as (Hin & Hle & Hall).
  exists (foldl Z.max z l). split; [done|]. split.
  - destruct Hin as [->|Hin]; [apply list_elem_of_here|by apply list_elem_of_further].
  - intros x [->|Hx]%elem_of_cons; [done|by apply Hall].
Qed.

Lemma elem_of_range lo hi y : y ∈ range lo hi <-> lo <= y < hi.
Proof.
  unfold range. rewrite list_elem_of_fmap. split.
  - intros (i & -> & Hi). apply elem_of_seq in Hi. lia.
  - intros Hy. exists (Z.to_nat (y - lo)). split; [lia|]. apply elem_of_seq. lia.
Qed.

Lemma length_range lo hi : length (range lo hi) = Z.to_nat (hi - lo).
Proof. unfold range. by rewrite length_map, length_seq. Qed.

Lemma lookup_range lo hi (i : nat) :
  (i < Z.to_nat (hi - lo))%nat -> range lo hi !! i = Some (lo + Z.of_nat i).
Proof.
  intros Hi. unfold range. rewrite list_lookup_fmap, lookup_seq_lt by done. done.
Qed.

(** The years [year_count] has as keys are the years of the documents. *)
Lemma year_count_keys_from (ds : list Document) (yc : Dict.t) (k : value) :
  k ∈ Dict.keys (foldl (fun yc d => match year d with
                                    | Some y => Dict.iadd yc (VInt y) 1
                                    | None => yc
                                    end) yc ds) <->
  k ∈ Dict.keys yc \/ exists d y, d ∈ ds /\ year d = Some y /\ k = VInt y.
Proof.
  revert yc. induction ds as [|d ds IH]; intros yc; simpl.
  - split; [by left|]. intros [?|(d & y & []%elem_of_nil & _)]. done.
  - rewrite IH. destruct (year d) as [y|] eqn:Hy.
    + rewrite keys_iadd. split.
      * intros [Hk|(d' & y' & Hd' & Hy' & ->)].
        -- case_decide; [by left|]. apply elem_of_app in Hk as [Hk|Hk]; [by left|].
           apply list_elem_of_singleton in Hk as ->. right. exists d, y.
           split; [apply list_elem_of_here|done].
        -- right. exists d', y'. split; [by apply list_elem_of_further|done].
      * intros [Hk|(d' & y' & Hd' & Hy' & ->)].
        -- left. case_decide; [done|]. apply elem_of_app. by left.
        -- apply elem_of_cons in Hd' as [->|Hd'].
           ++ left. assert (y' = y) as -> by congruence.
              case_decide; [done|]. apply elem_of_app. right. apply list_elem_of_here.
           ++ right. by exists d', y'.
    + split.
      * intros [Hk|(d' & y' & Hd' & Hy' & ->)]; [by left|].
        right. exists d', y'. split; [by apply list_elem_of_further|done].
      * intros [Hk|(d' & y' & Hd' & Hy' & ->)]; [by left|].
        apply elem_of_cons in Hd' as [->|Hd']; [congruence|].
        right. by exists d', y'.
Qed.

Lemma years_seen (ds : list Document) (y : Z) :
  y ∈ omap int_of (Dict.keys (year_count ds)) <-> exists d, d ∈ ds /\ year d = Some y.
Proof.
  rewrite list_elem_of_omap. unfold year_count. split.
  - intros (k & Hk & Hint). apply year_count_keys_from in Hk as [[]%elem_of_nil|Hk].
    destruct Hk as (d & y' & Hd & Hy & ->). simpl in Hint. exists d. split; [done|congruence].
  - intros (d & Hd & Hy). exists (VInt y). split; [|done].
    apply year_count_keys_from. right. by exists d, y.
Qed.

Lemma year_count_no_year_from (ds : list Document) (yc : Dict.t) :
  Forall (fun d => year d = None) ds ->
  foldl (fun yc d => match year d with
                     | Some y => Dict.iadd yc (VInt y) 1
                     | None => yc
                     end) yc ds = yc.
Proof.
  induction 1 as [|d ds Hd _ IH]; simpl; [done|]. by rewrite Hd.
Qed.

(** C5.  When no document of the set has a year (the empty set included),
    [plot_year_histogram] does not return: it raises the [ValueError] of
    [min] on the empty key set of [year_count], and leaves the world as it
    found it: nothing is drawn, caught or retried. *)
Theorem plot_year_histogram_no_year {R} (w : world R) (docset : loc) (ds : DocumentSet)
    (ax : option axes) :
  heap w !! docset = Some (ODocSet ds) ->
  Forall (fun d => year d = None) (docs ds) ->
  plot_year_histogram docset ax w =
  (Raise (ValueError "min() arg is an empty sequence"), w).
Proof.
  intros H Hno. unfold plot_year_histogram.
  erewrite bind_Return; [|by apply get_docs_run].
  unfold year_count. by rewrite year_count_no_year_from.
Qed.

(** C5 at a set of two documents without a year. *)
Lemma plot_year_histogram_no_year_witness :
  plot_year_histogram 0%nat (Some 2%nat)
    (start (R := Z) [ODocSet {| docs := [undated; undated] |}]) =
  (Raise (ValueError "min() arg is an empty sequence"),
   start [ODocSet {| docs := [undated; undated] |}]).
Proof.
  apply (plot_year_histogram_no_year _ 0%nat {| docs := [undated; undated] |});
    [reflexivity|].
  repeat constructor.
Defined.

Lemma occurrences_year (ds : list Document) (y : Z) :
  Z.of_nat (sum_list_with (occurrences (fun p => [year_key p]) (pretty y)) ds) =
  publications ds y.
Proof.
  unfold publications. induction ds as [|d ds IH]; simpl.
  - by case_decide.
  - rewrite Nat2Z.inj_add, IH. unfold occurrences, year_key.
    rewrite filter_cons, (filter_cons (fun d => year d = Some y)).
    destruct (year d) as [y'|]; simpl.
    + destruct (decide (y' = y)) as [->|Hne].
      * destruct (decide (y = 0)) as [->|Hy].
        -- rewrite decide_False; [done|]. by intros [? _].
        -- rewrite decide_True, decide_True; [simpl; lia|done|].
           split; [|done]. by apply negb_true_iff, Z.eqb_neq.
      * rewrite decide_False, (decide_False (P := Some y' = Some y)).
        -- simpl. by case_decide.
        -- congruence.
        -- intros [_ Hp]. apply Hne. by apply (inj pretty).
    + by case_decide.
Qed.

Lemma tally_year (ds : list Document) (y : Z) :
  tally (count_docs (fun p => [year_key p]) ds) (pretty y) = publications ds y.
Proof. by rewrite tally_count_docs, occurrences_year. Qed.

(** C9.  When some document has a year, [plot_year_histogram] returns,
    and the bar plot it draws has as keys exactly the years from the least
    year [lo] that occurs to the greatest year [hi] that occurs, in order and
    without a gap: year [lo + i] at position [i] for each of the
    [hi - lo + 1] positions.  Every year in between is there, with height
    zero when no document was published in it. *)
Theorem plot_year_histogram_range {R} (w : world R) (docset : loc) (ds : DocumentSet)
    (ax : option axes) :
  heap w !! docset = Some (ODocSet ds) ->
  (exists d y, d ∈ docs ds /\ year d = Some y) ->
  exists w' lo hi,
    plot_year_histogram docset ax w = (Return tt, w') /\
    (exists d, d ∈ docs ds /\ year d = Some lo) /\
    (exists d, d ∈ docs ds /\ year d = Some hi) /\
    (forall d y, d ∈ docs ds -> year d = Some y -> lo <= y <= hi) /\
    last (log w') =
      Some (Draw (default (current_axes w) ax)
              (bar (VInt <$> range lo (hi + 1))
                   (publications (docs ds) <$> range lo (hi + 1))
                   (tick_labels (VInt <$> range lo (hi + 1))))) /\
    length (range lo (hi + 1)) = Z.to_nat (hi - lo + 1) /\
    (forall i : nat, (i < Z.to_nat (hi - lo + 1))%nat ->
       range lo (hi + 1) !! i = Some (lo + Z.of_nat i)) /\
    (forall y, y ∈ range lo (hi + 1) <-> lo <= y <= hi).
Proof.
  intros H (d0 & y0 & Hd0 & Hy0).
  assert (Hseen : y0 ∈ omap int_of (Dict.keys (year_count (docs ds))))
    by (apply years_seen; by exists d0).
  destruct (py_min_spec _ _ Hseen) as (lo & Hmin & Hlo & Hlo_le).
  destruct (py_max_spec _ _ Hseen) as (hi & Hmax & Hhi & Hhi_le).
  eexists _, lo, hi. split.
  { unfold plot_year_histogram.
    erewrite bind_Return; [|by apply get_docs_run].
    rewrite Hmin. simpl. erewrite bind_Return; [|done].
    rewrite Hmax. simpl. erewrite bind_Return; [|done].
    by apply plot_statistic_build_run. }
  split; [by apply years_seen|]. split; [by apply years_seen|].
  split.
  { intros d y Hd Hy.
    assert (y ∈ omap int_of (Dict.keys (year_count (docs ds))))
      by (apply years_seen; by exists d).
    split; [by apply Hlo_le|by apply Hhi_le]. }
  split.
  { simpl. unfold statistic_events, plotted_keys. simpl.
    rewrite last_app_cons. simpl. do 3 f_equal.
    rewrite <- list_fmap_compose. apply list_fmap_ext. intros _ y _. simpl.
    apply tally_year. }
  split; [rewrite length_range; f_equal; lia|].
  split.
  { intros i Hi. apply lookup_range. by replace (hi + 1 - lo) with (hi - lo + 1) by lia. }
  intros y. rewrite elem_of_range. lia.
Qed.

(** C9 at the sample corpus, whose years are 2019 and 2021. *)
Lemma plot_year_histogram_range_witness :
  exists w' lo hi,
    plot_year_histogram 0%nat (Some 2%nat) (start (R := Z) [ODocSet corpus]) =
      (Return tt, w') /\
    (exists d, d ∈ docs corpus /\ year d = Some lo) /\
    (exists d, d ∈ docs corpus /\ year d = Some hi) /\
    (forall d y, d ∈ docs corpus -> year d = Some y -> lo <= y <= hi) /\
    last (log w') =
      Some (Draw 2%nat
              (bar (VInt <$> range lo (hi + 1))
                   (publications (docs corpus) <$> range lo (hi + 1))
                   (tick_labels (VInt <$> range lo (hi + 1))))) /\
    length (range lo (hi + 1)) = Z.to_nat (hi - lo + 1) /\
    (forall i : nat, (i < Z.to_nat (hi - lo + 1))%nat ->
       range lo (hi + 1) !! i = Some (lo + Z.of_nat i)) /\
    (forall y, y ∈ range lo (hi + 1) <-> lo <= y <= hi).
Proof.
  apply (plot_year_histogram_range (start [ODocSet corpus]) 0%nat corpus (Some 2%nat));
    [reflexivity|].
  exists paper_2019, 2019. split; [apply list_elem_of_here|reflexivity].
Defined.

(** ** Authors with their affiliations *)

Lemma elem_of_authors_plus_aff (doc_authors : list Author.t) (acc : list string) x :
  x ∈ foldl (fun acc author =>
               match Author.affiliations author with
               | None => acc ++ [Author.name author +:+ ", Unknown"]
               | Some affs =>
                   acc ++ map (fun affiliation =>
                                 Author.name author +:+ ", " +:+ Affiliation.name affiliation)
                              affs
               end) acc doc_authors <->
  x ∈ acc \/ exists author, author ∈ doc_authors /\ merged_for author x.
Proof.
  revert acc. induction doc_authors as [|a l IH]; intros acc; simpl.
  - split; [by left|]. intros [?|(a & []%elem_of_nil & _)]. done.
  - rewrite IH. clear IH. split.
    + intros [Hx|(a' & Ha' & Hm)].
      * destruct (Author.affiliations a) as [affs|] eqn:Ha.
        -- apply elem_of_app in Hx as [Hx|Hx]; [by left|]. right. exists a.
           split; [apply list_elem_of_here|]. right.
           apply list_elem_of_fmap in Hx as (affiliation & -> & Hin).
           by exists affs, affiliation.
        -- apply elem_of_app in Hx as [Hx|Hx]; [by left|]. right. exists a.
           split; [apply list_elem_of_here|]. left.
           by apply list_elem_of_singleton in Hx.
      * right. exists a'. split; [by apply list_elem_of_further|done].
    + intros [Hx|(a' & Ha' & Hm)].
      * left. destruct (Author.affiliations a); apply elem_of_app; by left.
      * apply elem_of_cons in Ha' as [->|Ha']; [|right; by exists a'].
        left. destruct Hm as [[Hn ->]|(affs & affiliation & Hs & Hin & ->)].
        -- rewrite Hn. apply elem_of_app. right. apply list_elem_of_here.
        -- rewrite Hs. apply elem_of_app. right.
           apply list_elem_of_fmap. by exists affiliation.
Qed.

(** C10.  [merge_author_affiliation] returns the empty list when the
    document's [authors] is [None].  Otherwise it returns a set: iterating
    over it yields no string twice, and its elements are exactly the strings
    [name + ', Unknown'] for the authors whose [affiliations] is [None] and
    [name + ', ' + affiliation.name] for every author and each of the
    author's affiliations. *)
Theorem merge_author_affiliation_spec (doc : Document) :
  (authors doc = None -> merge_author_affiliation doc = IList []) /\
  (forall doc_authors, authors doc = Some doc_authors ->
     exists s : gset string,
       merge_author_affiliation doc = ISet s /\
       NoDup (iter (merge_author_affiliation doc)) /\
       forall x, x ∈ s <-> exists author, author ∈ doc_authors /\ merged_for author x).
Proof.
  unfold merge_author_affiliation. split.
  - by intros ->.
  - intros doc_authors ->. eexists. split; [done|]. split.
    + simpl. apply (NoDup_fmap_2 VStr), NoDup_elements.
    + intros x. rewrite elem_of_list_to_set, elem_of_authors_plus_aff.
      split; [intros [[]%elem_of_nil|?]; done|by right].
Qed.

Example merge_author_affiliation_paper :
  iter (merge_author_affiliation paper_2019) ≡ₚ
  [VStr "Ann, Unknown"; VStr "Bob, UvA"; VStr "Bob, VU"].
Proof. by vm_compute (iter _). Qed.

(** ** The frequencies handed to the word-cloud library *)

Section cloud.
Context {R : Type} `{Scalar R} `{Libraries R}.
Implicit Types (mapping : list (string * R)) (row : list R).

Lemma elem_of_mapping_set mapping k v k' v' :
  (k', v') ∈ mapping_set mapping k v -> (k', v') ∈ mapping \/ (k' = k /\ v' = v).
Proof.
  induction mapping as [|[k0 v0] mapping IH]; simpl.
  - intros [= -> ->]%list_elem_of_singleton. by right.
  - destruct (decide (k0 = k)) as [->|Hne].
    + intros [[= -> ->]|Hin]%elem_of_cons; [by right|].
      left. by apply list_elem_of_further.
    + intros [[= -> ->]|Hin]%elem_of_cons; [left; apply list_elem_of_here|].
      destruct (IH Hin) as [?|?]; [left; by apply list_elem_of_further|by right].
Qed.

Lemma keys_mapping_set mapping k v k' :
  k' ∈ (mapping_set mapping k v).*1 <-> k' = k \/ k' ∈ mapping.*1.
Proof.
  induction mapping as [|[k0 v0] mapping IH]; simpl.
  - rewrite list_elem_of_singleton. split; [by left|]. intros [?|[]%elem_of_nil]. done.
  - destruct (decide (k0 = k)) as [->|Hne]; simpl.
    + rewrite elem_of_cons. tauto.
    + rewrite !elem_of_cons, IH. tauto.
Qed.

Lemma cloud_step_run (dictionary : gmap nat string) row maximum mapping i weight token
    (w : world R) :
  row !! i = Some weight -> dictionary !! i = Some token ->
  cloud_step dictionary row maximum mapping i w =
  (Return (if ltb (of_Z 0) weight
           then mapping_set mapping token (div weight maximum) else mapping), w).
Proof.
  intros Hw Ht. unfold cloud_step. rewrite Hw. simpl.
  erewrite bind_Return; [|done].
  destruct (ltb (of_Z 0) weight); [|done].
  rewrite Ht. simpl. by erewrite bind_Return; [|done].
Qed.

Lemma cloud_loop_run (dictionary : gmap nat string) row maximum idx mapping
    (w : world R) :
  Forall (fun i => is_Some (row !! i) /\ is_Some (dictionary !! i)) idx ->
  exists mapping',
    cloud_loop dictionary row maximum mapping idx w = (Return mapping', w) /\
    (forall token v, (token, v) ∈ mapping' ->
       (token, v) ∈ mapping \/ weighed dictionary row maximum idx token v) /\
    (forall token, token ∈ mapping.*1 -> token ∈ mapping'.*1) /\
    (forall i weight token,
       i ∈ idx -> row !! i = Some weight -> ltb (of_Z 0) weight = true ->
       dictionary !! i = Some token -> token ∈ mapping'.*1).
Proof.
  intros Hidx. revert mapping.
  induction Hidx as [|i idx [[weight Hw] [token Ht]] _ IH]; intros mapping; simpl.
  { exists mapping. split; [done|]. split; [by left|]. split; [done|].
    by intros ? ? ? ?%elem_of_nil. }
  erewrite bind_Return; [|by apply cloud_step_run].
  destruct (ltb (of_Z 0) weight) eqn:Hpos.
  - destruct (IH (mapping_set mapping token (div weight maximum)))
      as (mapping' & Hrun & Hin & Hkeys & Hall).
    exists mapping'. split; [done|]. split; [|split].
    + intros token' v Htv. destruct (Hin _ _ Htv) as [Hm|(j & wj & Hj & ?)].
      * apply elem_of_mapping_set in Hm as [?|[-> ->]]; [by left|].
        right. exists i, weight. split; [apply list_elem_of_here|done].
      * right. exists j, wj. split; [by apply list_elem_of_further|done].
    + intros token' Hk. apply Hkeys, keys_mapping_set. by right.
    + intros j wj tj [->|Hj]%elem_of_cons Hwj Hposj Htj; [|by eapply Hall].
      apply Hkeys, keys_mapping_set. left. congruence.
  - destruct (IH mapping) as (mapping' & Hrun & Hin & Hkeys & Hall).
    exists mapping'. split; [done|]. split; [|split; [done|]].
    + intros token' v Htv. destruct (Hin _ _ Htv) as [?|(j & wj & Hj & ?)]; [by left|].
      right. exists j, wj. split; [by apply list_elem_of_further|done].
    + intros j wj tj [->|Hj]%elem_of_cons Hwj Hposj Htj; [|by eapply Hall].
      congruence.
Qed.

(** C4 (amended).  [generate_topic_cloud] normalises the weights itself: when
    the store holds the model, the topic has a non-empty row of weights and
    every index [argsort] returns among its last 100 is a token of the row
    and of the dictionary, then, if one of those (at most 100) indices has a
    positive weight, the call returns a word cloud, leaves the world as it
    was, and the frequencies it hands to [fit_words] map the tokens of
    positive weight among those indices -- all of them -- to the weight
    divided by the greatest weight of the topic; and if none of them has a
    positive weight, the mapping is empty and [fit_words] raises
    [ValueError]. *)
Theorem generate_topic_cloud_normalises (w : world R) (model : loc) (m : TopicModel R)
    (topicid : nat) (kwargs : cloud_kwargs R) (row : list R) (maximum : R) :
  heap w !! model = Some (OModel m) ->
  topic2token m !! topicid = Some row ->
  amax row = Some maximum ->
  Forall (fun i => is_Some (row !! i) /\ is_Some (dictionary m !! i))
         (slice_last 100 (argsort row)) ->
  ((exists i weight,
       i ∈ slice_last 100 (argsort row) /\ row !! i = Some weight /\
       ltb (of_Z 0) weight = true) ->
   exists wc,
     generate_topic_cloud model topicid kwargs w = (Return wc, w) /\
     (length (slice_last 100 (argsort row)) <= 100)%nat /\
     fit_words wc <> [] /\
     (forall token v, (token, v) ∈ fit_words wc ->
        weighed (dictionary m) row maximum (slice_last 100 (argsort row)) token v) /\
     (forall i weight token,
        i ∈ slice_last 100 (argsort row) -> row !! i = Some weight ->
        ltb (of_Z 0) weight = true -> dictionary m !! i = Some token ->
        token ∈ (fit_words wc).*1)) /\
  ((forall i weight,
       i ∈ slice_last 100 (argsort row) -> row !! i = Some weight ->
       ltb (of_Z 0) weight = false) ->
   generate_topic_cloud model topicid kwargs w =
   (Raise (ValueError "We need at least 1 word to plot a word cloud, got 0."), w)).
Proof.
  intros Hm Hrow Hmax Hidx.
  destruct (cloud_loop_run (dictionary m) row maximum _ [] w Hidx)
    as (mapping & Hrun & Hin & _ & Hall).
  assert (Hstart : generate_topic_cloud model topicid kwargs w =
                   match mapping with
                   | [] => (Raise (ValueError
                                     "We need at least 1 word to plot a word cloud, got 0."),
                            w)
                   | _ :: _ =>
                       (Return {| prefer_horizontal := true;
                                  max_font_size := kw_max_font_size kwargs;
                                  background_color := kw_background_color kwargs;
                                  color_func :=
                                    get_color (default (get_cmap "Blues") (kw_cmap kwargs));
                                  scale := 2;
                                  relative_scaling := lit 1 2;
                                  fit_words := mapping |}, w)
                   end).
  { unfold generate_topic_cloud, load_model.
    erewrite bind_Return; [|erewrite bind_Return; [|by apply load_run]; done].
    rewrite Hrow. simpl. erewrite bind_Return; [|done].
    rewrite Hmax. simpl. erewrite bind_Return; [|done].
    erewrite bind_Return; [|exact Hrun]. by destruct mapping. }
  split.
  - intros (i & weight & Hi & Hw & Hpos).
    destruct (proj1 (Forall_forall _ _) Hidx i Hi) as [_ [token Htoken]].
    pose proof (Hall i weight token Hi Hw Hpos Htoken) as Hkey.
    destruct mapping as [|kv mapping]; [by apply elem_of_nil in Hkey|].
    eexists. split; [exact Hstart|]. simpl. split; [|split; [done|split; [|done]]].
    + unfold slice_last. rewrite length_drop. lia.
    + intros token' v Htv. by destruct (Hin _ _ Htv) as [[]%elem_of_nil|?].
  - intros Hnone. rewrite Hstart.
    destruct mapping as [|[token v] mapping]; [done|].
    destruct (Hin token v) as [[]%elem_of_nil|(i & weight & Hi & Hw & Hpos & _)];
      [apply list_elem_of_here|].
    by rewrite (Hnone i weight Hi Hw) in Hpos.
Qed.
End cloud.

(** C4 (amended) in binary64: at the first topic of the sample model, whose
    weights are 1 and 2, and at the second topic of a model whose weights
    there are 0 and 0. *)
Lemma generate_topic_cloud_normalises_witness :
  (exists wc,
     @generate_topic_cloud float _ (sample_libraries float) 0%nat 0%nat (default_kwargs float)
       (start [OModel (sample_model float)]) =
       (Return wc, start [OModel (sample_model float)]) /\
     (length (slice_last 100 [0; 1]%nat) <= 100)%nat /\
     fit_words wc <> [] /\
     (forall token v, (token, v) ∈ fit_words wc ->
        @weighed float _ (dictionary (sample_model float)) [1; 2]%float 2%float
          (slice_last 100 [0; 1]%nat) token v) /\
     (forall i weight token,
        i ∈ slice_last 100 [0; 1]%nat -> [1; 2]%float !! i = Some weight ->
        PrimFloat.ltb 0%float weight = true ->
        dictionary (sample_model float) !! i = Some token ->
        token ∈ (fit_words wc).*1)) /\
  @generate_topic_cloud float _ (sample_libraries float) 0%nat 1%nat (default_kwargs float)
    (start [OModel (flat_model float)]) =
  (Raise (ValueError "We need at least 1 word to plot a word cloud, got 0."),
   start [OModel (flat_model float)]).
Proof.
  split.
  - refine (proj1 (@generate_topic_cloud_normalises float _ (sample_libraries float)
                     (start [OModel (sample_model float)]) 0%nat (sample_model float) 0%nat
                     (default_kwargs float) [1; 2]%float 2%float eq_refl eq_refl eq_refl _) _).
    + repeat constructor; by eexists.
    + exists 1%nat, 2%float. split; [|split; reflexivity].
      apply list_elem_of_further, list_elem_of_here.
  - refine (proj2 (@generate_topic_cloud_normalises float _ (sample_libraries float)
                     (start [OModel (flat_model float)]) 0%nat (flat_model float) 1%nat
                     (default_kwargs float) [0; 0]%float 0%float eq_refl eq_refl eq_refl _) _).
    + repeat constructor; by eexists.
    + intros i weight Hi Hw. simpl in Hi.
      apply elem_of_cons in Hi as [->|Hi]; [by injection Hw as <-|].
      apply elem_of_cons in Hi as [->|Hi]; [by injection Hw as <-|].
      by apply elem_of_nil in Hi.
Defined.

(** C4, as stated, fails: for a topic with the weights 1 and 2 the module
    hands the library 0.5 and 1, the weights divided by their maximum, not
    the weights. *)
Lemma generate_topic_cloud_divides :
  match (@generate_topic_cloud float _ (sample_libraries float) 0%nat 0%nat
           (default_kwargs float) (start [OModel (sample_model float)])).1 with
  | Return wc => Some (fit_words wc)
  | Raise _ => None
  end = Some [("data", 0.5%float); ("model", 1%float)] /\
  topic2token (sample_model float) !! 0%nat = Some [1%float; 2%float].
Proof. split; reflexivity. Qed.

(** ** What a call may touch *)

Section invariant.
Context {R : Type}.
Context (w0 : world R) (cnt : option loc) (supplied : option axes).
Context (own : axes -> Prop) (ok : event R -> Prop).

Local Abbreviation inv := (inv w0 cnt supplied own ok).
Local Abbreviation writable := (writable w0 cnt).
Local Abbreviation stable := (stable w0 cnt supplied own ok).

Lemma stable_weaken {A} (m : Py R A) (Q Q' : A -> Prop) :
  stable m Q -> (forall a, Q a -> Q' a) -> stable m Q'.
Proof. intros Hm HQ w Hw. destruct (Hm w Hw) as [? ?]. naive_solver. Qed.

Lemma stable_ret {A} (a : A) (Q : A -> Prop) : Q a -> stable (ret a) Q.
Proof. intros HQ w Hw. split; [done|]. by intros a' [= <-]. Qed.

Lemma stable_raise {A} (e : exn) (Q : A -> Prop) : stable (raise e) Q.
Proof. intros w Hw. split; [done|]. by intros a' [=]. Qed.

Lemma stable_bind {A B} (m : Py R A) (k : A -> Py R B) (Q : A -> Prop) (Q' : B -> Prop) :
  stable m Q -> (forall a, Q a -> stable (k a) Q') -> stable (bind m k) Q'.
Proof.
  intros Hm Hk w Hw. destruct (Hm w Hw) as [Hinv HQ]. unfold bind.
  destruct (m w) as [[a|e] w'] eqn:E; simpl in *.
  - apply Hk; [by apply HQ|done].
  - split; [done|]. by intros a' [=].
Qed.

Lemma stable_of_option {A} (e : exn) (o : option A) : stable (of_option e o) any.
Proof. destruct o; [by apply stable_ret|apply stable_raise]. Qed.

Lemma stable_for {A} (l : list A) (body : A -> Py R unit) :
  (forall a, stable (body a) any) -> stable (for_ l body) any.
Proof.
  intros Hb. induction l as [|a l IH]; simpl; [by apply stable_ret|].
  eapply stable_bind; [apply Hb|]. intros _ _. apply IH.
Qed.

Lemma stable_comprehension {A B} (l : list A) (f : A -> Py R B) :
  (forall a, stable (f a) any) -> stable (comprehension l f) any.
Proof.
  intros Hf. induction l as [|a l IH]; simpl; [by apply stable_ret|].
  eapply stable_bind; [apply Hf|]. intros b _.
  eapply stable_bind; [apply IH|]. intros bs _. by apply stable_ret.
Qed.

Lemma stable_for_zorder {A} (l : list A) (z : Z) (body : A -> Z -> Py R Z) :
  (forall a z', stable (body a z') any) -> stable (for_zorder l z body) any.
Proof.
  intros Hb. revert z. induction l as [|a l IH]; intros z; simpl; [by apply stable_ret|].
  eapply stable_bind; [apply Hb|]. intros z' _. apply IH.
Qed.

(** Reading leaves the world alone. *)
Lemma stable_get_heap : stable get_heap any.
Proof. intros w Hw. split; [done|]. by intros. Qed.


Lemma stable_gca : stable gca (fun a => supplied = None -> own a).
Proof.
  intros w Hw. split; [done|]. simpl. intros a [= <-]. apply Hw.
Qed.

Lemma stable_load (l : loc) : stable (load l) any.
Proof.
  unfold load. eapply stable_bind; [apply stable_get_heap|].
  intros h _. apply stable_of_option.
Qed.

Lemma stable_alloc (o : obj R) : stable (alloc o) writable.
Proof.
  intros w Hw. destruct Hw as [Ha Hf Hfig Hn Hc Hl]. split.
  - split; simpl; try done.
    + rewrite length_app. lia.
    + intros l Hl0 Hne. rewrite lookup_app_l by lia. by apply Hf.
  - simpl. intros a [= <-]. by left.
Qed.

Lemma stable_store (l : loc) (o : obj R) : writable l -> stable (store l o) any.
Proof.
  intros Hwr w Hw. destruct Hw as [Ha Hf Hfig Hn Hc Hl]. split; [|done].
  split; simpl; try done.
  - by rewrite length_insert.
  - intros l' Hl0 Hne. rewrite list_lookup_insert_ne; [by apply Hf|].
    destruct Hwr as [?|Hcnt]; [lia|]. by intros ->.
Qed.

Lemma stable_emit (e : event R) : ok e -> stable (emit e) any.
Proof.
  intros He w Hw. destruct Hw as [Ha Hf Hfig Hn Hc (evs & Hl & Hok)]. split; [|done].
  split; simpl; try done.
  exists (evs ++ [e]). rewrite Hl, app_assoc. split; [done|].
  apply Forall_app. split; [done|]. by apply Forall_singleton.
Qed.

Hypothesis ok_title : forall a t, ok (Draw a (set_title t)).
Hypothesis ok_draw : forall a c, own a -> ok (Draw a c).

Ltac step := eapply stable_bind; [|intros ? ?].

Lemma stable_load_dict (c : loc) : stable (load_dict c) any.
Proof.
  unfold load_dict. step; [apply stable_load|].
  destruct a; by (apply stable_ret || apply stable_raise).
Qed.

Lemma stable_get_docs (docset : option loc) : stable (get_docs docset) any.
Proof.
  destruct docset as [l|]; simpl; [|apply stable_raise].
  step; [apply stable_load|].
  destruct a; by (apply stable_ret || apply stable_raise).
Qed.

Lemma stable_load_model (l : loc) : stable (load_model l) any.
Proof.
  unfold load_model. step; [apply stable_load|].
  destruct a; by (apply stable_ret || apply stable_raise).
Qed.

Lemma stable_load_freqs (l : loc) : stable (load_freqs l) any.
Proof.
  unfold load_freqs. step; [apply stable_load|].
  destruct a; by (apply stable_ret || apply stable_raise).
Qed.

Lemma stable_load_dictionary (l : loc) : stable (load_dictionary l) any.
Proof.
  unfold load_dictionary. step; [apply stable_load|].
  destruct a; by (apply stable_ret || apply stable_raise).
Qed.

Lemma stable_dict_iadd (c : loc) k n : writable c -> stable (dict_iadd c k n) any.
Proof.
  intros Hc. unfold dict_iadd. step; [apply stable_load_dict|].
  destruct (Dict.get a.2 k), a.1; by (apply stable_store || apply stable_raise).
Qed.

Lemma stable_dict_getitem (c : loc) k : writable c -> stable (dict_getitem c k) any.
Proof.
  intros Hc. unfold dict_getitem. step; [apply stable_load_dict|].
  destruct (Dict.get a.2 k), a.1; try by (apply stable_ret || apply stable_raise).
  step; [by apply stable_store|]. by apply stable_ret.
Qed.

Lemma stable_aggregate fun_ docset : stable (aggregate fun_ docset) writable.
Proof.
  unfold aggregate. step; [apply stable_alloc|].
  step; [apply stable_get_docs|].
  step; [|by apply stable_ret].
  apply stable_for. intros d. destruct fun_ as [f|]; [|apply stable_raise].
  apply stable_for. intros key.
  destruct (truthy key); [by apply stable_dict_iadd|by apply stable_ret].
Qed.

Lemma stable_plt_title (t : string) : stable (plt_title t) any.
Proof. unfold plt_title. step; [apply stable_gca|]. by apply stable_emit. Qed.

(** The axes a function draws on: the one supplied, or pyplot's current. *)
Lemma stable_chosen_axes (ax : option axes) :
  (forall a, ax = Some a -> own a) -> (ax = None -> supplied = None) ->
  stable (match ax with None => gca | Some a => ret a end) own.
Proof.
  intros Hsome Hnone. destruct ax as [a|].
  - apply stable_ret. by apply Hsome.
  - eapply stable_weaken; [apply stable_gca|]. intros a Ha. by apply Ha, Hnone.
Qed.

Lemma stable_plot_statistic fun_ docset x ax x_label count vertical title :
  (forall a, ax = Some a -> own a) -> (ax = None -> supplied = None) ->
  (forall c, count = Some c -> writable c) ->
  stable (plot_statistic fun_ docset x ax x_label count vertical title) any.
Proof.
  intros Hsome Hnone Hcount. unfold plot_statistic.
  step; [by apply stable_chosen_axes|].
  eapply (stable_bind _ _ writable).
  { destruct count as [c|]; [apply stable_ret; by apply Hcount|apply stable_aggregate]. }
  intros c Hc.
  step; [destruct title; [apply stable_plt_title|by apply stable_ret]|].
  step.
  { instantiate (1 := any). destruct x; try by apply stable_ret.
    - step; [apply stable_load_dict|]. by apply stable_ret.
    - step; [apply stable_load_dict|]. by apply stable_ret. }
  destruct vertical; simpl.
  - step; [apply stable_emit; by apply ok_draw|].
    step; [apply stable_comprehension; intros; by apply stable_dict_getitem|].
    apply stable_emit. by apply ok_draw.
  - step; [apply stable_emit; by apply ok_draw|].
    step; [apply stable_comprehension; intros; by apply stable_dict_getitem|].
    apply stable_emit. by apply ok_draw.
Qed.

Lemma stable_plot_frequency_histogram x_label freqs dic top_k ax :
  (forall a, ax = Some a -> own a) -> (ax = None -> supplied = None) ->
  stable (plot_frequency_histogram x_label freqs dic top_k ax) any.
Proof.
  intros Hsome Hnone. unfold plot_frequency_histogram.
  step; [apply stable_load_freqs|].
  eapply (stable_bind _ _ writable); [apply stable_alloc|]. intros c Hc.
  step.
  { apply stable_for. intros wf.
    step; [apply stable_load_dictionary|].
    step; [apply stable_of_option|].
    by apply stable_dict_iadd. }
  apply stable_plot_statistic; [done|done|]. by intros c' [= <-].
Qed.

Context `{Scalar R} `{Libraries R}.

Lemma stable_cloud_loop dictionary row maximum mapping idx :
  stable (cloud_loop dictionary row maximum mapping idx) any.
Proof.
  revert mapping. induction idx as [|i idx IH]; intros mapping; simpl;
    [by apply stable_ret|].
  step; [|apply IH].
  instantiate (1 := any). unfold cloud_step.
  step; [apply stable_of_option|].
  destruct (ltb (of_Z 0) a); [|by apply stable_ret].
  step; [apply stable_of_option|]. by apply stable_ret.
Qed.

Lemma stable_generate_topic_cloud model topicid kwargs :
  stable (generate_topic_cloud model topicid kwargs) any.
Proof.
  unfold generate_topic_cloud.
  step; [apply stable_load_model|].
  step; [apply stable_of_option|].
  step; [apply stable_of_option|].
  step; [apply stable_cloud_loop|].
  match goal with
  | |- context [match ?mapping with [] => _ | _ :: _ => _ end] => destruct mapping
  end; [apply stable_raise|by apply stable_ret].
Qed.

Lemma stable_plot_topic_cloud model topicid ax kwargs :
  (forall a, ax = Some a -> own a) -> (ax = None -> supplied = None) ->
  stable (plot_topic_cloud model topicid ax kwargs) any.
Proof.
  intros Hsome Hnone. unfold plot_topic_cloud.
  step; [by apply stable_chosen_axes|].
  step; [apply stable_emit; by apply ok_draw|].
  step; [apply stable_emit; by apply ok_draw|].
  step; [apply stable_generate_topic_cloud|].
  apply stable_emit. by apply ok_draw.
Qed.

Lemma stable_add_subplot fig rows cols index :
  (forall a, (next_axes w0 <= a)%nat -> own a) ->
  (forall a, (next_axes w0 <= a)%nat -> ok (AddSubplot fig rows cols index a)) ->
  stable (add_subplot fig rows cols index) own.
Proof.
  intros own_new Hok w Hw. unfold add_subplot.
  destruct (decide (rows <= 0)); [by split|].
  destruct (decide (cols <= 0)); [by split|].
  destruct (decide (1 <= index <= rows * cols)); [|by split].
  destruct Hw as [Ha Hf Hfig Hn Hc (evs & Hl & Hevs)]. split.
  - split; simpl; try done.
    + lia.
    + intros Hs. case_decide; [by apply own_new|by apply Hc].
    + exists (evs ++ [AddSubplot fig rows cols index (next_axes w)]).
      rewrite Hl, app_assoc. split; [done|].
      apply Forall_app. split; [done|]. apply Forall_singleton. by apply Hok.
  - simpl. intros ax [= <-]. by apply own_new.
Qed.

Lemma stable_plot_topic_clouds model cols fig kwargs :
  (forall a, (next_axes w0 <= a)%nat -> own a) ->
  (fig = None -> ok (Clf (current_figure w0))) ->
  (forall rows index a, (next_axes w0 <= a)%nat ->
     ok (AddSubplot (default (current_figure w0) fig) rows cols index a)) ->
  stable (plot_topic_clouds model cols fig kwargs) any.
Proof.
  intros Hnew Hclf Hsub. unfold plot_topic_clouds.
  eapply (stable_bind _ _ (fun f => f = default (current_figure w0) fig)).
  { destruct fig as [f|]; [by apply stable_ret|].
    eapply (stable_bind _ _ (fun f => f = current_figure w0)).
    { intros w Hw. split; [done|]. simpl. intros a [= <-]. apply Hw. }
    intros f ->. step; [apply stable_emit; by apply Hclf|].
    intros w Hw. split; [done|]. simpl. intros f' [= <-]. apply Hw. }
  intros f ->.
  step; [apply stable_load_model|].
  step; [instantiate (1 := any); case_decide; [apply stable_raise|by apply stable_ret]|].
  apply stable_for. intros i.
  eapply (stable_bind _ _ own); [apply stable_add_subplot; [done|by apply Hsub]|].
  intros ax Hax. apply stable_plot_topic_cloud; [by intros ? [= <-]|done].
Qed.

Lemma stable_draw_dot ax model p t zorder :
  own ax -> stable (draw_dot ax model p t zorder) any.
Proof.
  intros Hax. unfold draw_dot.
  step; [apply stable_load_model|].
  step; [instantiate (1 := any); case_decide; [apply stable_raise|by apply stable_ret]|].
  destruct (get_cmap _ _) as [[[r g] b] alpha].
  step; [apply stable_emit; by apply ok_draw|].
  step; [apply stable_of_option|].
  apply stable_emit. by apply ok_draw.
Qed.

Lemma stable_np_random_permutation n :
  ok (GlobalRandom n) -> stable (np_random_permutation n) any.
Proof.
  intros Hok w Hw. destruct Hw as [Ha Hf Hfig Hn Hc (evs & Hl & Hevs)]. split; [|done].
  split; simpl; try done.
  exists (evs ++ [GlobalRandom n]). rewrite Hl, app_assoc. split; [done|].
  apply Forall_app. split; [done|]. by apply Forall_singleton.
Qed.

Lemma stable_plot_topic_map model dic freqs ax seed :
  (forall a, ax = Some a -> own a) -> (ax = None -> supplied = None) ->
  ok (Verbose "TSNE") -> (forall n, ok (GlobalRandom n)) ->
  stable (plot_topic_map model dic freqs ax seed) any.
Proof.
  intros Hsome Hnone Hverbose Hrandom. unfold plot_topic_map.
  eapply (stable_bind _ _ own); [by apply stable_chosen_axes|]. intros a Ha.
  step; [apply stable_load_freqs|].
  step; [apply stable_load_dictionary|].
  step; [by apply stable_emit|].
  step; [apply stable_of_option|].
  do 4 (step; [apply stable_emit; by apply ok_draw|]).
  step; [apply stable_load_model|].
  step; [by apply stable_np_random_permutation|].
  step.
  { apply stable_for_zorder. intros i z.
    step; [apply stable_load_model|].
    do 3 (step; [apply stable_of_option|]).
    step; [by apply stable_draw_dot|]. by apply stable_ret. }
  step; [apply stable_load_model|].
  step; [|by apply stable_ret].
  apply stable_for_zorder. intros i z.
  step; [apply stable_load_model|].
  step; [apply stable_of_option|].
  step; [apply stable_load_dictionary|].
  step; [apply stable_comprehension; intros; apply stable_of_option|].
  step; [by apply stable_draw_dot|].
  step; [apply stable_emit; by apply ok_draw|]. by apply stable_ret.
Qed.
End invariant.

(** ** Every plotting function *)

Section calls.
Context {R : Type} `{Scalar R} `{Libraries R}.

Lemma inv_start (c : call R) (w : world R) :
  inv w (count_argument c) (axes_argument c) (own_axes c w) (allowed c w) w.
Proof.
  split; try done.
  - intros Hnone. left. by rewrite Hnone.
  - exists []. by rewrite app_nil_r.
Qed.

Lemma allowed_draw (c : call R) (w : world R) a cmd :
  own_axes c w a -> allowed c w (Draw a cmd).
Proof. intros Ha. by destruct cmd. Qed.

Lemma own_axes_argument (c : call R) (w : world R) a :
  axes_argument c = Some a -> own_axes c w a.
Proof. intros Ha. left. by rewrite Ha. Qed.

(** Every call keeps the invariant, with the permissions of [allowed]. *)
Lemma run_stable (c : call R) (w : world R) :
  stable w (count_argument c) (axes_argument c) (own_axes c w) (allowed c w)
    (run c) any.
Proof.
  pose proof (fun a => own_axes_argument c w a) as Hown.
  assert (Htitle : forall a t, allowed c w (Draw a (set_title t))) by done.
  pose proof (allowed_draw c w) as Hdraw.
  destruct c; simpl in *.
  - apply stable_plot_statistic; try done. intros c ->. by right.
  - unfold plot_year_histogram.
    eapply stable_bind; [apply stable_get_docs|]. intros ds _.
    eapply stable_bind; [apply stable_of_option|]. intros lo _.
    eapply stable_bind; [apply stable_of_option|]. intros hi _.
    by apply stable_plot_statistic.
  - by apply stable_plot_statistic.
  - by apply stable_plot_statistic.
  - by apply stable_plot_statistic.
  - by apply stable_plot_statistic.
  - unfold plot_source_histogram. destruct clean; simpl.
    + by apply stable_emit.
    + by apply stable_plot_statistic.
  - unfold plot_affiliation_histogram. destruct clean; simpl.
    + by apply stable_emit.
    + by apply stable_plot_statistic.
  - by apply stable_plot_statistic.
  - by apply stable_plot_statistic.
  - by apply stable_plot_statistic.
  - by apply stable_plot_frequency_histogram.
  - by apply stable_plot_frequency_histogram.
  - apply stable_plot_topic_clouds; try done.
    + intros a Ha. right. split; [done|]. by eexists _, _, _, _.
    + intros ->. split; [done|]. by eexists _, _, _.
    + intros rows index a Ha. split; [done|]. by eexists _, _, _, _.
  - by apply stable_plot_topic_cloud.
  - apply stable_plot_topic_map; try done.
    + by eexists _, _, _, _, _.
    + intros n. by eexists _, _, _, _, _.
Qed.

Lemma run_inv (c : call R) (w : world R) :
  inv w (count_argument c) (axes_argument c) (own_axes c w) (allowed c w) (run c w).2.
Proof. apply run_stable, inv_start. Qed.

(** C6 (amended).  Whatever a plotting function logs satisfies [allowed]:
    its bar, label, tick, limit, image, scatter and text calls go to the
    axes it was given (pyplot's current axes when it was given none, or a
    subplot it added); only [plot_topic_clouds] clears the current figure
    (when it is given none) and adds subplots; only [plot_topic_map] prints
    t-SNE's progress and draws from numpy's global generator.  There is no
    file access among these calls: the cleaning routine is delegated to
    exactly when [plot_source_histogram] or [plot_affiliation_histogram] is
    called with [clean] true, and then the function returns having done
    nothing else. *)
Theorem run_effects (c : call R) (w : world R) :
  exists evs,
    log (run c w).2 = log w ++ evs /\
    Forall (allowed c w) evs /\
    (forall e, cleaning c = Some e -> (run c w).1 = Return tt /\ evs = [e]) /\
    (forall plot docset top_k ax filename cleaning_type,
        CleanAttributes plot docset top_k ax filename cleaning_type ∈ evs <->
        cleaning c = Some (CleanAttributes plot docset top_k ax filename cleaning_type)).
Proof.
  destruct (inv_log _ _ _ _ _ _ (run_inv c w)) as (evs & Hlog & Hok).
  exists evs. split; [done|]. split; [done|].
  assert (Hclean : forall e, cleaning c = Some e -> (run c w).1 = Return tt /\ evs = [e]).
  { intros e He. destruct c; try done; destruct clean; try done;
      simpl in *; injection He as <-; (split; [done|]);
      by apply app_inv_head in Hlog. }
  split; [done|]. intros plot docset top_k ax filename cleaning_type. split.
  - intros Hin. rewrite Forall_forall in Hok. by apply Hok in Hin.
  - intros He. destruct (Hclean _ He) as [_ ->]. apply list_elem_of_here.
Qed.

(** C8.  Every object that was in the store when a plotting function was
    called -- the document set with its documents, authors and
    affiliations, the topic model, the frequencies and the dictionary --
    is there unchanged when the call ends, whether it returns or raises.
    The one object excepted is a count table the caller hands to
    [plot_statistic] itself. *)
Theorem run_frame (c : call R) (w : world R) (l : loc) (o : obj R) :
  heap w !! l = Some o ->
  count_argument c <> Some l ->
  heap (run c w).2 !! l = Some o.
Proof.
  intros Hl Hc. rewrite <- Hl.
  apply (inv_frame _ _ _ _ _ _ (run_inv c w)); [|done].
  by eapply lookup_lt_Some.
Qed.
End calls.

(** C6, as stated, fails.  Given the axes 5 while pyplot's current axes are
    0, [plot_language_histogram] draws the bars on 5 and sets the title on
    0; and [plot_topic_map] does more than draw: t-SNE reports on the console
    and numpy's global random generator is advanced. *)
Lemma plot_draws_beyond_supplied_axes :
  log (@run float _ (sample_libraries float) (plot_language_histogram_ 0%nat (Some 5%nat))
         (start [ODocSet corpus])).2 =
  [Draw 0%nat (set_title "Publications per source language");
   Draw 5%nat (set_xlabel "No. publications");
   Draw 5%nat (barh [VStr "en"] [2] ["en"])] /\
  log (@run float _ (sample_libraries float)
         (plot_topic_map_ 0%nat 1%nat 2%nat (Some 5%nat) 0) (start sample_store)).2 !! 0%nat =
  Some (Verbose "TSNE") /\
  log (@run float _ (sample_libraries float)
         (plot_topic_map_ 0%nat 1%nat 2%nat (Some 5%nat) 0) (start sample_store)).2 !! 5%nat =
  Some (GlobalRandom 2) /\
  rng (@run float _ (sample_libraries float)
         (plot_topic_map_ 0%nat 1%nat 2%nat (Some 5%nat) 0) (start sample_store)).2 = 1%nat.
Proof. repeat split; reflexivity. Qed.

(** C8 at the topic map of the sample model: the model is left as it was. *)
Lemma run_frame_witness :
  heap (@run float _ (sample_libraries float)
          (plot_topic_map_ 0%nat 1%nat 2%nat (Some 5%nat) 0) (start sample_store)).2 !! 0%nat =
  Some (OModel (sample_model float)).
Proof.
  apply (@run_frame float _ (sample_libraries float)); [reflexivity|discriminate].
Defined.

(** The excepted object: a [defaultdict] handed to [plot_statistic] together
    with a list naming a key it lacks comes back with that key, at zero. *)
Example plot_statistic_touches_count :
  heap (@plot_statistic Z None None (XList [VStr "b"]) None "" (Some 0%nat) false None
          (start [ODict true [(VStr "a", 1)]])).2 =
  [ODict true [(VStr "a", 1); (VStr "b", 0)]].
Proof. reflexivity. Qed.

(** ** The layout of the topic map, in exact and in floating-point arithmetic

    The four steps of lines 366-369 run on floating-point arrays.  With
    rational numbers in their place the result lies in [0.05, 0.95] on both
    axes; with IEEE binary64 numbers the greatest coordinate is
    [1.0 * 0.9 + 0.05], one unit in the last place above [0.95]; with IEEE
    binary32 numbers the same sum rounds to a number below [0.95]. *)

Section exact.
Local Open Scope Q_scope.

Lemma maxR_Q (x y : Q) : (maxR x y = x /\ y <= x) \/ (maxR x y = y /\ x < y).
Proof.
  unfold maxR. simpl. destruct (Qle_bool y x) eqn:E; simpl.
  - left. split; [done|]. by apply Qle_bool_iff.
  - right. split; [done|]. apply Qnot_le_lt. intros Hle.
    apply Qle_bool_iff in Hle. congruence.
Qed.

Lemma minR_Q (x y : Q) : (minR x y = x /\ x <= y) \/ (minR x y = y /\ y < x).
Proof.
  unfold minR. simpl. destruct (Qle_bool x y) eqn:E; simpl.
  - left. split; [done|]. by apply Qle_bool_iff.
  - right. split; [done|]. apply Qnot_le_lt. intros Hle.
    apply Qle_bool_iff in Hle. congruence.
Qed.

Lemma amax_Q (l : list Q) (m : Q) :
  amax l = Some m -> m ∈ l /\ forall z, z ∈ l -> z <= m.
Proof.
  destruct l as [|x l]; [done|]. simpl. intros [= <-].
  revert x. induction l as [|y l IH]; intros x; simpl.
  - split; [apply list_elem_of_here|].
    intros z ->%list_elem_of_singleton. apply Qle_refl.
  - destruct (IH (maxR x y)) as [Hin Hle]. split.
    + apply elem_of_cons in Hin as [->|Hin].
      * destruct (maxR_Q x y) as [[-> _]|[-> _]];
          [apply list_elem_of_here|apply list_elem_of_further, list_elem_of_here].
      * by do 2 apply list_elem_of_further.
    + assert (Hm : maxR x y <= foldl maxR (maxR x y) l) by (apply Hle, list_elem_of_here).
      intros z [->|[->|Hz]%elem_of_cons]%elem_of_cons.
      * destruct (maxR_Q x y) as [[E _]|[E Hlt]]; rewrite E in Hm |- *; [done|].
        eapply Qle_trans; [apply Qlt_le_weak, Hlt|done].
      * destruct (maxR_Q x y) as [[E Hyx]|[E _]]; rewrite E in Hm |- *; [|done].
        eapply Qle_trans; [apply Hyx|done].
      * by apply Hle, list_elem_of_further.
Qed.

Lemma amin_Q (l : list Q) (m : Q) :
  amin l = Some m -> m ∈ l /\ forall z, z ∈ l -> m <= z.
Proof.
  destruct l as [|x l]; [done|]. simpl. intros [= <-].
  revert x. induction l as [|y l IH]; intros x; simpl.
  - split; [apply list_elem_of_here|].
    intros z ->%list_elem_of_singleton. apply Qle_refl.
  - destruct (IH (minR x y)) as [Hin Hle]. split.
    + apply elem_of_cons in Hin as [->|Hin].
      * destruct (minR_Q x y) as [[-> _]|[-> _]];
          [apply list_elem_of_here|apply list_elem_of_further, list_elem_of_here].
      * by do 2 apply list_elem_of_further.
    + assert (Hm : foldl minR (minR x y) l <= minR x y) by (apply Hle, list_elem_of_here).
      intros z [->|[->|Hz]%elem_of_cons]%elem_of_cons.
      * destruct (minR_Q x y) as [[E _]|[E Hlt]]; rewrite E in Hm |- *; [done|].
        eapply Qle_trans; [done|apply Qlt_le_weak, Hlt].
      * destruct (minR_Q x y) as [[E Hyx]|[E _]]; rewrite E in Hm |- *; [|done].
        eapply Qle_trans; [done|apply Hyx].
      * by apply Hle, list_elem_of_further.
Qed.

(** The last three steps on one centred coordinate [v]. *)
Lemma scaled_Q (v m : Q) :
  0 < m -> Qabs v <= m ->
  lit 5 100 <= add (mul (add (mul (div v m) (lit 1 2)) (lit 1 2)) (lit 9 10)) (lit 5 100) /\
  add (mul (add (mul (div v m) (lit 1 2)) (lit 1 2)) (lit 9 10)) (lit 5 100) <= lit 95 100.
Proof.
  intros Hm Hv. apply Qabs_Qle_condition in Hv as [H1 H2].
  assert (Hlo : -1 <= v / m) by (apply Qle_shift_div_l; [done|lra]).
  assert (Hhi : v / m <= 1) by (apply Qle_shift_div_r; [done|lra]).
  unfold lit. cbv [mul div add of_Z Q_scalar].
  setoid_replace (inject_Z 5 / inject_Z 100) with (1#20) using relation Qeq by reflexivity.
  setoid_replace (inject_Z 95 / inject_Z 100) with (19#20) using relation Qeq by reflexivity.
  setoid_replace (inject_Z 1 / inject_Z 2) with (1#2) using relation Qeq by reflexivity.
  setoid_replace (inject_Z 9 / inject_Z 10) with (9#10) using relation Qeq by reflexivity.
  split; lra.
Qed.

(** Two values that differ put the midrange strictly below the maximum. *)
Lemma spread_Q (xs : list Q) (lo hi a b : Q) :
  amin xs = Some lo -> amax xs = Some hi -> a ∈ xs -> b ∈ xs -> ~ a == b ->
  0 < Qabs (sub hi (div (add lo hi) (of_Z 2))).
Proof.
  intros [_ Hlo]%amin_Q [_ Hhi]%amax_Q Ha Hb Hab. cbv [sub div add of_Z Q_scalar].
  pose proof (Hlo a Ha). pose proof (Hlo b Hb).
  pose proof (Hhi a Ha). pose proof (Hhi b Hb).
  assert (lo < hi).
  { destruct (Q_dec a b) as [[?|?]|?]; [lra|lra|done]. }
  assert (E : hi - (lo + hi) / inject_Z 2 == (hi - lo) * (1#2))
    by (unfold inject_Z; field).
  rewrite E, Qabs_pos; lra.
Qed.

(** In exact arithmetic, positions that are not all identical are scaled by
    a positive divisor and end in [0.05, 0.95] on both axes. *)
Lemma normalize_exact (pos : list (Q * Q)) :
  (exists p q, p ∈ pos /\ q ∈ pos /\ ~ (p.1 == q.1 /\ p.2 == q.2)) ->
  exists result,
    normalize pos = Some result /\
    forall r, r ∈ result ->
      (lit 5 100 <= r.1 /\ r.1 <= lit 95 100) /\ (lit 5 100 <= r.2 /\ r.2 <= lit 95 100).
Proof.
  intros (p & q & Hp & Hq & Hne). unfold normalize.
  assert (Hx : p.1 ∈ pos.*1 /\ q.1 ∈ pos.*1)
    by (split; by apply list_elem_of_fmap_2).
  assert (Hy : p.2 ∈ pos.*2 /\ q.2 ∈ pos.*2)
    by (split; by apply list_elem_of_fmap_2).
  assert (Hbind : forall (A B : Type) (x : A) (f : A -> option B), Some x ≫= f = f x)
    by done.
  destruct (amin pos.*1) as [lo_x|] eqn:Elox; [|by destruct pos; [apply elem_of_nil in Hp|]].
  destruct (amax pos.*1) as [hi_x|] eqn:Ehix; [|by destruct pos].
  destruct (amin pos.*2) as [lo_y|] eqn:Eloy; [|by destruct pos].
  destruct (amax pos.*2) as [hi_y|] eqn:Ehiy; [|by destruct pos].
  rewrite !Hbind. cbv zeta.
  set (c_x := div (add lo_x hi_x) (of_Z 2)).
  set (c_y := div (add lo_y hi_y) (of_Z 2)).
  set (pos1 := map (fun p => (sub p.1 c_x, sub p.2 c_y)) pos).
  set (sizes := flat_map (fun p : Q * Q => [absR p.1; absR p.2]) pos1).
  assert (Hsizes : forall p0, p0 ∈ pos ->
            absR (sub p0.1 c_x) ∈ sizes /\ absR (sub p0.2 c_y) ∈ sizes).
  { intros p0 Hp0. apply list_elem_of_In in Hp0.
    assert (Hin : In (sub p0.1 c_x, sub p0.2 c_y) pos1)
      by apply (in_map (fun p => (sub p.1 c_x, sub p.2 c_y)) pos p0 Hp0).
    split; apply list_elem_of_In, in_flat_map; eexists; (split; [exact Hin|]);
      [left|right; left]; reflexivity. }
  destruct (amax sizes) as [m|] eqn:Em;
    [|destruct pos; [by apply elem_of_nil in Hp|done]].
  rewrite Hbind. destruct (amax_Q _ _ Em) as [_ Hm].
  assert (Hpos : 0 < m).
  { destruct (Qeq_dec p.1 q.1) as [Ex|Nx].
    - assert (Ny : ~ p.2 == q.2) by tauto.
      destruct (amax_Q _ _ Ehiy) as [Hin _].
      apply list_elem_of_fmap in Hin as (r0 & -> & Hr0).
      eapply Qlt_le_trans; [by eapply (spread_Q _ lo_y (r0.2) p.2 q.2); destruct Hy|].
      by apply Hm, Hsizes.
    - destruct (amax_Q _ _ Ehix) as [Hin _].
      apply list_elem_of_fmap in Hin as (r0 & -> & Hr0).
      eapply Qlt_le_trans; [by eapply (spread_Q _ lo_x (r0.1) p.1 q.1); destruct Hx|].
      by apply Hm, Hsizes. }
  eexists. split; [done|].
  intros r Hr.
  apply list_elem_of_fmap in Hr as (r3 & -> & Hr).
  apply list_elem_of_fmap in Hr as (r2 & -> & Hr).
  apply list_elem_of_fmap in Hr as (r1 & -> & Hr).
  apply list_elem_of_fmap in Hr as (r0 & -> & Hr).
  destruct (Hsizes r0 Hr) as [H1 H2]. simpl.
  split; apply scaled_Q; try done; by apply Hm.
Qed.
End exact.

(** In binary64 the greater of two positions ends one unit in the last
    place above [0.95]: [1.0 * 0.9 + 0.05] rounds to [0.9500000000000001]. *)
Example normalize_binary64 :
  normalize [(0%float, 0%float); (1%float, 1%float)] =
    Some [(lit 5 100, lit 5 100);
          (0x1.e666666666667p-1%float, 0x1.e666666666667p-1%float)] /\
  PrimFloat.ltb (lit 95 100) 0x1.e666666666667p-1%float = true.
Proof. split; reflexivity. Qed.

(** In binary32 the same two positions end at the binary32 numbers nearest
    to [0.05] and [0.95]; the first is above the real number 0.05 and the
    second below the real number 0.95. *)
Example normalize_binary32 :
  normalize (R := binary32) [(of_Z 0, of_Z 0); (of_Z 1, of_Z 1)] =
    Some [(lit 5 100, lit 5 100); (lit 95 100, lit 95 100)] /\
  lit (R := binary32) 5 100 = S754_finite false 13421773 (-28) /\
  lit (R := binary32) 95 100 = S754_finite false 15938355 (-24) /\
  (5 # 100 <= 13421773 # 268435456)%Q /\
  (15938355 # 16777216 <= 95 # 100)%Q.
Proof. repeat split; vm_compute; congruence. Qed.

(** * Further properties of the module *)

(** ** The ranking of [top_k] *)

Section ranking.
Context {A : Type} (key : A -> Z).

Lemma filter_insert_sorted (c : Z) x l :
  filter (fun a => key a = c) (insert_sorted key x l) =
  filter (fun a => key a = c) (x :: l).
Proof.
  induction l as [|y l IH]; simpl; [done|].
  destruct (Z.leb_spec (key x) (key y)) as [Hle|Hlt]; [done|].
  rewrite (filter_cons _ y), IH, !filter_cons.
  destruct (decide (key y = c)), (decide (key x = c)); try done. lia.
Qed.

(** Python's sort is stable: keys of one count keep their order. *)
Lemma filter_sorted (c : Z) l :
  filter (fun a => key a = c) (sorted key l) = filter (fun a => key a = c) l.
Proof.
  induction l as [|x l IH]; [done|].
  change (sorted key (x :: l)) with (insert_sorted key x (sorted key l)).
  by rewrite filter_insert_sorted, !filter_cons, IH.
Qed.
End ranking.


(** X1.  [top_k(mapping, k)] is a prefix of one ranking of all the keys of
    the table: by decreasing count, keys of equal count in the reverse of
    their insertion order.  It is the whole ranking when [k] is at least the
    number of keys, and it repeats no key. *)
Theorem top_k_ranking (mapping : Dict.t) (k : Z) :
  exists rest,
    top_k mapping k ++ rest ≡ₚ Dict.keys mapping /\
    StronglySorted
      (fun a b => default 0 (Dict.get mapping b) <= default 0 (Dict.get mapping a))
      (top_k mapping k ++ rest) /\
    (forall c,
       filter (fun a => default 0 (Dict.get mapping a) = c) (top_k mapping k ++ rest) =
       reverse (filter (fun a => default 0 (Dict.get mapping a) = c) (Dict.keys mapping))) /\
    (Z.of_nat (length mapping) <= k -> rest = []) /\
    (NoDup (Dict.keys mapping) -> NoDup (top_k mapping k)).
Proof.
  set (cnt := fun a => default 0 (Dict.get mapping a)).
  set (ranked := reverse (sorted cnt (Dict.keys mapping))).
  assert (Hn : exists n, top_k mapping k = take n ranked /\
                         (Z.of_nat (length mapping) <= k -> (length ranked <= n)%nat)).
  { unfold top_k, slice_to. fold cnt. fold ranked.
    destruct (Z.leb_spec 0 k) as [Hk|Hk]; eexists; (split; [done|]).
    - intros Hlen. pose proof (length_ranked mapping) as Hr. fold cnt in Hr.
      fold ranked in Hr. lia.
    - lia. }
  destruct Hn as (n & -> & Hall).
  exists (drop n ranked). rewrite take_drop.
  split; [|split; [|split; [|split]]].
  - unfold ranked. by rewrite reverse_Permutation, sorted_Permutation.
  - apply descending_sorted.
  - intros c. unfold ranked. by rewrite filter_reverse, (filter_sorted cnt).
  - intros Hlen. by apply drop_ge, Hall.
  - intros Hnd. apply (sublist_NoDup _ ranked); [|apply sublist_take].
    unfold ranked. by rewrite reverse_Permutation, sorted_Permutation.
Qed.

(** ** [plot_statistic] on a table of the caller *)

Section given_table.
Context {R : Type}.
Implicit Types (w : world R).

Lemma dict_getitem_present_run w c b t k v :
  heap w !! c = Some (ODict b t) -> Dict.get t k = Some v ->
  dict_getitem c k w = (Return v, w).
Proof.
  intros H Hk. unfold dict_getitem.
  rewrite (bind_Return _ _ _ _ _ (load_dict_run _ _ _ _ H)). simpl. by rewrite Hk.
Qed.

Lemma dict_getitem_missing_run w c t k :
  heap w !! c = Some (ODict false t) -> Dict.get t k = None ->
  dict_getitem c k w = (Raise (KeyError (str k)), w).
Proof.
  intros H Hk. unfold dict_getitem.
  rewrite (bind_Return _ _ _ _ _ (load_dict_run _ _ _ _ H)). simpl. by rewrite Hk.
Qed.

Lemma getitems_present_run (keys : list value) w c b t :
  heap w !! c = Some (ODict b t) ->
  (forall a, a ∈ keys -> is_Some (Dict.get t (VStr (str a)))) ->
  comprehension keys (fun a => dict_getitem c (VStr (str a))) w =
  (Return (map (fun a => tally t (str a)) keys), w).
Proof.
  intros H. induction keys as [|a keys IH]; intros Hall; simpl; [done|].
  destruct (Hall a) as [v Hv]; [apply list_elem_of_here|].
  erewrite bind_Return; [|by eapply dict_getitem_present_run].
  erewrite bind_Return; [|apply IH; intros a' Ha'; by apply Hall, list_elem_of_further].
  unfold ret, tally. by rewrite Hv.
Qed.

Lemma getitems_missing_run (pre post : list value) a w c t :
  heap w !! c = Some (ODict false t) ->
  (forall a', a' ∈ pre -> is_Some (Dict.get t (VStr (str a')))) ->
  Dict.get t (VStr (str a)) = None ->
  comprehension (pre ++ a :: post) (fun a => dict_getitem c (VStr (str a))) w =
  (Raise (KeyError (str a)), w).
Proof.
  intros H Hpre Ha. induction pre as [|a0 pre IH]; simpl.
  - unfold bind. by rewrite (dict_getitem_missing_run _ _ _ _ H Ha).
  - destruct (Hpre a0) as [v Hv]; [apply list_elem_of_here|].
    erewrite bind_Return; [|by eapply dict_getitem_present_run].
    unfold bind at 1. rewrite IH; [done|].
    intros a' Ha'. by apply Hpre, list_elem_of_further.
Qed.

Lemma first_missing (t : Dict.t) (keys : list value) :
  (exists a, a ∈ keys /\ Dict.get t (VStr (str a)) = None) ->
  exists pre a post,
    keys = pre ++ a :: post /\
    (forall a', a' ∈ pre -> is_Some (Dict.get t (VStr (str a')))) /\
    Dict.get t (VStr (str a)) = None.
Proof.
  induction keys as [|a0 keys IH]; intros (a & Hin & Ha).
  - by apply elem_of_nil in Hin.
  - destruct (Dict.get t (VStr (str a0))) as [v|] eqn:E.
    + apply elem_of_cons in Hin as [->|Hin]; [congruence|].
      destruct IH as (pre & a1 & post & -> & Hpre & Ha1); [by exists a|].
      exists (a0 :: pre), a1, post. split; [done|]. split; [|done].
      intros a' [->|Ha']%elem_of_cons; [by rewrite E|by apply Hpre].
    + exists [], a0, keys. split; [done|]. split; [|done].
      intros a' Ha'. by apply elem_of_nil in Ha'.
Qed.

(** [plot_statistic] on a table that is in the store, up to the lookups
    of line 64 or 69. *)
Lemma plot_statistic_steps fun_ docset x ax x_label c b t vertical title w :
  heap w !! c = Some (ODict b t) ->
  plot_statistic fun_ docset x ax x_label (Some c) vertical title w =
  let a := default (current_axes w) ax in
  let keys := plotted_keys x vertical t in
  let w1 :=
    with_log (log w ++
              match title with
              | Some t0 => [Draw (current_axes w) (set_title t0)]
              | None => []
              end ++
              [Draw a ((if vertical then set_ylabel else set_xlabel) x_label)]) w in
  match comprehension keys (fun a => dict_getitem c (VStr (str a))) w1 with
  | (Return sizes, w2) =>
      (Return tt,
       with_log (log w2 ++
                 [Draw a ((if vertical then bar else barh) keys sizes (tick_labels keys))])
         w2)
  | (Raise e, w2) => (Raise e, w2)
  end.
Proof.
  intros H. unfold plot_statistic, plotted_keys.
  set (a := default (current_axes w) ax).
  erewrite (bind_Return _ _ w a w); [|by destruct ax].
  erewrite bind_Return; [|done].
  set (w0 := with_log (log w ++ match title with
                                | Some t0 => [Draw (current_axes w) (set_title t0)]
                                | None => []
                                end) w).
  erewrite (bind_Return _ _ w tt w0).
  2:{ destruct title; [done|]. unfold w0, ret. rewrite app_nil_r. by destruct w. }
  assert (H1 : heap w0 !! c = Some (ODict b t)) by done.
  erewrite (bind_Return _ _ w0 (selected_keys x t) w0).
  2:{ destruct x; simpl; [|
      |done]; by erewrite bind_Return; [|by apply load_dict_run]. }
  destruct vertical; simpl.
  - erewrite bind_Return; [|done]. unfold bind at 1.
    unfold emit at 1, w0, with_log. simpl. rewrite <- app_assoc.
    by destruct (comprehension _ _ _) as [[sizes|e] w2].
  - erewrite bind_Return; [|done]. unfold bind at 1.
    unfold emit at 1, w0, with_log. simpl. rewrite <- app_assoc.
    by destruct (comprehension _ _ _) as [[sizes|e] w2].
Qed.

(** X2.  When [x] is a list of strings, or a list of integers, and the table
    is a [defaultdict] of the caller: the bars are the listed keys, in the
    order given when vertical and reversed otherwise; the bar of a key is
    the entry under its string form and 0 when there is none.  The caller's
    table keeps its entries in place and gains an entry of 0 for every
    listed string form it lacked.  (A list that mixes strings with integers
    is left out: matplotlib does not take it as the positions of bars.) *)
Theorem plot_statistic_listed w (c : loc) (count : Dict.t) (l : list value)
    fun_ docset ax x_label vertical title :
  heap w !! c = Some (ODict true count) ->
  Forall (fun a => exists s, a = VStr s) l \/ Forall (fun a => exists z, a = VInt z) l ->
  exists w' count' new,
    plot_statistic fun_ docset (XList l) ax x_label (Some c) vertical title w =
      (Return tt, w') /\
    last (log w') =
      Some (Draw (default (current_axes w) ax)
              ((if vertical then bar else barh)
                 (if vertical then l else reverse l)
                 (map (fun a => default 0 (Dict.get count (VStr (str a))))
                      (if vertical then l else reverse l))
                 (tick_labels (if vertical then l else reverse l)))) /\
    heap w' = <[c := ODict true count']> (heap w) /\
    count' = count ++ new /\ Forall (fun kv => kv.2 = 0) new /\
    (forall k,
       Dict.get count' k =
       match Dict.get count k with
       | Some v => Some v
       | None => if decide (k ∈ (fun a => VStr (str a)) <$> l) then Some 0 else None
       end).
Proof.
  intros H _.
  destruct (touch_all_extends (plotted_keys (XList l) vertical count) count)
    as (new & Hnew & Hzero).
  eexists _, (touch_all count (plotted_keys (XList l) vertical count)), new.
  split; [by apply plot_statistic_run|].
  split; [|split; [done|split; [done|split; [done|]]]].
  - simpl. unfold statistic_events, plotted_keys, selected_keys, tally.
    destruct vertical, title; simpl; by rewrite last_app_cons.
  - intros k. rewrite get_touch_all. destruct (Dict.get count k); [done|].
    unfold plotted_keys, selected_keys. destruct vertical; [done|].
    destruct (decide (k ∈ (fun a => VStr (str a)) <$> l)) as [Hin|Hin].
    + rewrite decide_True; [done|]. by rewrite fmap_reverse, elem_of_reverse.
    + rewrite decide_False; [done|]. by rewrite fmap_reverse, elem_of_reverse.
Qed.

(** X3.  On a plain [dict] of the caller that lacks the string form of a key
    to plot, [plot_statistic] raises [KeyError] for the first such key in
    plotting order.  By then the title and the axis label are set; no bar is
    drawn and the store is as it was. *)
Theorem plot_statistic_plain_dict w (c : loc) (t : Dict.t) fun_ docset x ax x_label
    vertical title :
  heap w !! c = Some (ODict false t) ->
  (exists a, a ∈ plotted_keys x vertical t /\ Dict.get t (VStr (str a)) = None) ->
  exists pre a post w',
    plotted_keys x vertical t = pre ++ a :: post /\
    (forall a', a' ∈ pre -> is_Some (Dict.get t (VStr (str a')))) /\
    Dict.get t (VStr (str a)) = None /\
    plot_statistic fun_ docset x ax x_label (Some c) vertical title w =
      (Raise (KeyError (str a)), w') /\
    heap w' = heap w /\
    log w' =
      log w ++
      match title with
      | Some t0 => [Draw (current_axes w) (set_title t0)]
      | None => []
      end ++
      [Draw (default (current_axes w) ax)
         ((if vertical then set_ylabel else set_xlabel) x_label)].
Proof.
  intros H Hmiss.
  destruct (first_missing _ _ Hmiss) as (pre & a & post & Hkeys & Hpre & Ha).
  exists pre, a, post. eexists. split; [done|]. split; [done|]. split; [done|].
  rewrite (plot_statistic_steps _ _ _ _ _ _ _ _ _ _ _ H). simpl.
  rewrite Hkeys, (getitems_missing_run pre post a _ c t); done.
Qed.

(** X4.  When the keys of the caller's table are all strings and [x] is not
    a list, [plot_statistic] returns for a [defaultdict] and for a plain
    [dict] alike, every bar is the entry of its own key, and the store is as
    it was. *)
Theorem plot_statistic_given_table w (c : loc) (b : bool) (t : Dict.t) fun_ docset x ax
    x_label vertical title :
  heap w !! c = Some (ODict b t) ->
  (forall l, x <> XList l) ->
  (forall k, k ∈ Dict.keys t -> exists s, k = VStr s) ->
  exists w',
    plot_statistic fun_ docset x ax x_label (Some c) vertical title w = (Return tt, w') /\
    heap w' = heap w /\
    (forall a, a ∈ plotted_keys x vertical t -> is_Some (Dict.get t a)) /\
    last (log w') =
      Some (Draw (default (current_axes w) ax)
              ((if vertical then bar else barh)
                 (plotted_keys x vertical t)
                 (map (fun a => default 0 (Dict.get t a)) (plotted_keys x vertical t))
                 (tick_labels (plotted_keys x vertical t)))).
Proof.
  intros H Hx Hstr.
  assert (Hkeys : forall a, a ∈ plotted_keys x vertical t -> a ∈ Dict.keys t).
  { intros a Ha. rewrite plotted_keys_Permutation in Ha.
    destruct x as [|k|l]; simpl in Ha; [done|by eapply top_k_elem_of|by destruct (Hx l)]. }
  assert (Hself : forall a, a ∈ plotted_keys x vertical t -> VStr (str a) = a).
  { intros a Ha. by destruct (Hstr a (Hkeys a Ha)) as [s ->]. }
  eexists. rewrite (plot_statistic_steps _ _ _ _ _ _ _ _ _ _ _ H). simpl.
  erewrite getitems_present_run; [|exact H|].
  2:{ intros a Ha. rewrite (Hself a Ha). by apply get_is_Some, Hkeys. }
  split; [done|]. split; [done|]. split.
  - intros a Ha. by apply get_is_Some, Hkeys.
  - simpl. rewrite last_snoc. do 3 f_equal.
    apply map_ext_in. intros a Ha%list_elem_of_In. unfold tally. by rewrite (Hself a Ha).
Qed.
End given_table.

Lemma plot_statistic_listed_witness :
  exists w' count' new,
    plot_statistic None None (XList [VStr "b"; VStr "z"]) None "" (Some 0%nat) false None
      (start (R := Z) [ODict true sample_count]) = (Return tt, w') /\
    last (log w') =
      Some (Draw 0%nat
              (barh (reverse [VStr "b"; VStr "z"])
                 (map (fun a => default 0 (Dict.get sample_count (VStr (str a))))
                      (reverse [VStr "b"; VStr "z"]))
                 (tick_labels (reverse [VStr "b"; VStr "z"])))) /\
    heap w' = <[0%nat := ODict true count']> [ODict true sample_count] /\
    count' = sample_count ++ new /\ Forall (fun kv => kv.2 = 0) new /\
    (forall k,
       Dict.get count' k =
       match Dict.get sample_count k with
       | Some v => Some v
       | None =>
           if decide (k ∈ (fun a => VStr (str a)) <$> [VStr "b"; VStr "z"])
           then Some 0 else None
       end).
Proof.
  apply (plot_statistic_listed (start [ODict true sample_count]) 0%nat sample_count
           [VStr "b"; VStr "z"] None None None "" false None).
  - reflexivity.
  - left. repeat constructor; by eexists.
Defined.

Lemma plot_statistic_plain_dict_witness :
  exists pre a post w',
    plotted_keys (XList [VStr "a"; VStr "z"]) true sample_count = pre ++ a :: post /\
    (forall a', a' ∈ pre -> is_Some (Dict.get sample_count (VStr (str a')))) /\
    Dict.get sample_count (VStr (str a)) = None /\
    plot_statistic None None (XList [VStr "a"; VStr "z"]) (Some 4%nat) "n" (Some 0%nat)
      true (Some "T") (start (R := Z) [ODict false sample_count]) =
      (Raise (KeyError (str a)), w') /\
    heap w' = [ODict false sample_count] /\
    log w' = [] ++ [Draw 0%nat (set_title "T")] ++ [Draw 4%nat (set_ylabel "n")].
Proof.
  apply (plot_statistic_plain_dict (start [ODict false sample_count]) 0%nat sample_count
           None None (XList [VStr "a"; VStr "z"]) (Some 4%nat) "n" true (Some "T")).
  - reflexivity.
  - exists (VStr "z"). split; [|reflexivity].
    apply list_elem_of_further, list_elem_of_here.
Defined.

Lemma plot_statistic_given_table_witness :
  exists w',
    plot_statistic None None (XInt 2) None "" (Some 0%nat) false None
      (start (R := Z) [ODict false sample_count]) = (Return tt, w') /\
    heap w' = [ODict false sample_count] /\
    (forall a, a ∈ plotted_keys (XInt 2) false sample_count ->
               is_Some (Dict.get sample_count a)) /\
    last (log w') =
      Some (Draw 0%nat
              (barh (plotted_keys (XInt 2) false sample_count)
                 (map (fun a => default 0 (Dict.get sample_count a))
                      (plotted_keys (XInt 2) false sample_count))
                 (tick_labels (plotted_keys (XInt 2) false sample_count)))).
Proof.
  apply (plot_statistic_given_table (start [ODict false sample_count]) 0%nat false
           sample_count None None (XInt 2) None "" false None).
  - reflexivity.
  - intros l. discriminate.
  - intros k Hk. repeat (apply elem_of_cons in Hk as [->|Hk]; [by eexists|]).
    by apply elem_of_nil in Hk.
Defined.

(** ** What the bars of the histograms stand for *)

Lemma truthy_VStr (s : string) : truthy (VStr s) = true <-> s <> "".
Proof. simpl. by rewrite negb_true_iff, String.eqb_neq. Qed.

Lemma documents_with_iff (P Q : Document -> Prop) `{forall d, Decision (P d)}
    `{forall d, Decision (Q d)} (ds : list Document) :
  (forall d, P d <-> Q d) -> documents_with P ds = documents_with Q ds.
Proof. intros HPQ. unfold documents_with. by rewrite (list_filter_iff P Q). Qed.

Lemma documents_with_none (P : Document -> Prop) `{forall d, Decision (P d)}
    (ds : list Document) :
  (forall d, ~ P d) -> documents_with P ds = 0.
Proof.
  intros HP. unfold documents_with. rewrite filter_length_none; [done|].
  intros d _. apply HP.
Qed.

(** A selector that yields a key of string form [s] at most once per
    document makes the tally under [s] a number of documents. *)
Lemma tally_documents (f : selector) (s : string) (P : Document -> Prop)
    `{forall d, Decision (P d)} (ds : list Document) :
  (forall d, occurrences f s d = if decide (P d) then 1%nat else 0%nat) ->
  tally (count_docs f ds) s = documents_with P ds.
Proof.
  intros Hocc. rewrite tally_count_docs. unfold documents_with. f_equal.
  induction ds as [|d ds IH]; simpl; [done|].
  rewrite Hocc, filter_cons, IH. by case_decide.
Qed.

(** The bars [plot_statistic] draws from the table it builds, when the tally
    under a string is [h]. *)
Lemma histogram_run {R} (w : world R) (f : selector) (h : string -> Z) docset ds x ax
    x_label vertical title :
  heap w !! docset = Some (ODocSet ds) ->
  (forall s, tally (count_docs f (docs ds)) s = h s) ->
  exists w',
    plot_statistic (Some f) (Some docset) x ax x_label None vertical title w =
      (Return tt, w') /\
    last (log w') =
      Some (Draw (default (current_axes w) ax)
              ((if vertical then bar else barh)
                 (plotted_keys x vertical (count_docs f (docs ds)))
                 (map (fun a => h (str a)) (plotted_keys x vertical (count_docs f (docs ds))))
                 (tick_labels (plotted_keys x vertical (count_docs f (docs ds)))))).
Proof.
  intros H Hh. eexists. split; [by apply plot_statistic_build_run|].
  simpl. unfold statistic_events.
  rewrite (map_ext _ (fun a => h (str a))) by (intros a; apply Hh).
  destruct vertical, title; simpl; by rewrite last_app_cons.
Qed.

(** *** Attributes: source, source type, language *)

Lemma occurrences_attribute (g : Document -> option string) (s : string) (d : Document) :
  occurrences (fun p => [attr (g p)]) s d =
  if decide (s <> "" /\ g d = Some s) then 1%nat else 0%nat.
Proof.
  unfold occurrences. rewrite filter_cons.
  destruct (g d) as [s'|]; simpl.
  - destruct (decide (s <> "" /\ Some s' = Some s)) as [[Hs [= ->]]|Hn].
    + rewrite decide_True; [done|]. split; [|done]. by apply (truthy_VStr s).
    + rewrite decide_False; [done|]. intros [Ht ->]. apply Hn.
      split; [|done]. by apply truthy_VStr.
  - rewrite decide_False; [done|]. by intros [_ ?].
Qed.

Lemma tally_attribute (g : Document -> option string) (ds : list Document) (s : string) :
  tally (count_docs (fun p => [attr (g p)]) ds) s = documents_where g s ds.
Proof.
  rewrite (tally_documents _ _ (fun d => s <> "" /\ g d = Some s))
    by apply occurrences_attribute.
  unfold documents_where. destruct (decide (s = "")) as [->|Hs].
  - apply documents_with_none. by intros d [? _].
  - apply documents_with_iff. intros d. by split; [intros [_ ?]|].
Qed.

Lemma keys_attribute (g : Document -> option string) (ds : list Document) (k : value) :
  k ∈ Dict.keys (count_docs (fun p => [attr (g p)]) ds) <->
  exists s d, k = VStr s /\ s <> "" /\ d ∈ ds /\ g d = Some s.
Proof.
  rewrite elem_of_keys_count_docs. split.
  - intros (d & key & Hd & ->%list_elem_of_singleton & Ht & ->).
    destruct (g d) as [s|] eqn:E; [|done].
    exists s, d. split; [done|]. split; [by apply truthy_VStr|done].
  - intros (s & d & -> & Hs & Hd & Hg).
    exists d, (VStr s). rewrite Hg. split; [done|].
    split; [by apply list_elem_of_singleton|]. split; [by apply truthy_VStr|done].
Qed.

Section attribute_histogram.
Context {R : Type} (g : Document -> option string).

(** The histogram of an attribute over all of the table. *)
Lemma attribute_histogram_run (w : world R) docset ds ax title :
  heap w !! docset = Some (ODocSet ds) ->
  exists w',
    plot_statistic (Some (fun p => [attr (g p)])) (Some docset) XOther ax
      "No. publications" None false (Some title) w = (Return tt, w') /\
    heap w' = heap w ++ [ODict true (count_docs (fun p => [attr (g p)]) (docs ds))] /\
    last (log w') =
      Some (Draw (default (current_axes w) ax)
              (barh (reverse (Dict.keys (count_docs (fun p => [attr (g p)]) (docs ds))))
                 (map (fun a => documents_where g (str a) (docs ds))
                    (reverse (Dict.keys (count_docs (fun p => [attr (g p)]) (docs ds)))))
                 (tick_labels
                    (reverse (Dict.keys (count_docs (fun p => [attr (g p)]) (docs ds))))))).
Proof.
  intros H.
  destruct (histogram_run w (fun p => [attr (g p)])
              (fun s => documents_where g s (docs ds)) docset ds XOther ax
              "No. publications" false (Some title) H) as (w' & Hrun & Hlast).
  { intros s. apply tally_attribute. }
  exists w'. split; [done|]. split; [|done].
  rewrite plot_statistic_build_run with (ds := ds) in Hrun by done.
  rewrite touch_all_count_docs in Hrun by (intros l; discriminate).
  by injection Hrun as <-.
Qed.
End attribute_histogram.

(** X5.  [plot_language_histogram] and [plot_source_type_histogram] return
    on every document set.  They draw one horizontal bar for every distinct
    non-empty value of the attribute, and the length of a bar is the number
    of documents with that value; a document whose attribute is [None] or
    the empty string is in no bar.  The table of the counts is left in a new
    cell of the store. *)
Theorem attribute_histograms {R} (w : world R) (docset : loc) (ds : DocumentSet)
    (ax : option axes) (g : Document -> option string)
    (plot : loc -> option axes -> Py R unit) :
  heap w !! docset = Some (ODocSet ds) ->
  (g = language /\ plot = plot_language_histogram) \/
  (g = source_type /\ plot = plot_source_type_histogram) ->
  exists w' count,
    plot docset ax w = (Return tt, w') /\
    heap w' = heap w ++ [ODict true count] /\
    last (log w') =
      Some (Draw (default (current_axes w) ax)
              (barh (reverse (Dict.keys count))
                 (map (fun a => documents_with (fun d => g d = Some (str a)) (docs ds))
                      (reverse (Dict.keys count)))
                 (tick_labels (reverse (Dict.keys count))))) /\
    NoDup (Dict.keys count) /\
    (forall k, k ∈ Dict.keys count <->
               exists s d, k = VStr s /\ s <> "" /\ d ∈ docs ds /\ g d = Some s).
Proof.
  intros H Hplot.
  exists ((plot docset ax w).2), (count_docs (fun p => [attr (g p)]) (docs ds)).
  assert (Hrun : exists title,
             plot docset ax =
             plot_statistic (Some (fun p => [attr (g p)])) (Some docset) XOther ax
               "No. publications" None false (Some title)).
  { destruct Hplot as [[-> ->]|[-> ->]]; by eexists. }
  destruct Hrun as [title ->].
  destruct (attribute_histogram_run g w docset ds ax title H) as (w' & -> & Hheap & Hlast).
  split; [done|]. split; [done|]. split; [|split].
  - simpl. rewrite Hlast. do 3 f_equal. apply map_ext_in.
    intros a Ha%list_elem_of_In. rewrite elem_of_reverse in Ha.
    apply keys_attribute in Ha as (s & d & -> & Hs & _).
    unfold documents_where. simpl. by rewrite decide_False.
  - apply NoDup_keys_count_docs.
  - apply keys_attribute.
Qed.

Lemma attribute_histograms_witness :
  exists w' count,
    plot_language_histogram 0%nat (Some 5%nat) (start (R := Z) [ODocSet corpus]) =
      (Return tt, w') /\
    heap w' = [ODocSet corpus] ++ [ODict true count] /\
    last (log w') =
      Some (Draw 5%nat
              (barh (reverse (Dict.keys count))
                 (map (fun a => documents_with (fun d => language d = Some (str a))
                                  (docs corpus))
                      (reverse (Dict.keys count)))
                 (tick_labels (reverse (Dict.keys count))))) /\
    NoDup (Dict.keys count) /\
    (forall k, k ∈ Dict.keys count <->
               exists s d, k = VStr s /\ s <> "" /\ d ∈ docs corpus /\ language d = Some s).
Proof.
  apply (attribute_histograms (start [ODocSet corpus]) 0%nat corpus (Some 5%nat) language
           plot_language_histogram).
  - reflexivity.
  - left. split; reflexivity.
Defined.

(** *** The keys a histogram selects *)


Section selected.
Context {R : Type} (f : selector) (h : string -> Z) (member : string -> Prop).

End selected.





(** *** Sets of names: authors, authors with affiliations *)


Section names.
Context (f : selector) (names : Document -> gset string).
Context (Hf : forall d, f d = VStr <$> elements (names d)).



End names.

Lemma elem_of_author_names (d : Document) (s : string) :
  s ∈ author_names d <-> exists l a, authors d = Some l /\ a ∈ l /\ Author.name a = s.
Proof.
  unfold author_names. rewrite elem_of_list_to_set, list_elem_of_fmap.
  destruct (authors d) as [l|]; simpl.
  - split; [intros (a & -> & Ha); by exists l, a|].
    intros (l' & a & [= <-] & Ha & <-). by exists a.
  - split; [by intros (a & _ & ?%elem_of_nil)|by intros (l & a & ? & _)].
Qed.







(** *** The number of authors *)

Lemma occurrences_number (g : Document -> Z) (m : Z) (d : Document) :
  occurrences (fun p => [VInt (g p)]) (pretty m) d =
  if decide (m <> 0 /\ g d = m) then 1%nat else 0%nat.
Proof.
  unfold occurrences. rewrite filter_cons. simpl.
  destruct (decide (m <> 0 /\ g d = m)) as [[Hm <-]|Hn].
  - rewrite decide_True; [done|]. split; [|done]. by apply negb_true_iff, Z.eqb_neq.
  - rewrite decide_False; [done|]. intros [Ht Hp]. apply (inj pretty) in Hp.
    apply Hn. split; [|done]. subst m. by apply negb_true_iff, Z.eqb_neq in Ht.
Qed.

(** X9.  [plot_number_authors_histogram] returns on every document set and
    draws 25 vertical bars, for 1 to 25 authors; the height of the bar for
    [n] is the number of documents with exactly [n] distinct author names.
    Documents without authors, and documents with more than 25, are in no
    bar. *)
Theorem plot_number_authors_histogram_counts {R} (w : world R) (docset : loc)
    (ds : DocumentSet) (ax : option axes) :
  heap w !! docset = Some (ODocSet ds) ->
  exists w',
    plot_number_authors_histogram docset ax w = (Return tt, w') /\
    last (log w') =
      Some (Draw (default (current_axes w) ax)
              (bar (VInt <$> range 1 26)
                 ((fun n => documents_with
                              (fun d => Z.of_nat (size (author_names d)) = n) (docs ds))
                    <$> range 1 26)
                 (tick_labels (VInt <$> range 1 26)))) /\
    length (range 1 26) = 25%nat /\
    (forall n, n ∈ range 1 26 <-> 1 <= n <= 25) /\
    (forall d s, s ∈ author_names d <->
                 exists l a, authors d = Some l /\ a ∈ l /\ Author.name a = s).
Proof.
  intros H. unfold plot_number_authors_histogram.
  set (f := fun p => [VInt (Z.of_nat (size (author_names p)))]).
  destruct (histogram_run w f (tally (count_docs f (docs ds))) docset ds
              (XList (VInt <$> range 1 26)) ax "No. publications" true
              (Some "Histogram for number of authors") H) as (w' & Hrun & Hlast); [done|].
  exists w'. split; [done|]. split; [|split; [done|split]].
  - rewrite Hlast. unfold plotted_keys, selected_keys. do 3 f_equal.
    rewrite <- list_fmap_compose. apply list_fmap_ext. intros _ n Hn%list_elem_of_lookup_2.
    apply elem_of_range in Hn. simpl.
    rewrite (tally_documents f (pretty n)
               (fun d => n <> 0 /\ Z.of_nat (size (author_names d)) = n))
      by (intros d; apply (occurrences_number (fun p => Z.of_nat (size (author_names p))))).
    apply documents_with_iff. intros d. split; [by intros [_ ?]|]. intros ?. split; [lia|done].
  - intros n. rewrite elem_of_range. lia.
  - apply elem_of_author_names.
Qed.

Lemma plot_number_authors_histogram_counts_witness :
  exists w',
    plot_number_authors_histogram 0%nat None (start (R := Z) [ODocSet corpus]) =
      (Return tt, w') /\
    last (log w') =
      Some (Draw 0%nat
              (bar (VInt <$> range 1 26)
                 ((fun n => documents_with
                              (fun d => Z.of_nat (size (author_names d)) = n) (docs corpus))
                    <$> range 1 26)
                 (tick_labels (VInt <$> range 1 26)))) /\
    length (range 1 26) = 25%nat /\
    (forall n, n ∈ range 1 26 <-> 1 <= n <= 25) /\
    (forall d s, s ∈ author_names d <->
                 exists l a, authors d = Some l /\ a ∈ l /\ Author.name a = s).
Proof.
  apply (plot_number_authors_histogram_counts (start [ODocSet corpus]) 0%nat corpus None).
  reflexivity.
Defined.

(** ** The word and bigram histograms *)





Lemma first_unknown (dic : gmap nat string) (all_freqs : list (nat * Z)) :
  (exists wf, wf ∈ all_freqs /\ dic !! wf.1 = None) ->
  exists pre wf post,
    all_freqs = pre ++ wf :: post /\
    (forall wf', wf' ∈ pre -> is_Some (dic !! wf'.1)) /\
    dic !! wf.1 = None.
Proof.
  induction all_freqs as [|wf0 l IH]; intros (wf & Hin & Hwf).
  - by apply elem_of_nil in Hin.
  - destruct (dic !! wf0.1) as [token|] eqn:E.
    + apply elem_of_cons in Hin as [->|Hin]; [congruence|].
      destruct IH as (pre & wf1 & post & -> & Hpre & Hwf1); [by exists wf|].
      exists (wf0 :: pre), wf1, post. split; [done|]. split; [|done].
      intros wf' [->|Hwf']%elem_of_cons; [by rewrite E|by apply Hpre].
    + exists [], wf0, l. split; [done|]. split; [|done].
      intros wf' Hwf'. by apply elem_of_nil in Hwf'.
Qed.

Section frequency.
Context {R : Type}.
Implicit Types (w : world R).

Lemma load_freqs_run w l f : heap w !! l = Some (OFreqs f) -> load_freqs l w = (Return f, w).
Proof. intros H. unfold load_freqs. by rewrite (bind_Return _ _ _ _ _ (load_run _ _ _ H)). Qed.

Lemma load_dictionary_run w l d :
  heap w !! l = Some (ODictionary d) -> load_dictionary l w = (Return d, w).
Proof.
  intros H. unfold load_dictionary. by rewrite (bind_Return _ _ _ _ _ (load_run _ _ _ H)).
Qed.

Lemma count_word_run (d : gmap nat string) (wf : nat * Z) w c dic t :
  heap w !! c = Some (ODict true t) ->
  heap w !! dic = Some (ODictionary d) ->
  count_word c dic wf w =
  match d !! wf.1 with
  | Some token =>
      (Return tt, with_heap (<[c := ODict true (Dict.iadd t (VStr token) wf.2)]> (heap w)) w)
  | None => (Raise (KeyError (pretty wf.1)), w)
  end.
Proof.
  intros Hc Hdic. unfold count_word.
  erewrite bind_Return; [|by apply load_dictionary_run].
  destruct (d !! wf.1) as [token|]; simpl; [|done].
  erewrite bind_Return; [|done]. by apply dict_iadd_run.
Qed.

(** The loop up to its end, or to the first pair whose token id the
    dictionary lacks. *)
Lemma count_words_run (d : gmap nat string) (pre : list (nat * Z)) w c dic t :
  heap w !! c = Some (ODict true t) ->
  heap w !! dic = Some (ODictionary d) ->
  (forall wf, wf ∈ pre -> is_Some (d !! wf.1)) ->
  for_ pre (count_word c dic) w =
    (Return tt, with_heap (<[c := ODict true (count_words d t pre)]> (heap w)) w) /\
  (forall wf post, d !! wf.1 = None ->
     for_ (pre ++ wf :: post) (count_word c dic) w =
     (Raise (KeyError (pretty wf.1)),
      with_heap (<[c := ODict true (count_words d t pre)]> (heap w)) w)).
Proof.
  revert w t. induction pre as [|wf0 pre IH]; intros w t Hc Hdic Hpre.
  - split.
    + simpl. unfold ret. by rewrite list_insert_id, with_heap_id.
    + intros wf post Hwf. simpl. unfold bind.
      rewrite (count_word_run d wf w c dic t Hc Hdic), Hwf.
      by rewrite list_insert_id, with_heap_id.
  - assert (Hne : c <> dic) by (intros ->; congruence).
    assert (Hlt : (c < length (heap w))%nat) by (eapply lookup_lt_Some; eassumption).
    destruct (Hpre wf0) as [token Htoken]; [apply list_elem_of_here|].
    pose proof (count_word_run d wf0 w c dic t Hc Hdic) as Hstep. rewrite Htoken in Hstep.
    change (count_words d t (wf0 :: pre))
      with (count_words d (match d !! wf0.1 with
                           | Some token => Dict.iadd t (VStr token) wf0.2
                           | None => t
                           end) pre).
    rewrite Htoken.
    destruct (IH (with_heap (<[c := ODict true (Dict.iadd t (VStr token) wf0.2)]> (heap w)) w)
                (Dict.iadd t (VStr token) wf0.2)) as [IH1 IH2].
    { simpl. by rewrite list_lookup_insert_eq. }
    { simpl. by rewrite list_lookup_insert_ne. }
    { intros wf Hwf. by apply Hpre, list_elem_of_further. }
    split.
    + simpl. erewrite bind_Return; [|exact Hstep]. rewrite IH1. simpl.
      by rewrite list_insert_insert_eq.
    + intros wf post Hwf. simpl. erewrite bind_Return; [|exact Hstep].
      rewrite (IH2 wf post Hwf). simpl. by rewrite list_insert_insert_eq.
Qed.

Lemma plot_frequency_histogram_unfold x_label freqs dic top_k ax :
  plot_frequency_histogram (R := R) x_label freqs dic top_k ax =
  (f <- load_freqs freqs ;;
   count <- alloc (ODict true []) ;;
   for_ (concat f) (count_word count dic) ;;
   plot_statistic None None top_k ax x_label (Some count) false None).
Proof. done. Qed.
End frequency.




(** X11.  When the dictionary lacks the token id of some pair of the
    frequencies, [plot_words_histogram] and [plot_bigram_histogram] raise
    [KeyError] for the first such pair.  Nothing has been drawn by then; the
    store has gained the table of the pairs before that one. *)
Theorem frequency_histograms_unknown_token {R} (w : world R) (freqs dic : loc) (f : Freqs)
    (d : gmap nat string) (top_k : xarg) (ax : option axes)
    (plot : loc -> loc -> xarg -> option axes -> Py R unit) :
  heap w !! freqs = Some (OFreqs f) ->
  heap w !! dic = Some (ODictionary d) ->
  (exists wf, wf ∈ concat f /\ d !! wf.1 = None) ->
  plot = plot_words_histogram \/ plot = plot_bigram_histogram ->
  exists pre wf post w',
    concat f = pre ++ wf :: post /\
    (forall wf', wf' ∈ pre -> is_Some (d !! wf'.1)) /\
    d !! wf.1 = None /\
    plot freqs dic top_k ax w = (Raise (KeyError (pretty wf.1)), w') /\
    log w' = log w /\
    heap w' = heap w ++ [ODict true (count_words d [] pre)].
Proof.
  intros Hf Hd Hunknown Hplot.
  destruct (first_unknown _ _ Hunknown) as (pre & wf & post & Hsplit & Hpre & Hwf).
  exists pre, wf, post. eexists. split; [done|]. split; [done|]. split; [done|].
  assert (Hsame : exists x_label, plot = plot_frequency_histogram x_label)
    by (destruct Hplot as [->| ->]; by eexists).
  destruct Hsame as [x_label ->].
  rewrite plot_frequency_histogram_unfold.
  erewrite bind_Return; [|by apply load_freqs_run].
  erewrite bind_Return; [|apply alloc_run].
  destruct (count_words_run d pre
              (with_heap (heap w ++ [ODict true []]) w) (length (heap w)) dic [])
    as [_ Hloop].
  { simpl. by rewrite list_lookup_middle. }
  { simpl. by apply lookup_app_l_Some. }
  { done. }
  unfold bind at 1. rewrite Hsplit, (Hloop wf post Hwf). simpl.
  split; [done|]. split; [done|].
  by rewrite insert_app_r_alt, Nat.sub_diag by done.
Qed.

Lemma frequency_histograms_unknown_token_witness :
  exists pre wf post w',
    concat [[(0%nat, 2); (7%nat, 1)]; [(0%nat, 3)]] = pre ++ wf :: post /\
    (forall wf', wf' ∈ pre ->
                 is_Some (({[ 0%nat := "data" ]} : gmap nat string) !! wf'.1)) /\
    ({[ 0%nat := "data" ]} : gmap nat string) !! wf.1 = None /\
    plot_bigram_histogram 1%nat 0%nat (XInt 25) None
      (start (R := Z) [ODictionary {[ 0%nat := "data" ]};
                       OFreqs [[(0%nat, 2); (7%nat, 1)]; [(0%nat, 3)]]]) =
      (Raise (KeyError (pretty wf.1)), w') /\
    log w' = [] /\
    heap w' =
      [ODictionary {[ 0%nat := "data" ]}; OFreqs [[(0%nat, 2); (7%nat, 1)]; [(0%nat, 3)]]] ++
      [ODict true (count_words {[ 0%nat := "data" ]} [] pre)].
Proof.
  apply (frequency_histograms_unknown_token
           (start [ODictionary {[ 0%nat := "data" ]};
                   OFreqs [[(0%nat, 2); (7%nat, 1)]; [(0%nat, 3)]]])
           1%nat 0%nat [[(0%nat, 2); (7%nat, 1)]; [(0%nat, 3)]]
           {[ 0%nat := "data" ]} (XInt 25) None plot_bigram_histogram).
  - reflexivity.
  - reflexivity.
  - exists (7%nat, 1). split; [|reflexivity].
    apply list_elem_of_further, list_elem_of_here.
  - by right.
Defined.

(** ** Word clouds *)

Section clouds.
Context {R : Type} `{Scalar R} `{Libraries R}.
Implicit Types (w : world R) (mapping : list (string * R)) (row : list R).

Lemma load_model_run w l m : heap w !! l = Some (OModel m) -> load_model l w = (Return m, w).
Proof. intros Hl. unfold load_model. by rewrite (bind_Return _ _ _ _ _ (load_run _ _ _ Hl)). Qed.

Lemma fst_mapping_set mapping k v :
  (mapping_set mapping k v).*1 =
  if decide (k ∈ mapping.*1) then mapping.*1 else mapping.*1 ++ [k].
Proof.
  induction mapping as [|[k0 v0] mapping IH].
  - by rewrite decide_False by apply not_elem_of_nil.
  - cbn [mapping_set]. rewrite (fmap_cons fst (k0, v0)). cbn [fst].
    destruct (decide (k0 = k)) as [->|Hne].
    + rewrite decide_True by apply list_elem_of_here. by rewrite fmap_cons.
    + rewrite fmap_cons, IH. cbn [fst].
      destruct (decide (k ∈ mapping.*1)) as [Hin|Hin].
      * by rewrite decide_True by (by apply list_elem_of_further).
      * rewrite decide_False; [done|].
        intros [->|?]%elem_of_cons; [by apply Hne|by apply Hin].
Qed.

Lemma NoDup_mapping_set mapping k v :
  NoDup mapping.*1 -> NoDup (mapping_set mapping k v).*1.
Proof.
  intros Hnd. rewrite fst_mapping_set. case_decide; [done|].
  apply NoDup_app. split; [done|]. split; [|apply NoDup_singleton].
  by intros k' Hk' ->%list_elem_of_singleton.
Qed.

Lemma length_mapping_set mapping k v :
  (length (mapping_set mapping k v) <= S (length mapping))%nat.
Proof.
  rewrite <- (length_fmap fst (mapping_set _ _ _)), fst_mapping_set.
  case_decide; rewrite ?length_app, length_fmap; simpl; lia.
Qed.

(** The loop of lines 295-297 neither reads nor writes the world. *)
Lemma cloud_step_const (dictionary : gmap nat string) row maximum mapping i :
  exists o,
    (forall w, cloud_step dictionary row maximum mapping i w = (o, w)) /\
    (forall mapping', o = Return mapping' ->
       mapping' = mapping \/
       exists x token, row !! i = Some x /\ ltb (of_Z 0) x = true /\
                       mapping' = mapping_set mapping token (div x maximum)) /\
    (forall x, row !! i = Some x -> ltb (of_Z 0) x = false -> o = Return mapping).
Proof.
  unfold cloud_step, bind, of_option, ret, raise.
  destruct (row !! i) as [x|]; [|by eexists; split; [done|]].
  destruct (ltb (of_Z 0) x) eqn:Hx.
  - destruct (dictionary !! i) as [token|]; (eexists; split; [done|]).
    + split; [|by intros x' [= <-]; congruence].
      intros mapping' [= <-]. right. by exists x, token.
    + split; [done|]. intros x' [= <-]; congruence.
  - eexists. split; [done|]. split; [|done]. intros mapping' [= <-]. by left.
Qed.

Lemma cloud_loop_const (dictionary : gmap nat string) row maximum idx mapping :
  exists o,
    (forall w, cloud_loop dictionary row maximum mapping idx w = (o, w)) /\
    (forall mapping', o = Return mapping' ->
       (NoDup mapping.*1 -> NoDup mapping'.*1) /\
       (length mapping' <= length mapping + length idx)%nat /\
       (mapping <> [] -> mapping' <> [])) /\
    (Forall (fun i => is_Some (row !! i)) idx ->
     (forall i x, i ∈ idx -> row !! i = Some x -> ltb (of_Z 0) x = false) ->
     o = Return mapping).
Proof.
  revert mapping. induction idx as [|i idx IH]; intros mapping; simpl.
  - exists (Return mapping). split; [done|]. split; [|done]. intros mapping' [= <-].
    split; [done|]. split; [lia|done].
  - destruct (cloud_step_const dictionary row maximum mapping i)
      as ([m1|e] & Hstep & Hm1 & Hzero1).
    + destruct (IH m1) as (o & Hloop & Ho & Hzero). exists o. split; [|split].
      * intros w. unfold bind. rewrite Hstep. apply Hloop.
      * intros mapping' ->. destruct (Ho mapping' eq_refl) as (Hnd & Hlen & Hne).
        destruct (Hm1 m1 eq_refl) as [->|(x & token & Hx & Hpos & ->)].
        -- split; [done|]. split; [lia|done].
        -- split; [intros ?; by apply Hnd, NoDup_mapping_set|].
           split; [pose proof (length_mapping_set mapping token (div x maximum)); lia|].
           intros _. apply Hne. by destruct mapping as [|[k0 v0] mapping]; simpl;
             [|case_decide].
      * intros Hvalid Hall.
        destruct (Forall_cons_1 _ _ _ Hvalid) as [[x Hx] Hvalid'].
        assert (Hm : Return m1 = Return mapping).
        { apply (Hzero1 x Hx). apply (Hall i x); [apply list_elem_of_here|done]. }
        injection Hm as ->. apply Hzero; [done|].
        intros j y Hj. apply Hall. by apply list_elem_of_further.
    + exists (Raise e). split; [|split; [done|]].
      * intros w. unfold bind. by rewrite Hstep.
      * intros Hvalid Hall.
        destruct (Forall_cons_1 _ _ _ Hvalid) as [[x Hx] _].
        apply (Hzero1 x Hx). apply (Hall i x); [apply list_elem_of_here|done].
Qed.

(** [generate_topic_cloud] reads the model and nothing else. *)
Lemma generate_topic_cloud_const (model : loc) (m : TopicModel R) (topicid : nat)
    (kwargs : cloud_kwargs R) :
  exists o,
    (forall w, heap w !! model = Some (OModel m) ->
               generate_topic_cloud model topicid kwargs w = (o, w)) /\
    (topic2token m !! topicid = None -> o = Raise (IndexError "index out of bounds")) /\
    (topic2token m !! topicid = Some [] ->
       o = Raise (ValueError "zero-size array to reduction operation maximum")) /\
    (forall row,
       topic2token m !! topicid = Some row -> row <> [] ->
       Forall (fun i => is_Some (row !! i)) (slice_last 100 (argsort row)) ->
       (forall x, x ∈ row -> ltb (of_Z 0) x = false) ->
       o = Raise (ValueError "We need at least 1 word to plot a word cloud, got 0.")) /\
    (forall wc, o = Return wc ->
       exists row,
         topic2token m !! topicid = Some row /\
         fit_words wc <> [] /\
         NoDup (fit_words wc).*1 /\
         (length (fit_words wc) <= 100)%nat /\
         prefer_horizontal wc = true /\
         max_font_size wc = kw_max_font_size kwargs /\
         background_color wc = kw_background_color kwargs /\
         scale wc = 2).
Proof.
  destruct (topic2token m !! topicid) as [row|] eqn:Erow.
  2:{ exists (Raise (IndexError "index out of bounds")). split; [|done].
      intros w Hw. unfold generate_topic_cloud.
      erewrite bind_Return; [|by apply load_model_run]. by rewrite Erow. }
  destruct (amax row) as [maximum|] eqn:Emax.
  2:{ exists (Raise (ValueError "zero-size array to reduction operation maximum")).
      split; [|split; [done|split; [done|split; [|done]]]].
      - intros w Hw. unfold generate_topic_cloud.
        erewrite bind_Return; [|by apply load_model_run]. rewrite Erow. simpl.
        erewrite bind_Return; [|done]. by rewrite Emax.
      - intros row' [= <-] Hne. by destruct row. }
  destruct (cloud_loop_const (dictionary m) row maximum (slice_last 100 (argsort row)) [])
    as (o & Hloop & Hm & Hzero).
  assert (Hrun : forall w, heap w !! model = Some (OModel m) ->
            generate_topic_cloud model topicid kwargs w =
            match o with
            | Return [] =>
                (Raise (ValueError "We need at least 1 word to plot a word cloud, got 0."), w)
            | Return (kv :: mapping) =>
                (Return {| prefer_horizontal := true;
                           max_font_size := kw_max_font_size kwargs;
                           background_color := kw_background_color kwargs;
                           color_func :=
                             get_color (default (get_cmap "Blues") (kw_cmap kwargs));
                           scale := 2;
                           relative_scaling := lit 1 2;
                           fit_words := kv :: mapping |}, w)
            | Raise e => (Raise e, w)
            end).
  { intros w Hw. unfold generate_topic_cloud.
    erewrite bind_Return; [|by apply load_model_run]. rewrite Erow. simpl.
    erewrite bind_Return; [|done]. rewrite Emax. simpl.
    erewrite bind_Return; [|done]. unfold bind. rewrite Hloop.
    by destruct o as [[|kv mapping]|e]. }
  destruct o as [[|kv mapping]|e].
  - exists (Raise (ValueError "We need at least 1 word to plot a word cloud, got 0.")).
    split; [exact Hrun|]. split; [done|]. split; [|done].
    intros [= ->]. done.
  - eexists. split; [exact Hrun|]. split; [done|]. split; [by intros [= ->]|]. split.
    + intros row' [= <-] Hne Hvalid Hall.
      assert (Hret : Return (kv :: mapping) = Return (@nil (string * R))); [|done].
      apply Hzero; [done|]. intros j x _ Hx. apply Hall. by eapply list_elem_of_lookup_2.
    + intros wc [= <-]. exists row. simpl.
      destruct (Hm (kv :: mapping) eq_refl) as (Hnd & Hlen & _).
      split; [done|]. split; [done|]. split; [apply Hnd; constructor|]. split; [|done].
      unfold slice_last in Hlen. rewrite length_drop in Hlen. simpl in Hlen. lia.
  - exists (Raise e). split; [exact Hrun|]. split; [done|]. split; [by intros [= ->]|].
    split; [|done].
    intros row' [= <-] Hne Hvalid Hall.
    assert (Hret : Raise e = Return (@nil (string * R))); [|done].
    apply Hzero; [done|]. intros j x _ Hx. apply Hall. by eapply list_elem_of_lookup_2.
Qed.

(** X12.  [generate_topic_cloud] leaves the world as it was.  It raises
    [IndexError] for a topic the model does not have, [ValueError] for a
    topic whose row of weights is empty, and [ValueError] again, from
    [fit_words], for a topic none of whose weights is positive.  When it
    returns, the frequencies it has handed to [fit_words] are not empty,
    name no token twice and at most 100 tokens, and the cloud is configured
    with the font size and background colour it was given. *)
Theorem generate_topic_cloud_edges w (model : loc) (m : TopicModel R) (topicid : nat)
    (kwargs : cloud_kwargs R) :
  heap w !! model = Some (OModel m) ->
  (generate_topic_cloud model topicid kwargs w).2 = w /\
  (topic2token m !! topicid = None ->
     (generate_topic_cloud model topicid kwargs w).1 =
     Raise (IndexError "index out of bounds")) /\
  (topic2token m !! topicid = Some [] ->
     (generate_topic_cloud model topicid kwargs w).1 =
     Raise (ValueError "zero-size array to reduction operation maximum")) /\
  (forall row,
     topic2token m !! topicid = Some row -> row <> [] ->
     Forall (fun i => is_Some (row !! i)) (slice_last 100 (argsort row)) ->
     (forall x, x ∈ row -> ltb (of_Z 0) x = false) ->
     (generate_topic_cloud model topicid kwargs w).1 =
     Raise (ValueError "We need at least 1 word to plot a word cloud, got 0.")) /\
  (forall wc, (generate_topic_cloud model topicid kwargs w).1 = Return wc ->
     exists row,
       topic2token m !! topicid = Some row /\
       fit_words wc <> [] /\
       NoDup (fit_words wc).*1 /\
       (length (fit_words wc) <= 100)%nat /\
       prefer_horizontal wc = true /\
       max_font_size wc = kw_max_font_size kwargs /\
       background_color wc = kw_background_color kwargs /\
       scale wc = 2).
Proof.
  intros Hw.
  destruct (generate_topic_cloud_const model m topicid kwargs)
    as (o & Hrun & Hindex & Hvalue & Hwords & Hret).
  rewrite (Hrun w Hw). simpl.
  split; [done|]. split; [done|]. split; [done|]. split; [exact Hwords|exact Hret].
Qed.

Lemma add_subplot_run w (fig : figure) (rows cols index : Z) :
  0 < rows -> 0 < cols -> 1 <= index <= rows * cols ->
  add_subplot fig rows cols index w =
  (Return (next_axes w),
   World (heap w) (current_figure w)
     (if decide (fig = current_figure w) then next_axes w else current_axes w)
     (S (next_axes w)) (rng w) (log w ++ [AddSubplot fig rows cols index (next_axes w)])).
Proof.
  intros Hrows Hcols Hindex. unfold add_subplot.
  rewrite decide_False by lia. rewrite decide_False by lia. by rewrite decide_True by done.
Qed.

(** The loop of lines 259-261 from the topic [start] on, when the grid has a
    cell for every topic and every cloud can be generated. *)
Lemma clouds_loop_run (model : loc) (m : TopicModel R) (kwargs : cloud_kwargs R)
    (fig : figure) (rows cols : Z) (n : nat) :
  forall (start : nat) w,
    heap w !! model = Some (OModel m) ->
    ((0 < n)%nat -> 0 < rows /\ 0 < cols /\ Z.of_nat (start + n) <= rows * cols) ->
    (forall i, (start <= i < start + n)%nat ->
       exists wc, forall w0, heap w0 !! model = Some (OModel m) ->
                             generate_topic_cloud model i kwargs w0 = (Return wc, w0)) ->
    exists w' clouds,
      for_ (seq start n) (fun i =>
        ax <- add_subplot fig rows cols (Z.of_nat i + 1) ;;
        plot_topic_cloud model i (Some ax) kwargs) w = (Return tt, w') /\
      length clouds = n /\
      (forall j wc, clouds !! j = Some wc ->
         forall w0, heap w0 !! model = Some (OModel m) ->
                    generate_topic_cloud model (start + j)%nat kwargs w0 = (Return wc, w0)) /\
      log w' =
        log w ++
        concat (imap (fun j wc =>
                        cloud_events fig rows cols (start + j)%nat (next_axes w + j)%nat wc)
                     clouds) /\
      heap w' = heap w /\
      next_axes w' = (next_axes w + n)%nat /\
      current_figure w' = current_figure w /\
      rng w' = rng w.
Proof.
  induction n as [|n IH]; intros start w Hw Hgrid Hclouds.
  - exists w, []. simpl. rewrite app_nil_r.
    split; [done|]. split; [done|].
    split; [intros j wc Hj; by rewrite lookup_nil in Hj|].
    split; [done|]. split; [done|]. split; [lia|done].
  - destruct (Hclouds start) as [wc Hwc]; [lia|].
    destruct Hgrid as (Hrows & Hcols & Hcells); [lia|].
    set (a := next_axes w).
    set (w1 := World (heap w) (current_figure w)
                 (if decide (fig = current_figure w) then a else current_axes w)
                 (S a) (rng w)
                 (log w ++ cloud_events fig rows cols start a wc)).
    assert (Hbody : (ax <- add_subplot fig rows cols (Z.of_nat start + 1) ;;
                     plot_topic_cloud model start (Some ax) kwargs) w = (Return tt, w1)).
    { erewrite bind_Return; [|apply add_subplot_run; lia]. unfold plot_topic_cloud.
      erewrite bind_Return; [|done]. erewrite bind_Return; [|done].
      erewrite bind_Return; [|done]. erewrite bind_Return; [|by apply Hwc].
      unfold emit, with_log, w1, cloud_events. simpl. by rewrite <- !app_assoc. }
    destruct (IH (S start) w1) as (w' & clouds & Hrun & Hlen & Hgen & Hlog & Hheap & Hnext
                                    & Hfig & Hrng).
    { done. }
    { intros _. split; [done|]. split; [done|]. lia. }
    { intros i Hi. apply Hclouds. lia. }
    exists w', (wc :: clouds).
    split; [|split; [|split; [|split; [|split; [|split; [|split]]]]]].
    + simpl. erewrite bind_Return; [|exact Hbody]. exact Hrun.
    + simpl. by rewrite Hlen.
    + intros [|j] wc' Hj w0 Hw0.
      * injection Hj as <-. rewrite Nat.add_0_r. by apply Hwc.
      * replace (start + S j)%nat with (S start + j)%nat by lia. by eapply Hgen.
    + rewrite Hlog.
      change (log w1) with (log w ++ cloud_events fig rows cols start a wc).
      change (next_axes w1) with (S a).
      rewrite <- app_assoc. f_equal. rewrite imap_cons. cbn [concat].
      rewrite !Nat.add_0_r. fold a. f_equal. f_equal.
      apply imap_ext. intros j wc' _. unfold compose. f_equal; lia.
    + by rewrite Hheap.
    + rewrite Hnext. unfold w1. simpl. lia.
    + by rewrite Hfig.
    + by rewrite Hrng.
Qed.

Lemma ceil_div_bounds (n cols : Z) :
  0 < cols -> n <= ceil_div n cols * cols < n + cols.
Proof.
  intros Hcols. unfold ceil_div.
  pose proof (Z.mul_div_le (- n) cols Hcols).
  pose proof (Z.mul_succ_div_gt (- n) cols Hcols). lia.
Qed.

Lemma ceil_div_negative (n cols : Z) : 0 <= n -> cols < 0 -> ceil_div n cols <= 0.
Proof.
  intros Hn Hcols. unfold ceil_div.
  rewrite <- (Z.opp_involutive cols), Z.div_opp_opp by lia.
  pose proof (Z.div_pos n (- cols)). lia.
Qed.

(** X13.  For a positive [cols], when the cloud of every topic of the model
    can be generated, [plot_topic_clouds] returns: having cleared pyplot's
    current figure if it was given none, it adds one subplot per topic, in
    topic order, at the positions 1, 2, ... of one grid that has a cell for
    every topic and no empty row; on each it removes the ticks and shows the
    cloud of that topic, and it logs nothing else and leaves the store as it
    was.  For a negative [cols] and a model that has topics, the number of
    rows is not positive and the first [add_subplot] raises [ValueError]. *)
Theorem plot_topic_clouds_grid w (model : loc) (m : TopicModel R) (cols : Z)
    (fig : option figure) (kwargs : cloud_kwargs R) :
  heap w !! model = Some (OModel m) ->
  (0 < cols ->
   (forall i, (i < num_topics m)%nat ->
      exists wc, (generate_topic_cloud model i kwargs w).1 = Return wc) ->
   exists w' clouds,
     plot_topic_clouds model cols fig kwargs w = (Return tt, w') /\
     length clouds = num_topics m /\
     (forall i wc, clouds !! i = Some wc ->
                   generate_topic_cloud model i kwargs w = (Return wc, w)) /\
     log w' =
       log w ++
       match fig with None => [Clf (current_figure w)] | Some _ => [] end ++
       concat (imap (fun i wc =>
                       cloud_events (default (current_figure w) fig)
                         (ceil_div (Z.of_nat (num_topics m)) cols) cols i
                         (next_axes w + i)%nat wc)
                    clouds) /\
     heap w' = heap w /\
     next_axes w' = (next_axes w + num_topics m)%nat /\
     Z.of_nat (num_topics m) <= ceil_div (Z.of_nat (num_topics m)) cols * cols
       < Z.of_nat (num_topics m) + cols) /\
  (cols < 0 -> (0 < num_topics m)%nat ->
   ceil_div (Z.of_nat (num_topics m)) cols <= 0 /\
   plot_topic_clouds model cols fig kwargs w =
   (Raise (ValueError ("Number of rows must be a positive integer, not "
                       +:+ pretty (ceil_div (Z.of_nat (num_topics m)) cols))),
    with_log (log w ++ match fig with
                       | None => [Clf (current_figure w)]
                       | Some _ => []
                       end) w)).
Proof.
  intros Hw.
  set (w1 := with_log (log w ++ match fig with
                                | None => [Clf (current_figure w)]
                                | Some _ => []
                                end) w).
  assert (Hstart : cols <> 0 ->
            plot_topic_clouds model cols fig kwargs w =
            for_ (seq 0 (num_topics m)) (fun i =>
              ax <- add_subplot (default (current_figure w) fig)
                      (ceil_div (Z.of_nat (num_topics m)) cols) cols (Z.of_nat i + 1) ;;
              plot_topic_cloud model i (Some ax) kwargs) w1).
  { intros Hcols. unfold plot_topic_clouds.
    erewrite (bind_Return _ _ w (default (current_figure w) fig) w1).
    2:{ destruct fig; simpl; [|done]. unfold ret, w1. rewrite app_nil_r. by destruct w. }
    erewrite bind_Return; [|by apply load_model_run].
    rewrite decide_False by done. by erewrite bind_Return; [|done]. }
  split.
  - intros Hcols Hclouds.
    pose proof (ceil_div_bounds (Z.of_nat (num_topics m)) cols Hcols) as Hgrid.
    destruct (clouds_loop_run model m kwargs (default (current_figure w) fig)
                (ceil_div (Z.of_nat (num_topics m)) cols) cols (num_topics m) 0 w1)
      as (w' & clouds & Hrun & Hlen & Hgen & Hlog & Hheap & Hnext & _).
    { done. }
    { intros Hn. split; [nia|]. split; [done|]. simpl. lia. }
    { intros i Hi. destruct (Hclouds i) as [wc Hwc]; [lia|].
      destruct (generate_topic_cloud_const model m i kwargs) as (o & Ho & _).
      rewrite (Ho w Hw) in Hwc. simpl in Hwc. subst o. by exists wc. }
    exists w', clouds. split; [|split; [done|split; [|split; [|split; [done|split]]]]].
    + rewrite Hstart by lia. exact Hrun.
    + intros i wc Hi. by apply (Hgen i wc Hi w).
    + rewrite Hlog. unfold w1. simpl. by rewrite <- app_assoc.
    + by rewrite Hnext.
    + done.
  - intros Hcols Hn.
    pose proof (ceil_div_negative (Z.of_nat (num_topics m)) cols) as Hrows.
    split; [apply Hrows; lia|].
    rewrite Hstart by lia.
    destruct (num_topics m) as [|n] eqn:En; [lia|]. rewrite <- En in *.
    replace (seq 0 (num_topics m)) with (0%nat :: seq 1 n) by (by rewrite En).
    cbn [for_]. unfold bind at 1. unfold bind at 1. unfold add_subplot.
    by rewrite decide_True by (apply Hrows; lia).
Qed.

(** X14.  With [cols = 0], [plot_topic_clouds] raises [ZeroDivisionError]
    and adds no subplot; when it was given no figure, pyplot's current
    figure has been cleared by then. *)
Theorem plot_topic_clouds_no_columns w (model : loc) (m : TopicModel R)
    (fig : option figure) (kwargs : cloud_kwargs R) :
  heap w !! model = Some (OModel m) ->
  plot_topic_clouds model 0 fig kwargs w =
  (Raise (ZeroDivisionError "float division by zero"),
   with_log (log w ++ match fig with
                      | None => [Clf (current_figure w)]
                      | Some _ => []
                      end) w).
Proof.
  intros Hw. unfold plot_topic_clouds.
  set (w1 := with_log (log w ++ match fig with
                                | None => [Clf (current_figure w)]
                                | Some _ => []
                                end) w).
  erewrite (bind_Return _ _ w (default (current_figure w) fig) w1).
  2:{ destruct fig; simpl; [|done]. unfold ret, w1. rewrite app_nil_r. by destruct w. }
  erewrite bind_Return; [|by apply load_model_run]. done.
Qed.
End clouds.

(** In binary64: a topic the sample model does not have; a row without
    columns; the second topic of the model whose weights there are 0 and 0;
    and the first topic of the sample model, whose cloud is generated. *)
Lemma generate_topic_cloud_edges_witness :
  (@generate_topic_cloud float _ (sample_libraries float) 0%nat 5%nat (default_kwargs float)
     (start [OModel (sample_model float)])).1 =
    Raise (IndexError "index out of bounds") /\
  (@generate_topic_cloud float _ (sample_libraries float) 0%nat 0%nat (default_kwargs float)
     (start [OModel {| topic2token := [[]]; doc2topic := [];
                       dictionary := ∅; num_topics := 1 |}])).1 =
    Raise (ValueError "zero-size array to reduction operation maximum") /\
  (@generate_topic_cloud float _ (sample_libraries float) 0%nat 1%nat (default_kwargs float)
     (start [OModel (flat_model float)])).1 =
    Raise (ValueError "We need at least 1 word to plot a word cloud, got 0.") /\
  (forall wc,
     (@generate_topic_cloud float _ (sample_libraries float) 0%nat 0%nat
        (default_kwargs float) (start [OModel (sample_model float)])).1 = Return wc ->
     exists row,
       topic2token (sample_model float) !! 0%nat = Some row /\
       fit_words wc <> [] /\
       NoDup (fit_words wc).*1 /\
       (length (fit_words wc) <= 100)%nat /\
       prefer_horizontal wc = true /\
       max_font_size wc = kw_max_font_size (default_kwargs float) /\
       background_color wc = kw_background_color (default_kwargs float) /\
       scale wc = 2) /\
  (@generate_topic_cloud float _ (sample_libraries float) 0%nat 0%nat (default_kwargs float)
     (start [OModel (sample_model float)])).1 =
    Return {| prefer_horizontal := true;
              max_font_size := 75;
              background_color := "white";
              color_func := @get_color float _ (@get_cmap float (sample_libraries float) "Blues");
              scale := 2;
              relative_scaling := lit 1 2;
              fit_words := [("data", 0.5%float); ("model", 1%float)] |}.
Proof.
  split; [|split; [|split; [|split]]].
  - refine (proj1 (proj2 (@generate_topic_cloud_edges float _ (sample_libraries float)
                            (start [OModel (sample_model float)]) 0%nat
                            (sample_model float) 5%nat (default_kwargs float) eq_refl)) _).
    reflexivity.
  - refine (proj1 (proj2 (proj2
              (@generate_topic_cloud_edges float _ (sample_libraries float)
                 (start [OModel {| topic2token := [[]]; doc2topic := [];
                                   dictionary := ∅; num_topics := 1 |}]) 0%nat
                 _ 0%nat (default_kwargs float) eq_refl))) _).
    reflexivity.
  - refine (proj1 (proj2 (proj2 (proj2
              (@generate_topic_cloud_edges float _ (sample_libraries float)
                 (start [OModel (flat_model float)]) 0%nat
                 (flat_model float) 1%nat (default_kwargs float) eq_refl))))
              [0; 0]%float eq_refl _ _ _).
    + done.
    + repeat constructor; by eexists.
    + intros x Hx. simpl in Hx.
      apply elem_of_cons in Hx as [->|Hx]; [reflexivity|].
      apply elem_of_cons in Hx as [->|Hx]; [reflexivity|].
      by apply elem_of_nil in Hx.
  - exact (proj2 (proj2 (proj2 (proj2
             (@generate_topic_cloud_edges float _ (sample_libraries float)
                (start [OModel (sample_model float)]) 0%nat
                (sample_model float) 0%nat (default_kwargs float) eq_refl))))).
  - reflexivity.
Defined.

(** In binary64 on the sample model: three columns, and minus three. *)
Lemma plot_topic_clouds_grid_witness :
  (exists w' clouds,
     @plot_topic_clouds float _ (sample_libraries float) 0%nat 3 None (default_kwargs float)
       (start [OModel (sample_model float)]) = (Return tt, w') /\
     length clouds = num_topics (sample_model float) /\
     (forall i wc, clouds !! i = Some wc ->
                   @generate_topic_cloud float _ (sample_libraries float) 0%nat i
                     (default_kwargs float) (start [OModel (sample_model float)]) =
                   (Return wc, start [OModel (sample_model float)])) /\
     log w' =
       [] ++ [Clf 0%nat] ++
       concat (imap (fun i wc =>
                       cloud_events 0%nat
                         (ceil_div (Z.of_nat (num_topics (sample_model float))) 3) 3 i
                         (1 + i)%nat wc)
                    clouds) /\
     heap w' = [OModel (sample_model float)] /\
     next_axes w' = (1 + num_topics (sample_model float))%nat /\
     Z.of_nat (num_topics (sample_model float)) <=
       ceil_div (Z.of_nat (num_topics (sample_model float))) 3 * 3
       < Z.of_nat (num_topics (sample_model float)) + 3) /\
  (ceil_div (Z.of_nat (num_topics (sample_model float))) (-3) <= 0 /\
   @plot_topic_clouds float _ (sample_libraries float) 0%nat (-3) None (default_kwargs float)
     (start [OModel (sample_model float)]) =
   (Raise (ValueError ("Number of rows must be a positive integer, not "
                       +:+ pretty (ceil_div (Z.of_nat (num_topics (sample_model float)))
                                     (-3)))),
    with_log ([] ++ [Clf 0%nat]) (start [OModel (sample_model float)]))).
Proof.
  split.
  - refine (proj1 (@plot_topic_clouds_grid float _ (sample_libraries float)
                     (start [OModel (sample_model float)]) 0%nat (sample_model float) 3 None
                     (default_kwargs float) eq_refl) _ _).
    + lia.
    + intros i Hi. simpl in Hi.
      destruct i as [|[|i]]; [by eexists|by eexists|lia].
  - refine (proj2 (@plot_topic_clouds_grid float _ (sample_libraries float)
                     (start [OModel (sample_model float)]) 0%nat (sample_model float) (-3)
                     None (default_kwargs float) eq_refl) _ _).
    + lia.
    + simpl. lia.
Defined.

Lemma plot_topic_clouds_no_columns_witness :
  @plot_topic_clouds float _ (sample_libraries float) 0%nat 0 None (default_kwargs float)
    (start [OModel (sample_model float)]) =
  (Raise (ZeroDivisionError "float division by zero"),
   with_log ([] ++ [Clf 0%nat]) (start [OModel (sample_model float)])).
Proof.
  apply (@plot_topic_clouds_no_columns float _ (sample_libraries float)
           (start [OModel (sample_model float)]) 0%nat (sample_model float) None
           (default_kwargs float)).
  reflexivity.
Defined.

(** ** The topic map *)

Lemma get_labels (t : nat) :
  String.get t labels =
  if decide (t < 26)%nat then Some (Ascii.ascii_of_nat (65 + t)) else None.
Proof.
  do 26 (destruct t as [|t]; [reflexivity|]).
  rewrite decide_False by lia. reflexivity.
Qed.

Section topic_map.
Context {R : Type} `{Scalar R} `{Libraries R}.
Implicit Types (w : world R).

(** [draw_dot] up to the lookup of the letter. *)
Lemma draw_dot_run w (ax : axes) (model : loc) (m : TopicModel R) (p : R * R) (t : nat)
    (zorder : Z) :
  heap w !! model = Some (OModel m) ->
  num_topics m <> 0%nat ->
  draw_dot ax model p t zorder w =
  if decide (t < 26)%nat
  then (Return tt, with_log (log w ++ dot_events ax (num_topics m) p t zorder) w)
  else (Raise (IndexError "string index out of range"),
        with_log (log w ++ [Draw ax (scatter p.1 p.2 150 (dot_color t (num_topics m)) "o"
                                       (lit 1 2) zorder)]) w).
Proof.
  intros Hw Hn. unfold draw_dot, dot_events, dot_color.
  erewrite bind_Return; [|by apply load_model_run].
  rewrite decide_False by done. erewrite bind_Return; [|done].
  destruct (get_cmap "jet" _) as [[[r g] b] a].
  erewrite bind_Return; [|done]. rewrite get_labels.
  destruct (decide (t < 26)%nat); simpl; [|done].
  erewrite bind_Return; [|done].
  unfold emit, with_log. simpl. by rewrite <- app_assoc.
Qed.

(** X15.  [draw_dot] draws the dot of a topic in the colour of the topic and
    then its letter one layer above: the letters are the 26 capitals, so for
    a topic number of 26 or more it raises [IndexError] with the dot drawn
    and no letter.  For a model of no topics it raises [ZeroDivisionError]
    and draws nothing. *)
Theorem draw_dot_letter w (ax : axes) (model : loc) (m : TopicModel R) (p : R * R)
    (t : nat) (zorder : Z) :
  heap w !! model = Some (OModel m) ->
  (num_topics m = 0%nat ->
   draw_dot ax model p t zorder w =
   (Raise (ZeroDivisionError "float division by zero"), w)) /\
  (num_topics m <> 0%nat -> (t < 26)%nat ->
   draw_dot ax model p t zorder w =
   (Return tt,
    with_log
      (log w ++
       [Draw ax (scatter p.1 p.2 150 (dot_color t (num_topics m)) "o" (lit 1 2) zorder);
        Draw ax (text p.1 p.2 (String (Ascii.ascii_of_nat (65 + t)) EmptyString) 6 (Some "1")
                   "center" "center" (Some "bold") (zorder + 1))]) w)) /\
  (num_topics m <> 0%nat -> (26 <= t)%nat ->
   draw_dot ax model p t zorder w =
   (Raise (IndexError "string index out of range"),
    with_log
      (log w ++
       [Draw ax (scatter p.1 p.2 150 (dot_color t (num_topics m)) "o" (lit 1 2) zorder)])
      w)).
Proof.
  intros Hw. split; [|split].
  - intros Hn. unfold draw_dot.
    erewrite bind_Return; [|by apply load_model_run].
    by rewrite decide_True by done.
  - intros Hn Ht. rewrite (draw_dot_run w ax model m) by done.
    by rewrite decide_True by done.
  - intros Hn Ht. rewrite (draw_dot_run w ax model m) by done.
    by rewrite decide_False by lia.
Qed.
End topic_map.

Lemma draw_dot_letter_witness :
  (num_topics (sample_model float) = 0%nat ->
   @draw_dot float _ (sample_libraries float) 3%nat 0%nat (0.5%float, 0.5%float) 1%nat 4
     (start [OModel (sample_model float)]) =
   (Raise (ZeroDivisionError "float division by zero"),
    start [OModel (sample_model float)])) /\
  (num_topics (sample_model float) <> 0%nat -> (1 < 26)%nat ->
   @draw_dot float _ (sample_libraries float) 3%nat 0%nat (0.5%float, 0.5%float) 1%nat 4
     (start [OModel (sample_model float)]) =
   (Return tt,
    with_log
      ([] ++
       [Draw 3%nat (scatter 0.5%float 0.5%float 150
                      (@dot_color float _ (sample_libraries float) 1%nat 2%nat) "o"
                      (lit 1 2) 4);
        Draw 3%nat (text 0.5%float 0.5%float (String (Ascii.ascii_of_nat (65 + 1)) EmptyString) 6
                      (Some "1") "center" "center" (Some "bold") (4 + 1))])
      (start [OModel (sample_model float)]))) /\
  (num_topics (sample_model float) <> 0%nat -> (26 <= 1)%nat ->
   @draw_dot float _ (sample_libraries float) 3%nat 0%nat (0.5%float, 0.5%float) 1%nat 4
     (start [OModel (sample_model float)]) =
   (Raise (IndexError "string index out of range"),
    with_log
      ([] ++
       [Draw 3%nat (scatter 0.5%float 0.5%float 150
                      (@dot_color float _ (sample_libraries float) 1%nat 2%nat) "o"
                      (lit 1 2) 4)])
      (start [OModel (sample_model float)]))).
Proof.
  exact (@draw_dot_letter float _ (sample_libraries float)
           (start [OModel (sample_model float)]) 3%nat 0%nat (sample_model float)
           (0.5%float, 0.5%float) 1%nat 4 eq_refl).
Defined.

Section layers.
Context {R : Type} `{Scalar R} `{Libraries R}.
Implicit Types (w : world R).

Lemma lookup_all_run (dic : gmap nat string) (l : list nat) (tokens : list string) w :
  lookup_all dic l = Some tokens ->
  comprehension l (fun i => of_option (KeyError (pretty i)) (dic !! i)) w =
  (Return tokens, w).
Proof.
  revert tokens. induction l as [|i l IH]; intros tokens; simpl.
  - by intros [= <-].
  - destruct (dic !! i) as [token|]; [|done].
    destruct (lookup_all dic l) as [tokens'|]; [|done]. intros [= <-].
    erewrite bind_Return; [|done]. erewrite bind_Return; [|by apply IH]. done.
Qed.

(** The loop of lines 380-383 from the layer [z] on. *)
Lemma dots_loop_run (ax : axes) (model : loc) (m : TopicModel R) (pos : list (R * R))
    (perm : list nat) :
  forall (z : Z) w,
    heap w !! model = Some (OModel m) ->
    num_topics m <> 0%nat ->
    (forall i, i ∈ perm ->
       exists t p, dominant m i = Some t /\ (t < 26)%nat /\ pos !! i = Some p) ->
    exists dots,
      for_zorder perm z (fun i zorder =>
        m' <- load_model model ;;
        row <- of_option (IndexError "index out of bounds") (doc2topic m' !! i) ;;
        topic_id <- of_option (ValueError "attempt to get argmax of an empty sequence")
                      (argmax (zip_with sub row (column_average (doc2topic m)))) ;;
        p <- of_option (IndexError "index out of bounds") (pos !! i) ;;
        draw_dot ax model p topic_id zorder ;;
        ret (zorder + 2)) w =
      (Return (z + 2 * Z.of_nat (length perm)), with_log (log w ++ concat dots) w) /\
      length dots = length perm /\
      (forall (j i : nat), perm !! j = Some i ->
         exists t p, dominant m i = Some t /\ pos !! i = Some p /\
                     dots !! j = Some (dot_events ax (num_topics m) p t (z + 2 * Z.of_nat j))).
Proof.
  induction perm as [|i perm IH]; intros z w Hw Hn Hdocs.
  - exists []. simpl. rewrite app_nil_r, Z.add_0_r.
    split; [by destruct w|]. split; [done|]. intros j i Hj. by rewrite lookup_nil in Hj.
  - destruct (Hdocs i) as (t & p & Ht & Hlt & Hp); [apply list_elem_of_here|].
    unfold dominant in Ht. destruct (doc2topic m !! i) as [row|] eqn:Erow; [|done].
    set (w1 := with_log (log w ++ dot_events ax (num_topics m) p t z) w).
    destruct (IH (z + 2) w1) as (dots & Hrun & Hlen & Hdots); [done|done| |].
    { intros i' Hi'. by apply Hdocs, list_elem_of_further. }
    exists (dot_events ax (num_topics m) p t z :: dots).
    split; [|split].
    + simpl for_zorder.
      erewrite (bind_Return _ _ w (z + 2) w1).
      2:{ erewrite bind_Return; [|by apply load_model_run].
          rewrite Erow. simpl. erewrite bind_Return; [|done].
          rewrite Ht. simpl. erewrite bind_Return; [|done].
          rewrite Hp. simpl. erewrite bind_Return; [|done].
          erewrite bind_Return.
          2:{ rewrite (draw_dot_run w ax model m) by done. by rewrite decide_True by done. }
          done. }
      rewrite Hrun. f_equal; [f_equal; simpl length; lia|].
      unfold w1, with_log. simpl. by rewrite <- app_assoc.
    + simpl. by rewrite Hlen.
    + intros [|j] i' Hj.
      * injection Hj as <-. exists t, p. unfold dominant. rewrite Erow.
        split; [done|]. split; [done|]. simpl. do 2 f_equal. lia.
      * destruct (Hdots j i' Hj) as (t' & p' & Ht' & Hp' & Hd).
        exists t', p'. split; [done|]. split; [done|]. simpl. rewrite Hd.
        do 2 f_equal. lia.
Qed.

(** The loop of lines 386-392 from the topic [start] and the layer [z] on. *)
Lemma legend_loop_run (ax : axes) (model dic : loc) (m : TopicModel R)
    (d : gmap nat string) (k : nat) :
  forall (start : nat) (z : Z) w,
    heap w !! model = Some (OModel m) ->
    heap w !! dic = Some (ODictionary d) ->
    num_topics m <> 0%nat ->
    (forall i, (start <= i < start + k)%nat ->
       (i < 26)%nat /\ is_Some (legend_label m d i)) ->
    exists legend,
      for_zorder (seq start k) z (fun i zorder =>
        let y := sub (lit 95 100) (mul (of_Z (Z.of_nat i)) (lit 5 100)) in
        m' <- load_model model ;;
        row <- of_option (IndexError "index out of bounds") (topic2token m' !! i) ;;
        d' <- load_dictionary dic ;;
        tokens <- comprehension (take 3 (reverse (argsort row)))
                    (fun t => of_option (KeyError (pretty t)) (d' !! t)) ;;
        draw_dot ax model (lit 15 1000, y) i 0 ;;
        emit (Draw ax (text (lit 3 100) y (join tokens) 8 None "center" "left" None zorder)) ;;
        ret (zorder + 1)) w =
      (Return (z + Z.of_nat k), with_log (log w ++ concat legend) w) /\
      length legend = k /\
      (forall j, (j < k)%nat ->
         exists label,
           legend_label m d (start + j) = Some label /\
           legend !! j =
           Some (legend_events ax (num_topics m) (start + j) label (z + Z.of_nat j))).
Proof.
  induction k as [|k IH]; intros start z w Hw Hd Hn Hlegend.
  - exists []. simpl. rewrite app_nil_r, Z.add_0_r.
    split; [by destruct w|]. split; [done|]. intros j Hj. lia.
  - destruct (Hlegend start) as [Hlt [label Hlabel]]; [lia|].
    unfold legend_label in Hlabel.
    destruct (topic2token m !! start) as [row|] eqn:Erow; [|done].
    destruct (lookup_all d (take 3 (reverse (argsort row)))) as [tokens|] eqn:Etokens;
      [|done].
    injection Hlabel as <-.
    set (w1 := with_log (log w ++ legend_events ax (num_topics m) start (join tokens) z) w).
    destruct (IH (S start) (z + 1) w1) as (legend & Hrun & Hlen & Hleg); [done|done|done| |].
    { intros i Hi. apply Hlegend. lia. }
    exists (legend_events ax (num_topics m) start (join tokens) z :: legend).
    split; [|split].
    + cbn [seq for_zorder].
      erewrite (bind_Return _ _ w (z + 1) w1).
      2:{ cbv zeta. erewrite bind_Return; [|by apply load_model_run].
          rewrite Erow. simpl. erewrite bind_Return; [|done].
          erewrite bind_Return; [|by apply load_dictionary_run].
          erewrite bind_Return; [|by apply lookup_all_run].
          erewrite bind_Return.
          2:{ rewrite (draw_dot_run w ax model m) by done. by rewrite decide_True by done. }
          erewrite bind_Return; [|done].
          unfold ret, w1, legend_events, with_log. simpl. by rewrite <- app_assoc. }
      cbv zeta in Hrun. rewrite Hrun. f_equal; [f_equal; lia|].
      unfold w1, with_log. simpl. by rewrite <- app_assoc.
    + simpl. by rewrite Hlen.
    + intros [|j] Hj.
      * exists (join tokens). rewrite Nat.add_0_r. unfold legend_label.
        rewrite Erow, Etokens. split; [done|]. simpl. do 2 f_equal. lia.
      * destruct (Hleg j) as (label & Hlabel & Hl); [lia|].
        exists label. replace (start + S j)%nat with (S start + j)%nat by lia.
        split; [done|]. simpl. rewrite Hl. do 2 f_equal. lia.
Qed.
End layers.

Section topic_map_layers.
Context {R : Type} `{Scalar R} `{Libraries R}.
Implicit Types (w : world R).

(** X16.  When the embedding can be normalised, every document of the
    permutation has a dominant topic with a letter and a position, and every
    topic has a letter and a label, [plot_topic_map] returns; it leaves the
    store as it was and draws from numpy's global generator once.  After the
    console output of TSNE, the ticks and the limits, it draws the documents
    in the order of the permutation, the [j]-th dot on layer [2j] and its
    letter on layer [2j+1], and then the legend: for each topic a dot and
    its letter on layers 0 and 1, and the label of the topic on the layer
    after those of all documents and of the earlier labels. *)
Theorem plot_topic_map_layers w (model dic freqs : loc) (ax : option axes) (seed : Z)
    (m : TopicModel R) (d : gmap nat string) (f : Freqs) (pos : list (R * R)) :
  heap w !! model = Some (OModel m) ->
  heap w !! dic = Some (ODictionary d) ->
  heap w !! freqs = Some (OFreqs f) ->
  normalize (tsne_fit_transform seed (svd_fit_transform seed (create_tfidf f d))) = Some pos ->
  num_topics m <> 0%nat ->
  (forall i, i ∈ random_permutation (rng w) (length (doc2topic m)) ->
     exists t p, dominant m i = Some t /\ (t < 26)%nat /\ pos !! i = Some p) ->
  (forall i, (i < num_topics m)%nat -> (i < 26)%nat /\ is_Some (legend_label m d i)) ->
  exists w' dots legend,
    plot_topic_map model dic freqs ax seed w = (Return tt, w') /\
    heap w' = heap w /\
    rng w' = S (rng w) /\
    log w' =
      log w ++
      [Verbose "TSNE";
       Draw (default (current_axes w) ax) (set_xticks []);
       Draw (default (current_axes w) ax) (set_yticks []);
       Draw (default (current_axes w) ax) (set_xlim 0 1);
       Draw (default (current_axes w) ax) (set_ylim 0 1);
       GlobalRandom (length (doc2topic m))] ++
      concat dots ++ concat legend /\
    length dots = length (random_permutation (rng w) (length (doc2topic m))) /\
    (forall (j i : nat),
       random_permutation (rng w) (length (doc2topic m)) !! j = Some i ->
       exists t p,
         dominant m i = Some t /\ pos !! i = Some p /\
         dots !! j =
         Some (dot_events (default (current_axes w) ax) (num_topics m) p t
                 (2 * Z.of_nat j))) /\
    length legend = num_topics m /\
    (forall i, (i < num_topics m)%nat ->
       exists label,
         legend_label m d i = Some label /\
         legend !! i =
         Some (legend_events (default (current_axes w) ax) (num_topics m) i label
                 (2 * Z.of_nat (length (random_permutation (rng w)
                                          (length (doc2topic m)))) +
                  Z.of_nat i))).
Proof.
  intros Hm Hd Hf Hnorm Hn Hdocs Hlegend.
  set (a := default (current_axes w) ax).
  set (perm := random_permutation (rng w) (length (doc2topic m))) in *.
  set (w1 := World (heap w) (current_figure w) (current_axes w) (next_axes w) (S (rng w))
               (log w ++ [Verbose "TSNE"; Draw a (set_xticks []); Draw a (set_yticks []);
                          Draw a (set_xlim 0 1); Draw a (set_ylim 0 1);
                          GlobalRandom (length (doc2topic m))])).
  destruct (dots_loop_run a model m pos perm 0 w1 Hm Hn Hdocs) as (dots & Hdots & Hlen & Hdot).
  destruct (legend_loop_run a model dic m d (num_topics m) 0
              (0 + 2 * Z.of_nat (length perm)) (with_log (log w1 ++ concat dots) w1)
              Hm Hd Hn)
    as (legend & Hleg & Hlen' & Hlabel).
  { intros i Hi. apply Hlegend. lia. }
  eexists _, dots, legend. split.
  - unfold plot_topic_map.
    erewrite (bind_Return _ _ w a w); [|by destruct ax].
    erewrite bind_Return; [|by apply load_freqs_run].
    erewrite bind_Return; [|by apply load_dictionary_run].
    erewrite bind_Return; [|done].
    rewrite Hnorm. simpl of_option.
    erewrite bind_Return; [|done].
    erewrite bind_Return; [|done]. erewrite bind_Return; [|done].
    erewrite bind_Return; [|done]. erewrite bind_Return; [|done].
    erewrite bind_Return; [|by apply load_model_run].
    erewrite (bind_Return _ _ _ perm w1).
    2:{ unfold np_random_permutation, emit, with_log, w1, perm. simpl.
        by rewrite <- !app_assoc. }
    erewrite bind_Return; [|exact Hdots].
    erewrite bind_Return; [|by apply load_model_run].
    erewrite bind_Return; [|exact Hleg]. done.
  - simpl. split; [done|]. split; [done|]. split.
    { by rewrite <- !app_assoc. }
    split; [done|]. split.
    { intros j i Hj. destruct (Hdot j i Hj) as (t & p & Ht & Hp & Hj').
      exists t, p. by rewrite Z.add_0_l in Hj'. }
    split; [done|].
    intros i Hi. destruct (Hlabel i Hi) as (label & Hl & Hi').
    exists label. split; [done|]. simpl in Hi'. by rewrite Z.add_0_l in Hi'.
Qed.
End topic_map_layers.

Lemma plot_topic_map_layers_witness :
  exists w' dots legend,
    @plot_topic_map float _ (sample_libraries float) 0%nat 1%nat 2%nat (Some 5%nat) 0
      (start sample_store) = (Return tt, w') /\
    heap w' = sample_store /\
    rng w' = 1%nat /\
    log w' =
      [] ++
      [Verbose "TSNE";
       Draw 5%nat (set_xticks []);
       Draw 5%nat (set_yticks []);
       Draw 5%nat (set_xlim 0 1);
       Draw 5%nat (set_ylim 0 1);
       GlobalRandom (length (doc2topic (sample_model float)))] ++
      concat dots ++ concat legend /\
    length dots = length (seq 0 (length (doc2topic (sample_model float)))) /\
    (forall (j i : nat),
       seq 0 (length (doc2topic (sample_model float))) !! j = Some i ->
       exists t p,
         dominant (sample_model float) i = Some t /\
         [(lit 5 100, lit 5 100);
          (0x1.e666666666667p-1%float, 0x1.e666666666667p-1%float)] !! i = Some p /\
         dots !! j =
         Some (@dot_events float _ (sample_libraries float) 5%nat
                 (num_topics (sample_model float)) p t (2 * Z.of_nat j))) /\
    length legend = num_topics (sample_model float) /\
    (forall i, (i < num_topics (sample_model float))%nat ->
       exists label,
         @legend_label float _ (sample_libraries float) (sample_model float)
           {[ 0%nat := "data"; 1%nat := "model" ]} i = Some label /\
         legend !! i =
         Some (@legend_events float _ (sample_libraries float) 5%nat
                 (num_topics (sample_model float)) i label
                 (2 * Z.of_nat (length (seq 0 (length (doc2topic (sample_model float))))) +
                  Z.of_nat i))).
Proof.
  refine (@plot_topic_map_layers float _ (sample_libraries float) (start sample_store)
            0%nat 1%nat 2%nat (Some 5%nat) 0 (sample_model float)
            {[ 0%nat := "data"; 1%nat := "model" ]} []
            [(lit 5 100, lit 5 100);
             (0x1.e666666666667p-1%float, 0x1.e666666666667p-1%float)]
            eq_refl eq_refl eq_refl eq_refl _ _ _).
  - simpl. lia.
  - intros i Hi. simpl in Hi.
    apply elem_of_cons in Hi as [->|Hi].
    { exists 0%nat, (lit 5 100, lit 5 100).
      split; [reflexivity|]. split; [lia|reflexivity]. }
    apply elem_of_cons in Hi as [->|Hi].
    { exists 1%nat, (0x1.e666666666667p-1%float, 0x1.e666666666667p-1%float).
      split; [reflexivity|]. split; [lia|reflexivity]. }
    by apply elem_of_nil in Hi.
  - intros i Hi. simpl in Hi.
    destruct i as [|[|i]]; [split; [lia|by eexists]|split; [lia|by eexists]|lia].
Defined.

Section one_cloud.
Context {R : Type} `{Scalar R} `{Libraries R}.
Implicit Types (w : world R).

(** What [generate_topic_cloud] returns or raises depends on the store
    alone, and it leaves the world as it was. *)
Lemma generate_topic_cloud_world (model : loc) (topicid : nat) (kwargs : cloud_kwargs R)
    w w' :
  heap w' = heap w ->
  generate_topic_cloud model topicid kwargs w' =
  ((generate_topic_cloud model topicid kwargs w).1, w').
Proof.
  intros Hheap.
  destruct (heap w !! model) as [o|] eqn:Ho.
  - destruct o as [ds|b t|m|f|d].
    3:{ destruct (generate_topic_cloud_const model m topicid kwargs) as (o & Hrun & _).
        rewrite (Hrun w Ho), (Hrun w'); [done|]. by rewrite Hheap. }
    all: unfold generate_topic_cloud, load_model, load, bind, get_heap, of_option;
      rewrite Hheap, Ho; reflexivity.
  - unfold generate_topic_cloud, load_model, load, bind, get_heap, of_option.
    rewrite Hheap, Ho. reflexivity.
Qed.

(** X17.  [plot_topic_cloud] removes the ticks of its axes before it
    generates the cloud.  When the cloud is generated it is shown on the
    axes; when generating it raises, the exception goes on to the caller
    with the ticks removed and nothing shown.  The store is left as it
    was. *)
Theorem plot_topic_cloud_ticks_first w (model : loc) (topicid : nat) (ax : option axes)
    (kwargs : cloud_kwargs R) :
  plot_topic_cloud model topicid ax kwargs w =
  match (generate_topic_cloud model topicid kwargs w).1 with
  | Return wc =>
      (Return tt,
       with_log (log w ++ [Draw (default (current_axes w) ax) (set_xticks []);
                           Draw (default (current_axes w) ax) (set_yticks []);
                           Draw (default (current_axes w) ax) (imshow wc "bilinear")]) w)
  | Raise e =>
      (Raise e,
       with_log (log w ++ [Draw (default (current_axes w) ax) (set_xticks []);
                           Draw (default (current_axes w) ax) (set_yticks [])]) w)
  end.
Proof.
  unfold plot_topic_cloud.
  set (a := default (current_axes w) ax).
  erewrite (bind_Return _ _ w a w); [|by destruct ax].
  erewrite bind_Return; [|done]. erewrite bind_Return; [|done].
  unfold bind at 1.
  rewrite (generate_topic_cloud_world model topicid kwargs w) by done.
  destruct (generate_topic_cloud model topicid kwargs w).1 as [wc|e].
  - unfold emit, with_log. simpl. by rewrite <- !app_assoc.
  - unfold emit, with_log. simpl. by rewrite <- !app_assoc.
Qed.
End one_cloud.

(** ** Affiliations *)



(** ** A cloud that cannot be generated *)

Lemma for_app {R A} (l1 l2 : list A) (body : A -> Py R unit) (w : world R) :
  for_ (l1 ++ l2) body w =
  match for_ l1 body w with
  | (Return _, w1) => for_ l2 body w1
  | (Raise e, w1) => (Raise e, w1)
  end.
Proof.
  revert w. induction l1 as [|a l1 IH]; intros w; simpl; [done|].
  unfold bind. destruct (body a w) as [[[]|e] w1]; [apply IH|done].
Qed.

Section failing_cloud.
Context {R : Type} `{Scalar R} `{Libraries R}.
Implicit Types (w : world R).

(** X19.  For a positive [cols], when generating the cloud of the topic [i]
    raises and the clouds of the topics before it can be generated,
    [plot_topic_clouds] raises the same exception.  By then it has added and filled the subplots of
    the topics before [i], and has added the subplot of the topic [i] and
    removed its ticks; the store is as it was. *)
Theorem plot_topic_clouds_failure w (model : loc) (m : TopicModel R) (cols : Z)
    (fig : option figure) (kwargs : cloud_kwargs R) (i : nat) (e : exn) :
  heap w !! model = Some (OModel m) ->
  0 < cols ->
  (i < num_topics m)%nat ->
  (forall j, (j < i)%nat ->
     exists wc, (generate_topic_cloud model j kwargs w).1 = Return wc) ->
  (generate_topic_cloud model i kwargs w).1 = Raise e ->
  exists w' clouds,
    plot_topic_clouds model cols fig kwargs w = (Raise e, w') /\
    length clouds = i /\
    (forall j wc, clouds !! j = Some wc ->
                  generate_topic_cloud model j kwargs w = (Return wc, w)) /\
    log w' =
      log w ++
      match fig with None => [Clf (current_figure w)] | Some _ => [] end ++
      concat (imap (fun j wc =>
                      cloud_events (default (current_figure w) fig)
                        (ceil_div (Z.of_nat (num_topics m)) cols) cols j
                        (next_axes w + j)%nat wc)
                   clouds) ++
      [AddSubplot (default (current_figure w) fig)
         (ceil_div (Z.of_nat (num_topics m)) cols) cols (Z.of_nat i + 1)
         (next_axes w + i)%nat;
       Draw (next_axes w + i)%nat (set_xticks []);
       Draw (next_axes w + i)%nat (set_yticks [])] /\
    heap w' = heap w /\
    next_axes w' = S (next_axes w + i).
Proof.
  intros Hw Hcols Hi Hclouds Hfail.
  set (figure := default (current_figure w) fig).
  set (rows := ceil_div (Z.of_nat (num_topics m)) cols).
  set (w1 := with_log (log w ++ match fig with
                                | None => [Clf (current_figure w)]
                                | Some _ => []
                                end) w).
  pose proof (ceil_div_bounds (Z.of_nat (num_topics m)) cols Hcols) as Hgrid.
  fold rows in Hgrid.
  assert (Hrows : 0 < rows) by nia.
  destruct (clouds_loop_run model m kwargs figure rows cols i 0 w1)
    as (w2 & clouds & Hrun & Hlen & Hgen & Hlog & Hheap & Hnext & _).
  { done. }
  { intros _. split; [exact Hrows|]. split; [done|]. simpl. lia. }
  { intros j Hj. destruct (Hclouds j) as [wc Hwc]; [lia|].
    destruct (generate_topic_cloud_const model m j kwargs) as (o & Ho & _).
    rewrite (Ho w Hw) in Hwc. simpl in Hwc. subst o. by exists wc. }
  set (a := next_axes w2).
  set (w3 := with_log (log w2 ++ [AddSubplot figure rows cols (Z.of_nat i + 1) a;
                                  Draw a (set_xticks []); Draw a (set_yticks [])])
               (World (heap w2) (current_figure w2)
                  (if decide (figure = current_figure w2) then a else current_axes w2)
                  (S a) (rng w2) (log w2))).
  exists w3, clouds. split; [|split; [done|split; [|split; [|split]]]].
  - unfold plot_topic_clouds.
    erewrite (bind_Return _ _ w figure w1).
    2:{ unfold figure. destruct fig; simpl; [|done].
        unfold ret, w1. rewrite app_nil_r. by destruct w. }
    erewrite bind_Return; [|by apply load_model_run].
    rewrite decide_False by lia. erewrite bind_Return; [|done].
    assert (Hseq : seq 0 (num_topics m) = seq 0 i ++ i :: seq (S i) (num_topics m - S i)).
    { replace (num_topics m) with (i + S (num_topics m - S i))%nat at 1 by lia.
      by rewrite seq_app. }
    rewrite Hseq, for_app. fold rows. rewrite Hrun.
    cbn [for_]. unfold bind at 1.
    erewrite bind_Return; [|apply add_subplot_run; [exact Hrows|exact Hcols|lia]].
    unfold plot_topic_cloud.
    erewrite bind_Return; [|done]. erewrite bind_Return; [|done].
    erewrite bind_Return; [|done]. unfold bind at 1.
    erewrite generate_topic_cloud_world with (w := w);
      [|simpl; by rewrite Hheap].
    rewrite Hfail. unfold emit, with_log, w3, a. simpl. by rewrite <- !app_assoc.
  - intros j wc Hj. by apply (Hgen j wc Hj w).
  - unfold w3, a. simpl. rewrite Hlog, Hnext. unfold w1. simpl.
    by rewrite <- !app_assoc.
  - unfold w3. simpl. by rewrite Hheap.
  - unfold w3, a. simpl. by rewrite Hnext.
Qed.
End failing_cloud.

(** In binary64: the second topic of the model whose weights there are
    0 and 0 has no word to show. *)
Lemma plot_topic_clouds_failure_witness :
  exists w' clouds,
    @plot_topic_clouds float _ (sample_libraries float) 0%nat 3 None (default_kwargs float)
      (start [OModel (flat_model float)]) =
      (Raise (ValueError "We need at least 1 word to plot a word cloud, got 0."), w') /\
    length clouds = 1%nat /\
    (forall j wc, clouds !! j = Some wc ->
       @generate_topic_cloud float _ (sample_libraries float) 0%nat j (default_kwargs float)
         (start [OModel (flat_model float)]) =
       (Return wc, start [OModel (flat_model float)])) /\
    log w' =
      [] ++ [Clf 0%nat] ++
      concat (imap (fun j wc =>
                      cloud_events 0%nat (ceil_div (Z.of_nat (num_topics (flat_model float))) 3)
                        3 j (1 + j)%nat wc)
                   clouds) ++
      [AddSubplot 0%nat (ceil_div (Z.of_nat (num_topics (flat_model float))) 3) 3
         (Z.of_nat 1 + 1) (1 + 1)%nat;
       Draw (1 + 1)%nat (set_xticks []);
       Draw (1 + 1)%nat (set_yticks [])] /\
    heap w' = [OModel (flat_model float)] /\
    next_axes w' = S (1 + 1).
Proof.
  refine (@plot_topic_clouds_failure float _ (sample_libraries float)
            (start [OModel (flat_model float)])
            0%nat (flat_model float) 3 None (default_kwargs float) 1%nat
            (ValueError "We need at least 1 word to plot a word cloud, got 0.")
            eq_refl _ _ _ eq_refl).
  - lia.
  - simpl. lia.
  - intros j Hj. destruct j as [|j]; [by eexists|lia].
Defined.

